(** * Youtube-Downloader: a shallow embedding of [app.py]

    The development follows the source file top to bottom: the string
    helpers of the Python runtime that the program relies on, the pure
    functions ([sanitize_filename], [format_duration], [format_views],
    [get_video_id]), the two shared tables with the progress callback,
    the download orchestrator and the HTTP end points.

    Conventions.
    - A Python [str] is a Rocq [string]; one [ascii] stands for one
      character, so the embedding is exact on single-byte text.
    - [None] of Python is [None] of [option].
    - A Python [float] is a rational of [Q].  Where the program prints
      a float, the IEEE-754 rounding of the quotient is computed
      ([PyFloat]); where it only stores and compares one, the rounding
      is a parameter of the development ([float_round]), of which the
      theorems ask at most that it be monotone and exact on 0, 1 and
      100, as the rounding to the nearest double [PyFloat.round] is.
    - A raised exception is the [Raise] outcome of the [M] monad. *)

From Stdlib Require Import ZArith QArith Qround Qpower Ascii String List Sorted Lia.
From stdpp Require Import base option list strings pretty gmap fin_maps.

Local Open Scope string_scope.
Local Open Scope Z_scope.

(** ** Python strings *)

Module PyStr.

(** [len(s)] *)
Definition len (s : string) : Z := Z.of_nat (String.length s).

(** [s[:n]] for [n >= 0] *)
Fixpoint take (n : nat) (s : string) : string :=
  match n, s with
  | O, _ => ""
  | S _, "" => ""
  | S n', String c s' => String c (take n' s')
  end.

(** [s[n:]] for [n >= 0] *)
Fixpoint drop (n : nat) (s : string) : string :=
  match n, s with
  | O, _ => s
  | S _, "" => ""
  | S n', String _ s' => drop n' s'
  end.

(** [s.startswith(p)] *)
Fixpoint startswith (p s : string) : bool :=
  match p, s with
  | "", _ => true
  | String _ _, "" => false
  | String a p', String b s' => if Ascii.eqb a b then startswith p' s' else false
  end.

(** [p in s]: [p] occurs in [s] as a contiguous substring *)
Fixpoint contains (p s : string) : bool :=
  startswith p s ||
  match s with
  | "" => false
  | String _ s' => contains p s'
  end.

(** [s.replace(a, b)] for one-character [a] and [b] *)
Fixpoint replace_char (a b : ascii) (s : string) : string :=
  match s with
  | "" => ""
  | String c s' => String (if Ascii.eqb c a then b else c) (replace_char a b s')
  end.

(** [s.lower()] on the letters A-Z; other characters are kept *)
Definition lower_char (c : ascii) : ascii :=
  let n := N_of_ascii c in
  if ((65 <=? n) && (n <=? 90))%N then ascii_of_N (n + 32) else c.

Fixpoint lower (s : string) : string :=
  match s with
  | "" => ""
  | String c s' => String (lower_char c) (lower s')
  end.

(** [c in s] for a character [c] *)
Fixpoint mem_char (c : ascii) (s : string) : bool :=
  match s with
  | "" => false
  | String d s' => Ascii.eqb c d || mem_char c s'
  end.

(** the truth value of an optional string: [None] and [''] are false *)
Definition truthy (o : option string) : bool :=
  match o with
  | None => false
  | Some "" => false
  | Some _ => true
  end.

End PyStr.

(** ** Outcomes of Python computations *)

Inductive outcome (A : Type) : Type :=
| Ret (a : A)
| Raise (msg : string).
Arguments Ret {A} a.
Arguments Raise {A} msg.

(** ** Python floats that get printed *)

Module PyFloat.

(** nearest integer to [n/d] for [d > 0], ties to the even neighbour *)
Definition rne (n d : Z) : Z :=
  let q := n / d in
  let r := n mod d in
  match (2 * r ?= d) with
  | Lt => q
  | Gt => q + 1
  | Eq => if Z.even q then q else q + 1
  end.

(** [floor (log2 (n/d))] for [n, d > 0] *)
Definition ilog2 (n d : Z) : Z :=
  if d <=? n then Z.log2 (n / d) else - Z.log2_up ((d + n - 1) / n).

(** The binary64 value nearest to the positive rational [n/d], as a
    pair [(m, e)] standing for [m * 2^e], with [m] of at most 53 bits
    (after a carry, the power [2^53] itself) and [e >= -1074].
    [true_divide] is what [int / int] computes; its [Raise] is the
    OverflowError of a quotient beyond the largest double. *)
Definition nearest_double (n d : Z) : Z * Z :=
  let e := Z.max (ilog2 n d) (-1022) in
  let sh := 52 - e in
  let m := if 0 <=? sh then rne (n * 2 ^ sh) d else rne n (d * 2 ^ (- sh)) in
  (m, e - 52).

Definition true_divide (n d : Z) : outcome (Z * Z) :=
  let '(m, e) := nearest_double n d in
  if (0 <=? e) && (2 ^ 1024 <=? m * 2 ^ e)
  then Raise "integer division result too large for a float"
  else Ret (m, e).

(** the rational [m * 2^e] *)
Definition to_Q (x : Z * Z) : Q :=
  let '(m, e) := x in
  if 0 <=? e then inject_Z (m * 2 ^ e) else Qmake m (Z.to_pos (2 ^ (- e))).

(** The double nearest to a rational, as a rational: the rounding every
    float operation applies to its exact result, for results within
    the range of doubles.  The fraction is given in lowest terms. *)
Definition round (q : Q) : Q :=
  match Qnum q with
  | Z0 => 0%Q
  | Zpos n => Qred (to_Q (nearest_double (Zpos n) (Zpos (Qden q))))
  | Zneg n => Qopp (Qred (to_Q (nearest_double (Zpos n) (Zpos (Qden q)))))
  end.

(** The pieces of [nearest_double]: the rational [n/d], the fraction
    [n/d * 2^k] with the power of two put on the side where it is a
    whole number, the exponent of the binade (no lower than that of the
    subnormals), and the mantissa that results. *)
Definition ratio (n d : Z) : Q := (inject_Z n / inject_Z d)%Q.

Definition scaled (n d k : Z) : Z * Z :=
  if 0 <=? k then (n * 2 ^ k, d) else (n, d * 2 ^ (- k)).

Definition exponent (n d : Z) : Z := Z.max (ilog2 n d) (-1022).
Definition shift (n d : Z) : Z := 52 - exponent n d.
Definition mantissa (n d : Z) : Z :=
  rne (scaled n d (shift n d)).1 (scaled n d (shift n d)).2.

(** the value of the nearest double *)
Definition value (n d : Z) : Q := to_Q (nearest_double n d).

(** [f"{x:.1f}"] for a non-negative double [x = m * 2^e]: the exact
    binary value is rounded to one decimal, ties to even *)
Definition format_1f (x : Z * Z) : string :=
  let '(m, e) := x in
  let tenths := if 0 <=? e then 10 * m * 2 ^ e else rne (10 * m) (2 ^ (- e)) in
  pretty (tenths / 10) +:+ "." +:+ pretty (tenths mod 10).

End PyFloat.

(** [f"{n:02d}"]: sign-aware zero padding to width two *)
Definition format_02d (n : Z) : string :=
  if (0 <=? n) && (n <? 10) then "0" +:+ pretty n else pretty n.

(** ** [sanitize_filename] *)

(** the character class of the regular expression: the nine characters
    less-than, greater-than, colon, double quote (code 34), slash,
    backslash, bar, question mark and star *)
Definition invalid_char (c : ascii) : bool :=
  PyStr.mem_char c (String "034" "<>:/\|*?").

(** [re.sub] of that class by the empty string *)
Fixpoint re_sub_invalid (s : string) : string :=
  match s with
  | "" => ""
  | String c s' => if invalid_char c then re_sub_invalid s' else String c (re_sub_invalid s')
  end.

Definition sanitize_filename (filename : string) : string :=
  let filename := re_sub_invalid filename in
  let filename := PyStr.replace_char " " "_" filename in
  if 150 <? PyStr.len filename then PyStr.take 150 filename else filename.

(** ** [format_duration] and [format_views]

    The argument is an integer number of seconds (views), or [None]. *)

Definition format_duration (duration : option Z) : string :=
  match duration with
  | None | Some 0 => "Unknown"
  | Some duration =>
      let hours := duration / 3600 in
      let minutes := (duration mod 3600) / 60 in
      let seconds := duration mod 60 in
      if 0 <? hours
      then pretty hours +:+ ":" +:+ format_02d minutes +:+ ":" +:+ format_02d seconds
      else pretty minutes +:+ ":" +:+ format_02d seconds
  end.

Definition format_views (views : option Z) : outcome string :=
  match views with
  | None | Some 0 => Ret "Unknown"
  | Some views =>
      if 1000000 <=? views then
        match PyFloat.true_divide views 1000000 with
        | Ret x => Ret (PyFloat.format_1f x +:+ "M")
        | Raise e => Raise e
        end
      else if 1000 <=? views then
        match PyFloat.true_divide views 1000 with
        | Ret x => Ret (PyFloat.format_1f x +:+ "K")
        | Raise e => Raise e
        end
      else Ret (pretty views)
  end.

(** ** Paths and the download directory

    [os.path] on a POSIX system. *)

Module OsPath.

(** index of the last occurrence of [c] in [s], [-1] when there is none:
    [s.rfind(c)] *)
Fixpoint rfind_from (c : ascii) (s : string) (i : Z) (last : Z) : Z :=
  match s with
  | "" => last
  | String d s' => rfind_from c s' (i + 1) (if Ascii.eqb c d then i else last)
  end.
Definition rfind (c : ascii) (s : string) : Z := rfind_from c s 0 (-1).

(** [os.path.join(a, b)] *)
Definition join (a b : string) : string :=
  if PyStr.startswith "/" b then b
  else if String.eqb a "" || String.eqb (PyStr.drop (String.length a - 1) a) "/"
       then a +:+ b
       else a +:+ "/" +:+ b.

(** [os.path.basename(p)] *)
Definition basename (p : string) : string :=
  PyStr.drop (Z.to_nat (rfind "/" p + 1)) p.

(** the loop of [genericpath._splitext] that skips the leading dots of
    the last component: is there a character other than a dot in
    [p[lo:hi]]? *)
Fixpoint has_non_dot (p : string) (lo hi : nat) : bool :=
  match p with
  | "" => false
  | String c p' =>
      match hi with
      | O => false
      | S hi' =>
          match lo with
          | O => negb (Ascii.eqb c ".") || has_non_dot p' O hi'
          | S lo' => has_non_dot p' lo' hi'
          end
      end
  end.

(** [os.path.splitext(p)] *)
Definition splitext (p : string) : string * string :=
  let sepIndex := rfind "/" p in
  let dotIndex := rfind "." p in
  if (sepIndex <? dotIndex) &&
     has_non_dot p (Z.to_nat (sepIndex + 1)) (Z.to_nat dotIndex)
  then (PyStr.take (Z.to_nat dotIndex) p, PyStr.drop (Z.to_nat dotIndex) p)
  else (p, "").

End OsPath.

(** [app.config['DOWNLOAD_FOLDER']] *)
Definition DOWNLOAD_FOLDER : string := "downloads".

(** What [os.stat] tells about one path.  Times are seconds as rationals. *)
Record FileStat := {
  st_isfile : bool;
  st_size : Z;
  st_mtime : Q;
  st_ctime : Q
}.

(** A snapshot of the file system: the existing paths with their status,
    and [os.listdir(DOWNLOAD_FOLDER)] in the order the system returns it
    (the directory is created when the program starts). *)
Record FS := {
  fs_stat : gmap string FileStat;
  fs_listdir : list string
}.

Definition os_path_exists (fs : FS) (p : string) : bool :=
  match fs_stat fs !! p with Some _ => true | None => false end.

Definition os_path_isfile (fs : FS) (p : string) : bool :=
  match fs_stat fs !! p with Some s => st_isfile s | None => false end.

(** [os.path.getsize]; the program only calls it on a path it has just
    found with [exists] or [isfile], so the missing case never runs. *)
Definition os_path_getsize (fs : FS) (p : string) : Z :=
  match fs_stat fs !! p with Some s => st_size s | None => 0 end.

Definition os_path_getmtime (fs : FS) (p : string) : Q :=
  match fs_stat fs !! p with Some s => st_mtime s | None => 0%Q end.

Definition os_path_getctime (fs : FS) (p : string) : Q :=
  match fs_stat fs !! p with Some s => st_ctime s | None => 0%Q end.

(** ** The data model *)

Inductive Status := Starting | Downloading | Processing | Completed | Error.

Definition Status_eqb (a b : Status) : bool :=
  match a, b with
  | Starting, Starting | Downloading, Downloading | Processing, Processing
  | Completed, Completed | Error, Error => true
  | _, _ => false
  end.

(** One value of [download_progress]: the dict the program builds in
    [download_video] and extends key by key.  A key that is absent or
    bound to [None] is [None] here. *)
Record ProgressRecord := {
  pr_progress : Q;
  pr_filename : option string;
  pr_filepath : option string;
  pr_status : Status;
  pr_start_time : Q;
  pr_end_time : option Q;
  pr_error : option string;
  pr_downloaded_bytes : option Q;
  pr_total_bytes : option Q
}.

(** A JSON value, as [request.json] holds the fields of a request.
    Values are only told apart by cases, so no induction principle is
    generated. *)
#[local] Unset Elimination Schemes.
Inductive JsonValue :=
| JNull
| JBool (b : bool)
| JNumber (x : Q)
| JString (s : string)
| JArray (items : list JsonValue)
| JObject (members : list (string * JsonValue)).
#[local] Set Elimination Schemes.

(** One value of [download_metadata]; an absent key is [None].  The
    title is set wherever a record is made; it is [None] when the
    collaborator's result binds its title to [None]. *)
Record MetadataRecord := {
  md_title : option string;
  md_download_time : Q;
  md_url : option string;
  md_quality : option JsonValue;
  md_audio_only : option bool;
  md_filename : option string
}.

(** The dict objects that hold progress records live in a store, and the
    table [download_progress] maps an identifier to the address of its
    dict: [d.copy()] makes a new object, an item assignment changes the
    object it is applied to.  The metadata dicts are never copied nor
    shared, they are kept by value. *)
Definition loc := positive.

Record state := {
  heap : gmap loc ProgressRecord;
  download_progress : gmap string loc;
  download_metadata : gmap string MetadataRecord
}.

Definition with_heap (h : gmap loc ProgressRecord) (st : state) : state :=
  {| heap := h; download_progress := download_progress st;
     download_metadata := download_metadata st |}.
Definition with_progress (t : gmap string loc) (st : state) : state :=
  {| heap := heap st; download_progress := t;
     download_metadata := download_metadata st |}.
Definition with_metadata (t : gmap string MetadataRecord) (st : state) : state :=
  {| heap := heap st; download_progress := download_progress st;
     download_metadata := t |}.

(** the record an identifier is bound to, through the store *)
Definition progress_of (st : state) (video_id : string) : option ProgressRecord :=
  match download_progress st !! video_id with
  | Some l => heap st !! l
  | None => None
  end.

(** field updates of a progress record *)
Definition set_progress (q : Q) (r : ProgressRecord) : ProgressRecord :=
  {| pr_progress := q; pr_filename := pr_filename r; pr_filepath := pr_filepath r;
     pr_status := pr_status r; pr_start_time := pr_start_time r;
     pr_end_time := pr_end_time r; pr_error := pr_error r;
     pr_downloaded_bytes := pr_downloaded_bytes r; pr_total_bytes := pr_total_bytes r |}.
Definition set_filename (f : option string) (r : ProgressRecord) : ProgressRecord :=
  {| pr_progress := pr_progress r; pr_filename := f; pr_filepath := pr_filepath r;
     pr_status := pr_status r; pr_start_time := pr_start_time r;
     pr_end_time := pr_end_time r; pr_error := pr_error r;
     pr_downloaded_bytes := pr_downloaded_bytes r; pr_total_bytes := pr_total_bytes r |}.
Definition set_filepath (f : option string) (r : ProgressRecord) : ProgressRecord :=
  {| pr_progress := pr_progress r; pr_filename := pr_filename r; pr_filepath := f;
     pr_status := pr_status r; pr_start_time := pr_start_time r;
     pr_end_time := pr_end_time r; pr_error := pr_error r;
     pr_downloaded_bytes := pr_downloaded_bytes r; pr_total_bytes := pr_total_bytes r |}.
Definition set_status (s : Status) (r : ProgressRecord) : ProgressRecord :=
  {| pr_progress := pr_progress r; pr_filename := pr_filename r; pr_filepath := pr_filepath r;
     pr_status := s; pr_start_time := pr_start_time r;
     pr_end_time := pr_end_time r; pr_error := pr_error r;
     pr_downloaded_bytes := pr_downloaded_bytes r; pr_total_bytes := pr_total_bytes r |}.
Definition set_end_time (t : option Q) (r : ProgressRecord) : ProgressRecord :=
  {| pr_progress := pr_progress r; pr_filename := pr_filename r; pr_filepath := pr_filepath r;
     pr_status := pr_status r; pr_start_time := pr_start_time r;
     pr_end_time := t; pr_error := pr_error r;
     pr_downloaded_bytes := pr_downloaded_bytes r; pr_total_bytes := pr_total_bytes r |}.
Definition set_error (e : option string) (r : ProgressRecord) : ProgressRecord :=
  {| pr_progress := pr_progress r; pr_filename := pr_filename r; pr_filepath := pr_filepath r;
     pr_status := pr_status r; pr_start_time := pr_start_time r;
     pr_end_time := pr_end_time r; pr_error := e;
     pr_downloaded_bytes := pr_downloaded_bytes r; pr_total_bytes := pr_total_bytes r |}.
Definition set_downloaded_bytes (b : option Q) (r : ProgressRecord) : ProgressRecord :=
  {| pr_progress := pr_progress r; pr_filename := pr_filename r; pr_filepath := pr_filepath r;
     pr_status := pr_status r; pr_start_time := pr_start_time r;
     pr_end_time := pr_end_time r; pr_error := pr_error r;
     pr_downloaded_bytes := b; pr_total_bytes := pr_total_bytes r |}.
Definition set_total_bytes (b : option Q) (r : ProgressRecord) : ProgressRecord :=
  {| pr_progress := pr_progress r; pr_filename := pr_filename r; pr_filepath := pr_filepath r;
     pr_status := pr_status r; pr_start_time := pr_start_time r;
     pr_end_time := pr_end_time r; pr_error := pr_error r;
     pr_downloaded_bytes := pr_downloaded_bytes r; pr_total_bytes := b |}.

Definition set_md_filename (f : string) (m : MetadataRecord) : MetadataRecord :=
  {| md_title := md_title m; md_download_time := md_download_time m;
     md_url := md_url m; md_quality := md_quality m;
     md_audio_only := md_audio_only m; md_filename := Some f |}.

(** ** The monad of handlers: state and exceptions

    A raised exception keeps the state reached so far, as in Python. *)

Definition M (A : Type) : Type := state -> outcome A * state.

Definition ret {A} (a : A) : M A := fun st => (Ret a, st).
Definition raise {A} (msg : string) : M A := fun st => (Raise msg, st).
Definition bind {A B} (m : M A) (k : A -> M B) : M B :=
  fun st =>
    match m st with
    | (Ret a, st') => k a st'
    | (Raise e, st') => (Raise e, st')
    end.
Definition get_state : M state := fun st => (Ret st, st).
(** a step that reads no state: it returns or raises as [o] does *)
Definition of_outcome {A} (o : outcome A) : M A := fun st => (o, st).
Definition put_state (st : state) : M unit := fun _ => (Ret tt, st).

(** [try: m except Exception as e: h(str(e))] *)
Definition try_except {A} (m : M A) (h : string -> M A) : M A :=
  fun st =>
    match m st with
    | (Ret a, st') => (Ret a, st')
    | (Raise e, st') => h e st'
    end.

Declare Scope py_scope.
Delimit Scope py_scope with py.
Notation "x <- m ;; k" := (bind m (fun x => k))
  (at level 100, m at next level, right associativity) : py_scope.
Notation "m ;; k" := (bind m (fun _ => k))
  (at level 100, right associativity) : py_scope.
Local Open Scope py_scope.

(** [str(KeyError(k))] *)
Definition key_error (k : string) : string := "'" +:+ k +:+ "'".

(** [download_progress[video_id][key] = value]: the table is read, then
    the dict object found there is changed in place. *)
Definition assign_progress (video_id : string)
    (f : ProgressRecord -> ProgressRecord) : M unit :=
  fun st =>
    match download_progress st !! video_id with
    | Some l => (Ret tt, with_heap (alter f l (heap st)) st)
    | None => (Raise (key_error video_id), st)
    end.

(** a new dict object *)
Definition alloc (r : ProgressRecord) : M loc :=
  fun st =>
    let l := fresh (dom (heap st)) in
    (Ret l, with_heap (<[l := r]> (heap st)) st).

(** the contents of a dict object *)
Definition deref (l : loc) : M ProgressRecord :=
  fun st =>
    match heap st !! l with
    | Some r => (Ret r, st)
    | None => (Raise "dangling reference", st)
    end.

(** an item assignment on the dict object at [l] *)
Definition assign_at (l : loc) (f : ProgressRecord -> ProgressRecord) : M unit :=
  fun st => (Ret tt, with_heap (alter f l (heap st)) st).

(** ** What the program receives from outside *)

(** [urllib.parse.ParseResult] *)
Record ParseResult := {
  scheme : string;
  netloc : string;
  path : string;
  params : string;
  query : string;
  fragment : string
}.

(** The dict a progress hook is called with.  [d_status] and
    [d_filename] are [None] when the key is missing; the byte counts of
    [d.get] are [None] when the key is missing or bound to [None];
    [d_downloaded_bytes], read with a default, keeps the two apart:
    [None] is a missing key, [Some None] a key bound to [None].

    Convention: a byte count is the value of a Python number, int or
    float, and the counts of a tick are such that their quotient and
    its hundredfold lie within the range of the doubles.  Beyond that
    range Python raises [OverflowError] on a quotient of ints and
    yields an infinity on floats; such ticks are outside the model.
    The divisor is taken to be an int where the text of a [TypeError]
    names its type. *)
Record Tick := {
  d_status : option string;
  d_total_bytes : option Q;
  d_total_bytes_estimate : option Q;
  d_downloaded_bytes : option (option Q);
  d_filename : option string
}.

(** One entry of [ydl_opts['postprocessors']] *)
Record Postprocessor := {
  key : string;
  preferredcodec : string;
  preferredquality : string
}.

(** [ydl_opts] of [download_video]; the progress hook it also carries is
    applied by [run_hooks] below. *)
Record YdlOpts := {
  outtmpl : string;
  quiet : bool;
  no_warnings : bool;
  restrictfilenames : bool;
  format : string;
  postprocessors : list Postprocessor
}.

(** What [ydl.extract_info(url, download=True)] returns, with the name
    [ydl.prepare_filename(info)] predicts.  [info_title] is [None] when
    the dict has no title key and [Some None] when the key is bound to
    [None]. *)
Record Info := {
  info_title : option (option string);
  prepared_filename : string
}.

(** One run of the collaborator's download: the ticks it reports to the
    hook, in order, then its return value or the exception it raises. *)
Record DownloadRun := {
  run_ticks : list Tick;
  run_result : outcome Info
}.

(** The clock readings and the file system one call of a handler sees:
    [time.time()] when the record is created and when the file is
    found, [datetime.now()], and the files present when they are looked
    for (for [download_video], after the grace period). *)
Record World := {
  w_time_start : Q;
  w_now : Q;
  w_time_end : Q;
  w_fs : FS;
  w_send_file : outcome unit
}.

(** [x or y or 1] on optional numbers: [None] and zero are false *)
Definition num_truthy (o : option Q) : bool :=
  match o with
  | Some q => negb (Qeq_bool q 0)
  | None => false
  end.

Definition effective_total (d : Tick) : Q :=
  if num_truthy (d_total_bytes d) then default 1%Q (d_total_bytes d)
  else if num_truthy (d_total_bytes_estimate d) then default 1%Q (d_total_bytes_estimate d)
  else 1%Q.

(** [d[k]] on an optional field *)
Definition dict_item {A} (k : string) (o : option A) : M A :=
  match o with
  | Some a => ret a
  | None => raise (key_error k)
  end.

(** [d.get(k, default)] *)
Definition dict_get_default {A} (field : option (option A)) (d : A) : option A :=
  match field with
  | None => Some d
  | Some v => v
  end.

(** [d.get(k)] *)
Definition dict_get {A} (field : option (option A)) : option A := mjoin field.

(** [k in d] *)
Definition has_key {A} (field : option A) : bool :=
  match field with
  | Some _ => true
  | None => false
  end.

Section App.

(** The library functions and the collaborator are parameters: the
    theorems hold for whatever they compute. *)
Variable urlparse : string -> outcome ParseResult.
Variable parse_qs : string -> outcome (gmap string (list string)).
(** the rounding of an exact result to the nearest [float] *)
Variable float_round : Q -> Q.
Variable extract_info : YdlOpts -> string -> DownloadRun.

(** *** [get_video_id] *)

Definition youtube_domains : list string :=
  ["youtube.com"; "www.youtube.com"; "m.youtube.com"; "youtu.be"].

Definition get_video_id (url : string) : option string :=
  match urlparse url with
  | Raise _ => None
  | Ret parsed_url =>
      let domain := PyStr.lower (netloc parsed_url) in
      if existsb (fun youtube_domain => PyStr.contains youtube_domain domain)
                 youtube_domains
      then
        if PyStr.contains "youtu.be" domain
        then
          match path parsed_url with
          | "" => None
          | p => Some (PyStr.drop 1 p)
          end
        else
          match parse_qs (query parsed_url) with
          | Raise _ => None
          | Ret query_params =>
              match query_params !! "v" with
              | None => None
              | Some [] => None
              | Some (v :: _) => Some v
              end
          end
      else None
  end.

(** *** [progress_hook] *)

Definition progress_hook (d : Tick) (video_id : string) : M unit :=
  st <- get_state ;;
  match download_progress st !! video_id with
  | None => ret tt
  | Some _ =>
      status <- dict_item "status" (d_status d) ;;
      if String.eqb status "downloading" then
        let total_bytes := effective_total d in
        match d_downloaded_bytes d with
        | Some None => raise "unsupported operand type(s) for /: 'NoneType' and 'int'"
        | downloaded =>
            let downloaded_bytes := default 0%Q (mjoin downloaded) in
            let progress_percent :=
              float_round (float_round (downloaded_bytes / total_bytes) * 100)%Q in
            assign_progress video_id (set_progress progress_percent) ;;
            assign_progress video_id (set_status Downloading) ;;
            assign_progress video_id (set_downloaded_bytes (Some downloaded_bytes)) ;;
            assign_progress video_id (set_total_bytes (Some total_bytes))
        end
      else if String.eqb status "finished" then
        assign_progress video_id (set_progress 100%Q) ;;
        assign_progress video_id (set_status Processing) ;;
        filename <- dict_item "filename" (d_filename d) ;;
        assign_progress video_id (set_filepath (Some filename))
      else ret tt
  end.

(** *** [download_video] *)

(** [list.sort]: a stable sort, here by insertion; [le x y] says that
    [x] may stand before [y]. *)
Fixpoint insert_by {A} (le : A -> A -> bool) (x : A) (l : list A) : list A :=
  match l with
  | [] => [x]
  | y :: l' => if le x y then x :: l else y :: insert_by le x l'
  end.
Definition stable_sort {A} (le : A -> A -> bool) (l : list A) : list A :=
  foldr (insert_by le) [] l.

Definition Qlt_bool (a b : Q) : bool := negb (Qle_bool b a).

(** the format selector of one rung of the quality ladder *)
Definition height_capped (h : string) : string :=
  "bestvideo[height<=" +:+ h +:+ "]+bestaudio/best[height<=" +:+ h +:+ "]".

Definition quality_map : gmap string string :=
  list_to_map
    [("144p", height_capped "144"); ("240p", height_capped "240");
     ("360p", height_capped "360"); ("480p", height_capped "480");
     ("720p", height_capped "720"); ("1080p", height_capped "1080");
     ("highest", "bestvideo+bestaudio/best")].

(** [quality_map.get(quality, d)]: the keys of the table are strings,
    so null, a boolean or a number is a key that is not there; a list
    or an object cannot be hashed, and the lookup raises [TypeError]
    (with the text of CPython up to 3.13). *)
Definition quality_map_get (quality : JsonValue) (d : string) : outcome string :=
  match quality with
  | JString q => Ret (default d (quality_map !! q))
  | JNull | JBool _ | JNumber _ => Ret d
  | JArray _ => Raise "unhashable type: 'list'"
  | JObject _ => Raise "unhashable type: 'dict'"
  end.

(** lines 201-228: the options handed to the collaborator; the table is
    consulted only when audio-only is not requested *)
Definition ydl_opts_for (quality : JsonValue) (audio_only : bool) : outcome YdlOpts :=
  if audio_only then
    Ret {| outtmpl := OsPath.join DOWNLOAD_FOLDER "%(title)s_%(id)s.%(ext)s";
           quiet := false; no_warnings := false; restrictfilenames := true;
           format := "bestaudio/best";
           postprocessors :=
             [{| key := "FFmpegExtractAudio"; preferredcodec := "mp3";
                 preferredquality := "192" |}] |}
  else
    match quality_map_get quality "bestvideo+bestaudio/best" with
    | Ret selector =>
        Ret {| outtmpl := OsPath.join DOWNLOAD_FOLDER "%(title)s_%(id)s.%(ext)s";
               quiet := false; no_warnings := false; restrictfilenames := true;
               format := selector;
               postprocessors := [] |}
    | Raise e => Raise e
    end.

(** the collaborator calls the hook once per tick; an exception of the
    hook ends the call *)
Fixpoint run_hooks (ticks : list Tick) (video_id : string) : M unit :=
  match ticks with
  | [] => ret tt
  | d :: rest => progress_hook d video_id ;; run_hooks rest video_id
  end.

(** [ydl.extract_info(url, download=True)] with the hook installed *)
Definition ydl_extract_info (opts : YdlOpts) (url video_id : string) : M Info :=
  let run := extract_info opts url in
  run_hooks (run_ticks run) video_id ;;
  match run_result run with
  | Ret info => ret info
  | Raise e => raise e
  end.

(** lines 257-262 *)
Definition expected_filename_of (info : Info) (audio_only : bool) : string :=
  let expected_filename := prepared_filename info in
  if audio_only
  then (OsPath.splitext expected_filename).1 +:+ ".mp3"
  else expected_filename.

Definition nonempty_file (fs : FS) (file_path : string) : bool :=
  os_path_isfile fs file_path && (0 <? os_path_getsize fs file_path).

(** lines 273-280: the first listed file whose name holds the identifier *)
Fixpoint find_by_video_id (fs : FS) (video_id : string) (names : list string)
    : option string :=
  match names with
  | [] => None
  | f :: rest =>
      let file_path := OsPath.join DOWNLOAD_FOLDER f in
      if nonempty_file fs file_path && PyStr.contains video_id f
      then Some file_path
      else find_by_video_id fs video_id rest
  end.

(** lines 284-289 *)
Fixpoint files_with_time (fs : FS) (names : list string)
    : list (string * string * Q) :=
  match names with
  | [] => []
  | f :: rest =>
      let file_path := OsPath.join DOWNLOAD_FOLDER f in
      if nonempty_file fs file_path
      then (file_path, f, os_path_getmtime fs file_path) :: files_with_time fs rest
      else files_with_time fs rest
  end.

(** lines 266-299: where the downloaded file is looked for *)
Definition locate_download (fs : FS) (expected_filename video_id : string)
    : option string :=
  if os_path_exists fs expected_filename && (0 <? os_path_getsize fs expected_filename)
  then Some expected_filename
  else
    let actual_file := find_by_video_id fs video_id (fs_listdir fs) in
    if negb (PyStr.truthy actual_file) then
      match stable_sort (fun x y => Qle_bool y.2 x.2)
                        (files_with_time fs (fs_listdir fs)) with
      | [] => actual_file
      | (file_path, _, _) :: _ => Some file_path
      end
    else actual_file.

Definition initial_record (start_time : Q) : ProgressRecord :=
  {| pr_progress := 0; pr_filename := None; pr_filepath := None;
     pr_status := Starting; pr_start_time := start_time;
     pr_end_time := None; pr_error := None;
     pr_downloaded_bytes := None; pr_total_bytes := None |}.

(** [download_metadata[video_id][...] = ...] *)
Definition assign_metadata (video_id : string)
    (f : MetadataRecord -> MetadataRecord) : M unit :=
  fun st =>
    match download_metadata st !! video_id with
    | Some m => (Ret tt, with_metadata (<[video_id := f m]> (download_metadata st)) st)
    | None => (Raise (key_error video_id), st)
    end.

Definition download_video (url : string) (quality : JsonValue)
    (audio_only : bool) (w : World) : M (option string * option string) :=
  let video_id := get_video_id url in
  if negb (PyStr.truthy video_id) then
    ret (None, Some "Could not extract video ID from URL")
  else
    let video_id := default "" video_id in
    try_except
      (ydl_opts <- of_outcome (ydl_opts_for quality audio_only) ;;
       l <- alloc (initial_record (w_time_start w)) ;;
       st <- get_state ;;
       put_state (with_progress (<[video_id := l]> (download_progress st)) st) ;;
       info <- ydl_extract_info ydl_opts url video_id ;;
       st <- get_state ;;
       put_state (with_metadata
                    (<[video_id :=
                         {| md_title := dict_get_default (info_title info) "Unknown";
                            md_download_time := w_now w;
                            md_url := Some url;
                            md_quality := Some quality;
                            md_audio_only := Some audio_only;
                            md_filename := None |}]> (download_metadata st)) st) ;;
       let expected_filename := expected_filename_of info audio_only in
       let actual_file := locate_download (w_fs w) expected_filename video_id in
       if PyStr.truthy actual_file then
         let actual_file := default "" actual_file in
         let final_filename := OsPath.basename actual_file in
         assign_progress video_id (set_filename (Some final_filename)) ;;
         assign_progress video_id (set_filepath (Some actual_file)) ;;
         assign_progress video_id (set_status Completed) ;;
         assign_progress video_id (set_end_time (Some (w_time_end w))) ;;
         assign_metadata video_id (set_md_filename final_filename) ;;
         ret (Some actual_file, None)
       else
         let error_msg := "Download completed but file not found" in
         assign_progress video_id (set_status Error) ;;
         assign_progress video_id (set_error (Some error_msg)) ;;
         ret (None, Some error_msg))
      (fun error_msg =>
         st <- get_state ;;
         match download_progress st !! video_id with
         | Some _ =>
             assign_progress video_id (set_status Error) ;;
             assign_progress video_id (set_error (Some error_msg)) ;;
             ret (None, Some error_msg)
         | None => ret (None, Some error_msg)
         end).

(** *** The HTTP end points *)

(** the JSON bodies the handlers build *)
Inductive Body :=
| BError (msg : string)
| BVideoId (video_id : string)
| BProgress (snapshot : ProgressRecord)
| BNotFound.

(** [jsonify(body), code], or the file [send_file] streams *)
Inductive Response :=
| Json (code : Z) (body : Body)
| Attachment (filepath download_name : string).

(** the daemon threads a handler starts *)
Inductive Thread :=
| DownloadVideo (url : string) (quality : JsonValue) (audio_only : bool)
| Cleanup (video_id : string).

(** [request.json] of [/api/download]; a field is [None] when the
    object has no such key *)
Record DownloadRequest := {
  req_url : option string;
  req_quality : option JsonValue;
  req_audio_only : option bool
}.

Definition download (data : DownloadRequest) : M (Response * list Thread) :=
  let url := req_url data in
  let quality := default JNull (req_quality data) in
  let audio_only := default false (req_audio_only data) in
  if negb (PyStr.truthy url) then
    ret (Json 200 (BError "No URL provided"), [])
  else
    let url := default "" url in
    let video_id := get_video_id url in
    if negb (PyStr.truthy video_id) then
      ret (Json 200 (BError "Could not extract video ID from URL"), [])
    else
      let video_id := default "" video_id in
      st <- get_state ;;
      put_state (with_progress (delete video_id (download_progress st)) st) ;;
      st <- get_state ;;
      put_state (with_metadata (delete video_id (download_metadata st)) st) ;;
      ret (Json 200 (BVideoId video_id), [DownloadVideo url quality audio_only]).

Definition progress (video_id : string) (w : World) : M Response :=
  st <- get_state ;;
  match download_progress st !! video_id with
  | Some l =>
      stored <- deref l ;;
      progress_data <- alloc stored ;;
      r <- deref progress_data ;;
      (if Status_eqb (pr_status r) Completed then
         let filename := pr_filename r in
         if PyStr.truthy filename then
           let file_path := OsPath.join DOWNLOAD_FOLDER (default "" filename) in
           if negb (os_path_exists (w_fs w) file_path) then
             assign_at progress_data (set_status Error) ;;
             assign_at progress_data (set_error (Some "Downloaded file not found"))
           else ret tt
         else ret tt
       else ret tt) ;;
      snapshot <- deref progress_data ;;
      ret (Json 200 (BProgress snapshot))
  | None => ret (Json 200 BNotFound)
  end.

(** the body of the two cleanup threads, run five seconds later *)
Definition cleanup_after_send (video_id : string) : M unit :=
  st <- get_state ;;
  put_state (with_progress (delete video_id (download_progress st)) st) ;;
  st <- get_state ;;
  put_state (with_metadata (delete video_id (download_metadata st)) st).

(** lines 413-421 *)
Fixpoint recent_files (fs : FS) (current_time : Q) (names : list string)
    : list (string * string * Q) :=
  match names with
  | [] => []
  | filename :: rest =>
      let filepath := OsPath.join DOWNLOAD_FOLDER filename in
      if os_path_isfile fs filepath then
        let file_age := float_round (current_time - os_path_getctime fs filepath)%Q in
        let file_size := os_path_getsize fs filepath in
        if Qlt_bool file_age 300 && (0 <? file_size)
        then (filepath, filename, file_age) :: recent_files fs current_time rest
        else recent_files fs current_time rest
      else recent_files fs current_time rest
  end.

(** lines 488-511: the first listed file that looks like the expected one *)
Fixpoint find_similar (fs : FS) (video_id filename : string) (names : list string)
    : option (string * string) :=
  match names with
  | [] => None
  | f :: rest =>
      let file_path := OsPath.join DOWNLOAD_FOLDER f in
      if nonempty_file fs file_path &&
         (PyStr.contains video_id f ||
          PyStr.startswith (PyStr.take 20 (OsPath.splitext filename).1) f)
      then Some (file_path, f)
      else find_similar fs video_id filename rest
  end.

Definition download_file (video_id : string) (w : World) : M (Response * list Thread) :=
  let fs := w_fs w in
  st <- get_state ;;
  (match download_metadata st !! video_id with
   | Some _ => ret tt
   | None =>
       match stable_sort (fun x y => Qle_bool x.2 y.2)
                         (recent_files fs (w_time_start w) (fs_listdir fs)) with
       | [] => ret tt
       | most_recent :: _ =>
           put_state (with_metadata
                        (<[video_id :=
                             {| md_title := Some "Downloaded Video";
                                md_download_time := w_now w;
                                md_url := None; md_quality := None;
                                md_audio_only := None;
                                md_filename := Some most_recent.1.2 |}]>
                           (download_metadata st)) st)
       end
   end) ;;
  st <- get_state ;;
  match download_metadata st !! video_id with
  | None => ret (Json 404 (BError "Download not found or expired"), [])
  | Some md =>
      filename <- dict_item "filename" (md_filename md) ;;
      let filepath := OsPath.join DOWNLOAD_FOLDER filename in
      if PyStr.contains ".." filename || PyStr.startswith "/" filename then
        ret (Json 400 (BError "Invalid filename"), [])
      else if os_path_exists fs filepath && (0 <? os_path_getsize fs filepath) then
        let title := md_title md in
        match title with
        | None =>
            (* [re.sub] in [sanitize_filename], outside any handler; the
               text is that of CPython 3.11 and later *)
            raise "expected string or bytes-like object, got 'NoneType'"
        | Some title =>
            let safe_title := sanitize_filename title in
            let file_extension := (OsPath.splitext filename).2 in
            let download_name := safe_title +:+ file_extension in
            match w_send_file w with
            | Ret _ => ret (Attachment filepath download_name, [Cleanup video_id])
            | Raise _ => ret (Json 500 (BError "Error sending file"), [])
            end
        end
      else
        match find_similar fs video_id filename (fs_listdir fs) with
        | Some (file_path, f) =>
            assign_metadata video_id (set_md_filename f) ;;
            match w_send_file w with
            | Ret _ => ret (Attachment file_path f, [Cleanup video_id])
            | Raise _ => ret (Json 404 (BError "File not found"), [])
            end
        | None => ret (Json 404 (BError "File not found"), [])
        end
  end.

End App.

(** ** A model of [urllib.parse] for concrete URLs

    The theorems below hold for any [urlparse] and [parse_qs]; this
    model serves to run the program on given URLs.  It follows
    [urlsplit], [urlparse] and [parse_qs] of CPython on single-byte
    text; bracketed hosts are accepted without validation of the
    address, and a percent escape decodes to one character. *)

Module Urllib.

Definition is_alpha (c : ascii) : bool :=
  let n := N_of_ascii c in
  ((65 <=? n) && (n <=? 90) || (97 <=? n) && (n <=? 122))%N.
Definition is_digit (c : ascii) : bool :=
  let n := N_of_ascii c in ((48 <=? n) && (n <=? 57))%N.
Definition scheme_char (c : ascii) : bool :=
  is_alpha c || is_digit c || PyStr.mem_char c "+-.".

(** [(s[:i], s[i:])] for the first [i] with [stop s[i]], or [(s, '')] *)
Fixpoint span_until (stop : ascii -> bool) (s : string) : string * string :=
  match s with
  | "" => ("", "")
  | String c s' =>
      if stop c then ("", s)
      else let '(a, b) := span_until stop s' in (String c a, b)
  end.

Fixpoint all_chars (f : ascii -> bool) (s : string) : bool :=
  match s with
  | "" => true
  | String c s' => f c && all_chars f s'
  end.

Fixpoint filter_chars (f : ascii -> bool) (s : string) : string :=
  match s with
  | "" => ""
  | String c s' => if f c then String c (filter_chars f s') else filter_chars f s'
  end.

(** [s.lstrip] of the C0 control characters and the space *)
Fixpoint lstrip_c0 (s : string) : string :=
  match s with
  | "" => ""
  | String c s' => if (N_of_ascii c <=? 32)%N then lstrip_c0 s' else s
  end.

(** [s.split(c, 1)] when [c] occurs in [s] *)
Definition split_once (c : ascii) (s : string) : option (string * string) :=
  let '(a, b) := span_until (Ascii.eqb c) s in
  match b with
  | "" => None
  | String _ b' => Some (a, b')
  end.

Definition uses_params : list string :=
  [""; "ftp"; "hdl"; "prospero"; "http"; "imap"; "https"; "shttp"; "rtsp";
   "rtspu"; "sip"; "sips"; "mms"; "sftp"; "tel"].

(** [_splitparams] *)
Definition splitparams (url : string) : string * string :=
  let start := Z.to_nat (Z.max 0 (OsPath.rfind "/" url)) in
  let '(a, b) := span_until (Ascii.eqb ";") (PyStr.drop start url) in
  match b with
  | "" => (url, "")
  | String _ b' => (PyStr.take start url +:+ a, b')
  end.

Definition urlparse (url : string) : outcome ParseResult :=
  let url := lstrip_c0 url in
  let url := filter_chars (fun c => negb (PyStr.mem_char c (String "009" (String "010" (String "013" ""))))) url in
  let '(scheme, url) :=
    match split_once ":" url with
    | Some (String c0 rest as sch, after) =>
        if is_alpha c0 && all_chars scheme_char sch
        then (PyStr.lower sch, after) else ("", url)
    | _ => ("", url)
    end in
  let '(netloc, url) :=
    if PyStr.startswith "//" url
    then span_until (fun c => PyStr.mem_char c "/?#") (PyStr.drop 2 url)
    else ("", url) in
  if xorb (PyStr.mem_char "[" netloc) (PyStr.mem_char "]" netloc)
  then Raise "Invalid IPv6 URL"
  else
    let '(url, fragment) := default (url, "") (split_once "#" url) in
    let '(url, query) := default (url, "") (split_once "?" url) in
    let '(url, params) :=
      if bool_decide (scheme ∈ uses_params) && PyStr.mem_char ";" url
      then splitparams url else (url, "") in
    Ret {| scheme := scheme; netloc := netloc; path := url;
           params := params; query := query; fragment := fragment |}.

Definition hex_value (c : ascii) : option N :=
  let n := N_of_ascii c in
  if ((48 <=? n) && (n <=? 57))%N then Some (n - 48)%N
  else if ((65 <=? n) && (n <=? 70))%N then Some (n - 55)%N
  else if ((97 <=? n) && (n <=? 102))%N then Some (n - 87)%N
  else None.

(** [unquote] *)
Fixpoint unquote (s : string) : string :=
  match s with
  | "" => ""
  | String c s1 =>
      if Ascii.eqb c "%" then
        match s1 with
        | String a (String b rest) =>
            match hex_value a, hex_value b with
            | Some x, Some y => String (ascii_of_N (16 * x + y)) (unquote rest)
            | _, _ => String c (unquote s1)
            end
        | _ => String c (unquote s1)
        end
      else String c (unquote s1)
  end.

(** [s.split(c)] *)
Fixpoint split (c : ascii) (s : string) : list string :=
  match s with
  | "" => [""]
  | String d s' =>
      match split c s' with
      | [] => [""]
      | w :: ws => if Ascii.eqb c d then "" :: w :: ws else String d w :: ws
      end
  end.

(** [parse_qsl] with its default arguments: blank values are dropped *)
Fixpoint parse_qsl_pairs (fields : list string) : list (string * string) :=
  match fields with
  | [] => []
  | name_value :: rest =>
      match split_once "=" name_value with
      | Some (name, String v0 v as value) =>
          (unquote (PyStr.replace_char "+" " " name),
           unquote (PyStr.replace_char "+" " " value)) :: parse_qsl_pairs rest
      | _ => parse_qsl_pairs rest
      end
  end.

(** [parse_qs]: the values of one name are collected in order *)
Definition parse_qs (qs : string) : outcome (gmap string (list string)) :=
  Ret (foldl (fun (parsed_result : gmap string (list string)) (nv : string * string) =>
                <[nv.1 := app (default [] (parsed_result !! nv.1)) [nv.2]]> parsed_result)
             ∅ (parse_qsl_pairs (split "&" qs))).

End Urllib.

(** ** The words of the specification, for comparison with the code *)

(** the characters the sanitizer strips *)
Definition illegal_chars : list ascii :=
  ["<"; ">"; ":"; "034"; "/"; "\"; "|"; "?"; "*"]%char.

(** strip the illegal characters, turn spaces into underscores, keep at
    most 150 characters *)
Definition sanitized (chars : list ascii) : list ascii :=
  firstn 150
    (List.map (fun c => if Ascii.eqb c " " then "_"%char else c)
       (List.filter (fun c => negb (bool_decide (c ∈ illegal_chars))) chars)).

(** the pixel value of a label of the quality ladder *)
Definition ladder : list Z := [144; 240; 360; 480; 720; 1080].
Definition ladder_height (quality : option string) : option Z :=
  match quality with
  | Some label => List.find (fun h => String.eqb label (pretty h +:+ "p")) ladder
  | None => None
  end.

(** the label a quality value carries: a string is one, any other value
    is none *)
Definition label_of (quality : JsonValue) : option string :=
  match quality with
  | JString label => Some label
  | _ => None
  end.

(** a value neither a list nor an object *)
Definition scalar (quality : JsonValue) : bool :=
  match quality with
  | JArray _ | JObject _ => false
  | _ => true
  end.

(** the first segment of a path: what stands between its leading slash
    and the next one *)
Definition first_path_segment (p : string) : string :=
  (Urllib.span_until (Ascii.eqb "/") (PyStr.drop 1 p)).1.

(** [p] occurs in [s] as a contiguous substring *)
Definition occurs_in (p s : string) : Prop :=
  exists a b, s = a +:+ p +:+ b.

(** every record of the job table holds a percentage *)
Definition percentage (q : Q) : Prop := (0 <= q)%Q /\ (q <= 100)%Q.
Definition progress_in_range (st : state) : Prop :=
  forall video_id r, progress_of st video_id = Some r -> percentage (pr_progress r).

(** a downloading tick whose byte count lies within the total the hook
    divides by; other ticks are not constrained *)
Definition tick_within_total (d : Tick) : Prop :=
  d_status d = Some "downloading" ->
  match d_downloaded_bytes d with
  | Some None => True
  | downloaded =>
      (0 <= default 0%Q (mjoin downloaded))%Q /\
      (default 0%Q (mjoin downloaded) <= effective_total d)%Q
  end.

(** the three sentences of the extractor as the specification words
    them: an unknown host gives no identifier, a short link gives the
    first path segment *)
Definition unknown_host_gives_none
    (urlparse : string -> outcome ParseResult)
    (parse_qs : string -> outcome (gmap string (list string))) : Prop :=
  forall url p, urlparse url = Ret p ->
    PyStr.lower (netloc p) ∉ youtube_domains ->
    get_video_id urlparse parse_qs url = None.

Definition short_link_gives_first_segment
    (urlparse : string -> outcome ParseResult)
    (parse_qs : string -> outcome (gmap string (list string))) : Prop :=
  forall url p, urlparse url = Ret p ->
    PyStr.lower (netloc p) = "youtu.be" ->
    get_video_id urlparse parse_qs url = Some (first_path_segment (path p)).

(** ** The callback seen from the record it is called for

    What [progress_hook] returns and does to the dict of an identifier
    that is in the table, as a function on that dict. *)

Definition hook_effect (float_round : Q -> Q) (d : Tick)
    : outcome unit * (ProgressRecord -> ProgressRecord) :=
  match d_status d with
  | None => (Raise (key_error "status"), id)
  | Some status =>
      if String.eqb status "downloading" then
        match d_downloaded_bytes d with
        | Some None =>
            (Raise "unsupported operand type(s) for /: 'NoneType' and 'int'", id)
        | downloaded =>
            let downloaded_bytes := default 0%Q (mjoin downloaded) in
            let total_bytes := effective_total d in
            (Ret tt,
             set_total_bytes (Some total_bytes)
             ∘ set_downloaded_bytes (Some downloaded_bytes)
             ∘ set_status Downloading
             ∘ set_progress
                 (float_round (float_round (downloaded_bytes / total_bytes) * 100)%Q))
        end
      else if String.eqb status "finished" then
        match d_filename d with
        | Some filename =>
            (Ret tt,
             set_filepath (Some filename) ∘ set_status Processing ∘ set_progress 100%Q)
        | None =>
            (Raise (key_error "filename"), set_status Processing ∘ set_progress 100%Q)
        end
      else (Ret tt, id)
  end.

Fixpoint hooks_effect (float_round : Q -> Q) (ticks : list Tick)
    : outcome unit * (ProgressRecord -> ProgressRecord) :=
  match ticks with
  | [] => (Ret tt, id)
  | d :: rest =>
      match hook_effect float_round d with
      | (Ret _, f) =>
          let '(o, g) := hooks_effect float_round rest in (o, g ∘ f)
      | (Raise e, f) => (Raise e, f)
      end
  end.

(** the callback raises on this tick *)
Definition hook_raises (d : Tick) : bool :=
  match (hook_effect id d).1 with
  | Raise _ => true
  | Ret _ => false
  end.

(** the ticks the callback cannot read: no status key, a downloading
    tick whose downloaded byte count is bound to [None], a finished
    tick without filename *)
Definition unreadable (d : Tick) : Prop :=
  d_status d = None
  \/ (d_status d = Some "downloading" /\ d_downloaded_bytes d = Some None)
  \/ (d_status d = Some "finished" /\ d_filename d = None).

(** [st'] is [st] with [f] applied to the dict at [l] *)
Definition updated_at (l : loc) (f : ProgressRecord -> ProgressRecord)
    (st st' : state) : Prop :=
  download_progress st' = download_progress st
  /\ heap st' !! l = f <$> heap st !! l
  /\ forall l', l' <> l -> heap st' !! l' = heap st !! l'.

(** the metadata record of lines 244-250 *)
Definition metadata_of (url : string) (quality : JsonValue) (audio_only : bool)
    (info : Info) (w : World) : MetadataRecord :=
  {| md_title := dict_get_default (info_title info) "Unknown";
     md_download_time := w_now w;
     md_url := Some url;
     md_quality := Some quality;
     md_audio_only := Some audio_only;
     md_filename := None |}.

(** ** File discovery as the specification words it *)

(** [f] names a non-empty regular file of the download directory *)
Definition candidate (fs : FS) (f : string) : Prop :=
  nonempty_file fs (OsPath.join DOWNLOAD_FOLDER f) = true.

(** the predicted name exists and is not empty *)
Definition prediction_holds (fs : FS) (expected_filename : string) : Prop :=
  os_path_exists fs expected_filename = true
  /\ 0 < os_path_getsize fs expected_filename.

(** The three steps, the first that applies wins: the predicted name;
    else the first listed candidate whose name holds the identifier;
    else a candidate modified no earlier than any other; else nothing. *)
Inductive located (fs : FS) (expected_filename video_id : string)
    : option string -> Prop :=
| located_prediction :
    prediction_holds fs expected_filename ->
    located fs expected_filename video_id (Some expected_filename)
| located_identifier before f after :
    ~ prediction_holds fs expected_filename ->
    fs_listdir fs = (before ++ f :: after)%list ->
    candidate fs f -> occurs_in video_id f ->
    (forall g, In g before -> ~ (candidate fs g /\ occurs_in video_id g)) ->
    located fs expected_filename video_id (Some (OsPath.join DOWNLOAD_FOLDER f))
| located_recent f :
    ~ prediction_holds fs expected_filename ->
    (forall g, In g (fs_listdir fs) -> ~ (candidate fs g /\ occurs_in video_id g)) ->
    In f (fs_listdir fs) -> candidate fs f ->
    (forall g, In g (fs_listdir fs) -> candidate fs g ->
       (os_path_getmtime fs (OsPath.join DOWNLOAD_FOLDER g)
        <= os_path_getmtime fs (OsPath.join DOWNLOAD_FOLDER f))%Q) ->
    located fs expected_filename video_id (Some (OsPath.join DOWNLOAD_FOLDER f))
| located_nothing :
    ~ prediction_holds fs expected_filename ->
    (forall g, In g (fs_listdir fs) -> ~ candidate fs g) ->
    located fs expected_filename video_id None.

(** what the progress arithmetic needs of the rounding to the nearest
    float: it is monotone and leaves 0, 1 and 100, which are floats, as
    they are ([PyFloat.round] is such a rounding) *)
Definition faithful_rounding (float_round : Q -> Q) : Prop :=
  (forall x y, (x <= y)%Q -> (float_round x <= float_round y)%Q)
  /\ (float_round 0 == 0)%Q
  /\ (float_round 1 == 1)%Q
  /\ (float_round 100 == 100)%Q.

(** ** The janitor: [cleanup_old_files] *)

(** [app.config['MAX_DOWNLOAD_AGE']], in seconds *)
Definition MAX_DOWNLOAD_AGE : Q := 3600.

(** [datetime.fromtimestamp]: the time stamp rounded to the microsecond,
    ties to even.  Both datetimes of the janitor are local times; the
    offset to UTC is taken to be the same at both. *)
Definition fromtimestamp (t : Q) : Q :=
  (inject_Z (PyFloat.rne (Qnum t * 1000000) (Zpos (Qden t))) / 1000000)%Q.

(** [now - file_time > MAX_DOWNLOAD_AGE] *)
Definition expired (now : Q) (fs : FS) (filepath : string) : bool :=
  Qlt_bool MAX_DOWNLOAD_AGE (now - fromtimestamp (os_path_getctime fs filepath)).

(** [os.remove(filepath)] when it succeeds: the path is gone, and so is
    its entry in the listing of the download directory *)
Definition os_remove (fs : FS) (filepath : string) : FS :=
  {| fs_stat := delete filepath (fs_stat fs);
     fs_listdir :=
       List.filter (fun f => negb (String.eqb (OsPath.join DOWNLOAD_FOLDER f) filepath))
                   (fs_listdir fs) |}.

(** The loop over [os.listdir], read once before the loop.  [removable]
    tells on which paths [os.remove] succeeds; where it raises, the
    exception leaves the loop and is logged by the handler around it. *)
Fixpoint cleanup_loop (now : Q) (removable : string -> bool)
    (names : list string) (fs : FS) : FS :=
  match names with
  | [] => fs
  | filename :: rest =>
      let filepath := OsPath.join DOWNLOAD_FOLDER filename in
      if os_path_isfile fs filepath then
        if expired now fs filepath then
          if removable filepath
          then cleanup_loop now removable rest (os_remove fs filepath)
          else fs
        else cleanup_loop now removable rest fs
      else cleanup_loop now removable rest fs
  end.

Definition cleanup_old_files (now : Q) (removable : string -> bool) (fs : FS) : FS :=
  cleanup_loop now removable (fs_listdir fs) fs.

(** ** The search and metadata adapters *)

(** A result dict of the collaborator, with the keys the program reads.
    A field is [None] when the key is missing and [Some None] when it is
    bound to [None]; [e_other_keys] tells whether the dict has keys
    besides these. *)
Record Entry := {
  e_id : option (option string);
  e_title : option (option string);
  e_thumbnail : option (option string);
  e_duration : option (option Z);
  e_view_count : option (option Z);
  e_uploader : option (option string);
  e_description : option (option string);
  e_upload_date : option (option string);
  e_other_keys : bool
}.

(** the truth value of a dict: it has a key *)
Definition entry_truthy (entry : Entry) : bool :=
  has_key (e_id entry) || has_key (e_title entry)
  || has_key (e_thumbnail entry) || has_key (e_duration entry)
  || has_key (e_view_count entry) || has_key (e_uploader entry)
  || has_key (e_description entry) || has_key (e_upload_date entry)
  || e_other_keys entry.

(** [f"{x}"] for an optional string *)
Definition format_str (x : option string) : string := default "None" x.

(** [d.get('description', '')[:n] + '...' if d.get('description') else ''] *)
Definition short_description (n : nat) (entry : Entry) : string :=
  if PyStr.truthy (dict_get (e_description entry))
  then PyStr.take n (default "" (dict_get_default (e_description entry) "")) +:+ "..."
  else "".

(** the dict [search_youtube_videos] builds for one entry *)
Record VideoSummary := {
  vs_id : option string;
  vs_title : option string;
  vs_thumbnail : option string;
  vs_duration : option Z;
  vs_duration_formatted : string;
  vs_views : option Z;
  vs_views_formatted : string;
  vs_author : option string;
  vs_url : string;
  vs_description : string;
  vs_upload_date : option string
}.

(** the dict [get_video_info] builds *)
Record VideoDetail := {
  vd_title : option string;
  vd_thumbnail : option string;
  vd_duration : option Z;
  vd_duration_formatted : string;
  vd_views : option Z;
  vd_views_formatted : string;
  vd_author : option string;
  vd_video_id : option string;
  vd_description : string;
  vd_upload_date : option string
}.

(** lines 97-109; the only step that can raise is [format_views] *)
Definition video_summary (entry : Entry) : outcome VideoSummary :=
  match format_views (dict_get_default (e_view_count entry) 0) with
  | Raise e => Raise e
  | Ret views_formatted =>
      Ret {| vs_id := dict_get_default (e_id entry) "";
             vs_title := dict_get_default (e_title entry) "Unknown Title";
             vs_thumbnail := dict_get_default (e_thumbnail entry) "";
             vs_duration := dict_get_default (e_duration entry) 0;
             vs_duration_formatted :=
               format_duration (dict_get_default (e_duration entry) 0);
             vs_views := dict_get_default (e_view_count entry) 0;
             vs_views_formatted := views_formatted;
             vs_author := dict_get_default (e_uploader entry) "Unknown Author";
             vs_url := "https://www.youtube.com/watch?v="
                       +:+ format_str (dict_get_default (e_id entry) "");
             vs_description := short_description 200 entry;
             vs_upload_date := dict_get_default (e_upload_date entry) "" |}
  end.

(** lines 95-110: the loop over the entries; [None] and empty dicts are
    skipped *)
Fixpoint collect_videos (entries : list (option Entry)) (videos : list VideoSummary)
    : outcome (list VideoSummary) :=
  match entries with
  | [] => Ret videos
  | entry :: rest =>
      match entry with
      | Some entry =>
          if entry_truthy entry then
            match video_summary entry with
            | Ret video_info => collect_videos rest (app videos [video_info])
            | Raise e => Raise e
            end
          else collect_videos rest videos
      | None => collect_videos rest videos
      end
  end.

(** lines 128-139 *)
Definition video_detail (info : Entry) : outcome VideoDetail :=
  match format_views (dict_get_default (e_view_count info) 0) with
  | Raise e => Raise e
  | Ret views_formatted =>
      Ret {| vd_title := dict_get_default (e_title info) "Unknown Title";
             vd_thumbnail := dict_get_default (e_thumbnail info) "";
             vd_duration := dict_get_default (e_duration info) 0;
             vd_duration_formatted :=
               format_duration (dict_get_default (e_duration info) 0);
             vd_views := dict_get_default (e_view_count info) 0;
             vd_views_formatted := views_formatted;
             vd_author := dict_get_default (e_uploader info) "Unknown Author";
             vd_video_id := dict_get_default (e_id info) "";
             vd_description := short_description 300 info;
             vd_upload_date := dict_get_default (e_upload_date info) "" |}
  end.

(** what [get_video_info] returns: the detail dict or [{'error': ...}] *)
Inductive VideoInfoResult :=
| InfoOk (video_info : VideoDetail)
| InfoError (msg : string).

Section Adapters.

(** [ydl.extract_info(search_query, download=False)]: an exception,
    [None], or a dict whose ['entries'], when given, is a list *)
Variable ydl_search : string -> outcome (option (option (list (option Entry)))).
(** [ydl.extract_info(url, download=False)] *)
Variable ydl_info : string -> outcome (option Entry).

Definition search_youtube_videos (query : string) (max_results : Z)
    : list VideoSummary :=
  let search_query := "ytsearch" +:+ pretty max_results +:+ ":" +:+ query in
  match ydl_search search_query with
  | Raise _ => []
  | Ret None => []
  | Ret (Some None) => []
  | Ret (Some (Some entries)) =>
      match collect_videos entries [] with
      | Ret videos => videos
      | Raise _ => []
      end
  end.

Definition get_video_info (url : string) : VideoInfoResult :=
  match ydl_info url with
  | Raise e => InfoError e
  | Ret None => InfoError "'NoneType' object has no attribute 'get'"
  | Ret (Some info) =>
      match video_detail info with
      | Ret video_info => InfoOk video_info
      | Raise e => InfoError e
      end
  end.

End Adapters.

(** the entries the search loop keeps *)
Definition kept_entries (entries : list (option Entry)) : list Entry :=
  omap (fun entry => entry ≫= fun e => if entry_truthy e then Some e else None)
       entries.

(** an identifier made of letters, digits, hyphens and underscores *)
Definition id_char (c : ascii) : bool :=
  Urllib.is_alpha c || Urllib.is_digit c || PyStr.mem_char c "-_".

(** ** Data for the examples *)

Definition record_at_start : ProgressRecord := initial_record 1000.

(** one job, for the identifier abc, that has just started *)
Definition st_one_job : state :=
  {| heap := {[ 1%positive := record_at_start ]};
     download_progress := {[ "abc" := 1%positive ]};
     download_metadata := ∅ |}.

(** a tick of a download whose total size is not known *)
Definition tick_unknown_total : Tick :=
  {| d_status := Some "downloading"; d_total_bytes := None;
     d_total_bytes_estimate := None;
     d_downloaded_bytes := Some (Some 5000%Q); d_filename := None |}.

Definition tick_half : Tick :=
  {| d_status := Some "downloading"; d_total_bytes := Some 2000%Q;
     d_total_bytes_estimate := None;
     d_downloaded_bytes := Some (Some 1000%Q); d_filename := None |}.

Definition tick_finished : Tick :=
  {| d_status := Some "finished"; d_total_bytes := Some 2000%Q;
     d_total_bytes_estimate := None;
     d_downloaded_bytes := Some (Some 2000%Q);
     d_filename := Some "downloads/Clip_abc.webm" |}.

Definition stat_file (size : Z) (mtime : Q) : FileStat :=
  {| st_isfile := true; st_size := size; st_mtime := mtime; st_ctime := mtime |}.

Definition fs_empty : FS := {| fs_stat := ∅; fs_listdir := [] |}.

Definition world_of (fs : FS) : World :=
  {| w_time_start := 1000; w_now := 1001; w_time_end := 1003; w_fs := fs;
     w_send_file := Ret tt |}.

(** a collaborator that reports two ticks and predicts a webm file *)
Definition info_clip : Info :=
  {| info_title := Some (Some "Clip");
     prepared_filename := "downloads/Clip_abc.webm" |}.

Definition collaborator_clip (opts : YdlOpts) (url : string) : DownloadRun :=
  {| run_ticks := [tick_half; tick_finished]; run_result := Ret info_clip |}.

(** the same collaborator, except that it fails on audio-only requests *)
Definition collaborator_no_audio (opts : YdlOpts) (url : string) : DownloadRun :=
  if String.eqb (format opts) "bestaudio/best"
  then {| run_ticks := []; run_result := Raise "no audio stream" |}
  else collaborator_clip opts url.

(** the download directory after the transcoder has written its file *)
Definition fs_clip : FS :=
  {| fs_stat := {[ "downloads/Clip_abc.mp3" := stat_file 4096 1002 ]};
     fs_listdir := ["Clip_abc.mp3"] |}.

(** a file outside the download directory that a traversal would reach *)
Definition fs_secret : FS :=
  {| fs_stat := {[ "downloads/../secret.txt" := stat_file 12 900 ]};
     fs_listdir := [] |}.

Definition metadata_traversal : MetadataRecord :=
  {| md_title := Some "Clip"; md_download_time := 1001; md_url := None;
     md_quality := None; md_audio_only := None;
     md_filename := Some "../secret.txt" |}.

Definition st_traversal : state :=
  {| heap := ∅; download_progress := ∅;
     download_metadata := {[ "abc" := metadata_traversal ]} |}.

Definition record_completed : ProgressRecord :=
  {| pr_progress := 100; pr_filename := Some "Clip_abc.mp3";
     pr_filepath := Some "downloads/Clip_abc.mp3"; pr_status := Completed;
     pr_start_time := 1000; pr_end_time := Some 1003%Q; pr_error := None;
     pr_downloaded_bytes := Some 2000%Q; pr_total_bytes := Some 2000%Q |}.

Definition st_completed : state :=
  {| heap := {[ 1%positive := record_completed ]};
     download_progress := {[ "abc" := 1%positive ]};
     download_metadata := ∅ |}.

(** a collaborator whose download fails after one tick *)
Definition collaborator_failing (opts : YdlOpts) (url : string) : DownloadRun :=
  {| run_ticks := [tick_half]; run_result := Raise "network down" |}.

(** a video whose title ends with an ellipsis, and its file on disk *)
Definition info_ellipsis : Info :=
  {| info_title := Some (Some "Wait...");
     prepared_filename := "downloads/Wait..._abc.mp4" |}.

Definition collaborator_ellipsis (opts : YdlOpts) (url : string) : DownloadRun :=
  {| run_ticks := [tick_half]; run_result := Ret info_ellipsis |}.

Definition fs_ellipsis : FS :=
  {| fs_stat := {[ "downloads/Wait..._abc.mp4" := stat_file 4096 1002 ]};
     fs_listdir := ["Wait..._abc.mp4"] |}.

(** a collaborator whose result binds its title to [None], and the
    file it leaves *)
Definition info_untitled : Info :=
  {| info_title := Some None; prepared_filename := "downloads/NA_abc.mp4" |}.

Definition collaborator_untitled (opts : YdlOpts) (url : string) : DownloadRun :=
  {| run_ticks := [tick_half]; run_result := Ret info_untitled |}.

Definition fs_untitled : FS :=
  {| fs_stat := {[ "downloads/NA_abc.mp4" := stat_file 4096 1002 ]};
     fs_listdir := ["NA_abc.mp4"] |}.

(** no job at all *)
Definition st_idle : state :=
  {| heap := ∅; download_progress := ∅; download_metadata := ∅ |}.

(** a download directory with a file created at 1000 and one at 9000 *)
Definition fs_two_ages : FS :=
  {| fs_stat := <[ "downloads/old.mp4" := stat_file 10 1000 ]>
                  {[ "downloads/new.mp4" := stat_file 10 9000 ]};
     fs_listdir := ["old.mp4"; "new.mp4"] |}.

(** entries of a search result *)
Definition entry_clip : Entry :=
  {| e_id := Some (Some "dQw4w9WgXcQ"); e_title := Some (Some "Clip");
     e_thumbnail := None; e_duration := Some (Some 212);
     e_view_count := Some (Some 1250); e_uploader := None;
     e_description := Some (Some "A clip"); e_upload_date := None;
     e_other_keys := false |}.

Definition entry_overflow : Entry :=
  {| e_id := Some (Some "abc"); e_title := None; e_thumbnail := None;
     e_duration := None; e_view_count := Some (Some (2 ^ 1050));
     e_uploader := None; e_description := None; e_upload_date := None;
     e_other_keys := false |}.

Definition search_clip (search_query : string)
    : outcome (option (option (list (option Entry)))) :=
  Ret (Some (Some [None; Some entry_clip])).

Definition search_overflow (search_query : string)
    : outcome (option (option (list (option Entry)))) :=
  Ret (Some (Some [Some entry_clip; Some entry_overflow])).

Definition info_of_clip (url : string) : outcome (option Entry) :=
  Ret (Some entry_clip).

(** what holds of a dict built from an entry *)
Definition summary_consistent (v : VideoSummary) : Prop :=
  vs_url v = "https://www.youtube.com/watch?v=" +:+ format_str (vs_id v)
  /\ vs_duration_formatted v = format_duration (vs_duration v)
  /\ format_views (vs_views v) = Ret (vs_views_formatted v)
  /\ (String.length (vs_description v) <= 203)%nat
  /\ (vs_description v = ""
      \/ exists t, vs_description v = t +:+ "..." /\ (String.length t <= 200)%nat).

(** the fields the callback leaves alone, and the statuses it writes *)
Definition hook_keeps (r r' : ProgressRecord) : Prop :=
  pr_filename r' = pr_filename r
  /\ pr_start_time r' = pr_start_time r
  /\ pr_end_time r' = pr_end_time r
  /\ pr_error r' = pr_error r
  /\ (pr_status r' = pr_status r \/ pr_status r' = Downloading
      \/ pr_status r' = Processing).

(** * Properties *)

(** ** Strings *)

Lemma string_app_assoc (a b c : string) : (a +:+ b) +:+ c = a +:+ b +:+ c.
Proof.
  induction a as [|x a IH]; [reflexivity|].
  change (String x ((a +:+ b) +:+ c) = String x (a +:+ b +:+ c)).
  now rewrite IH.
Qed.

Lemma list_ascii_take n s :
  list_ascii_of_string (PyStr.take n s) = firstn n (list_ascii_of_string s).
Proof.
  revert s; induction n as [|n IH]; intros [|c s]; simpl; try reflexivity.
  now rewrite IH.
Qed.

Lemma list_ascii_length s :
  length (list_ascii_of_string s) = String.length s.
Proof. induction s; simpl; congruence. Qed.

Lemma list_ascii_replace a b s :
  list_ascii_of_string (PyStr.replace_char a b s)
  = List.map (fun c => if Ascii.eqb c a then b else c) (list_ascii_of_string s).
Proof. induction s as [|c s IH]; simpl; [reflexivity | now rewrite IH]. Qed.

Lemma mem_char_In c s :
  PyStr.mem_char c s = true <-> In c (list_ascii_of_string s).
Proof.
  induction s as [|d s IH]; simpl.
  - split; [discriminate | tauto].
  - rewrite orb_true_iff, IH, Ascii.eqb_eq. intuition congruence.
Qed.

Lemma invalid_char_illegal c :
  invalid_char c = bool_decide (c ∈ illegal_chars).
Proof.
  apply eq_true_iff_eq. unfold invalid_char.
  rewrite mem_char_In, bool_decide_eq_true, list_elem_of_In.
  simpl. intuition congruence.
Qed.

Lemma list_ascii_re_sub s :
  list_ascii_of_string (re_sub_invalid s)
  = List.filter (fun c => negb (bool_decide (c ∈ illegal_chars))) (list_ascii_of_string s).
Proof.
  induction s as [|c s IH]; simpl; [reflexivity|].
  rewrite <- invalid_char_illegal.
  destruct (invalid_char c); simpl; now rewrite IH.
Qed.

Lemma startswith_occurs p s :
  PyStr.startswith p s = true <-> exists b, s = p +:+ b.
Proof.
  revert s. induction p as [|a p IH]; intros s.
  - split; [intros _; now exists s | reflexivity].
  - destruct s as [|c s]; cbn [PyStr.startswith].
    + split; [discriminate | intros [b Hb]; discriminate].
    + destruct (Ascii.eqb_spec a c) as [->|Hac].
      * rewrite IH. split; intros [b Hb]; exists b.
        -- now rewrite Hb.
        -- now injection Hb.
      * split; [discriminate|]. intros [b Hb]. injection Hb as Hc _. congruence.
Qed.

Lemma contains_occurs p s :
  PyStr.contains p s = true <-> occurs_in p s.
Proof.
  unfold occurs_in. induction s as [|c s IH].
  - cbn [PyStr.contains]. rewrite orb_false_r, startswith_occurs. split.
    + intros [b Hb]. now exists "", b.
    + intros ([|x a] & b & Hab); [now exists b | discriminate].
  - cbn [PyStr.contains]. rewrite orb_true_iff, startswith_occurs, IH. split.
    + intros [[b Hb]|(a & b & Hab)].
      * now exists "", b.
      * exists (String c a), b. now rewrite Hab.
    + intros ([|x a] & b & Hab).
      * left. now exists b.
      * right. exists a, b. now injection Hab.
Qed.

Lemma occurs_in_trans p q s : occurs_in p q -> occurs_in q s -> occurs_in p s.
Proof.
  intros (a & b & ->) (a' & b' & ->).
  exists (a' +:+ a), (b +:+ b').
  now rewrite !string_app_assoc.
Qed.

Lemma truthy_Some (s : string) : s <> "" -> PyStr.truthy (Some s) = true.
Proof. now destruct s. Qed.

Lemma truthy_inv (o : option string) :
  PyStr.truthy o = true -> exists s, o = Some s /\ s <> "".
Proof. destruct o as [[|c s]|]; try discriminate. intros _. now eexists. Qed.

Lemma span_until_absent (c : ascii) (s : string) :
  ~ occurs_in (String c "") s ->
  Urllib.span_until (Ascii.eqb c) s = (s, "").
Proof.
  induction s as [|d s IH]; intros Hno; cbn [Urllib.span_until]; [reflexivity|].
  destruct (Ascii.eqb_spec c d) as [->|Hcd].
  - exfalso. apply Hno. now exists "", s.
  - rewrite IH; [reflexivity|].
    intros (a & b & ->). apply Hno. now exists (String d a), b.
Qed.

(** ** C8: the filename sanitizer *)

(** C8. For every input string, [sanitize_filename] returns the input
    with every occurrence of the nine illegal characters removed and
    every space replaced by an underscore, cut to its first 150
    characters: no illegal character and no space is left, and the
    result has at most 150 characters. *)
Theorem sanitize_filename_correct (filename : string) :
  let out := list_ascii_of_string (sanitize_filename filename) in
  out = sanitized (list_ascii_of_string filename)
  /\ Forall (fun c => (c ∉ illegal_chars) /\ c <> " "%char) out
  /\ (String.length (sanitize_filename filename) <= 150)%nat.
Proof.
  intros out.
  assert (Hout : out = sanitized (list_ascii_of_string filename)).
  { unfold out, sanitize_filename, sanitized.
    set (t := PyStr.replace_char " " "_" (re_sub_invalid filename)).
    assert (Ht : list_ascii_of_string t
                 = List.map (fun c => if Ascii.eqb c " " then "_"%char else c)
                     (List.filter (fun c => negb (bool_decide (c ∈ illegal_chars)))
                        (list_ascii_of_string filename))).
    { unfold t. now rewrite list_ascii_replace, list_ascii_re_sub. }
    rewrite <- Ht.
    destruct (150 <? PyStr.len t) eqn:Hlen.
    - apply list_ascii_take.
    - apply Z.ltb_ge in Hlen. unfold PyStr.len in Hlen.
      symmetry. apply firstn_all2. rewrite list_ascii_length. lia. }
  split; [exact Hout|]. split.
  - rewrite Hout. unfold sanitized.
    apply Forall_forall. intros c Hc.
    apply (subseteq_take 150), list_elem_of_In in Hc.
    apply in_map_iff in Hc as (d & Hd & Hin).
    apply filter_In in Hin as [_ Hlegal].
    apply negb_true_iff, bool_decide_eq_false in Hlegal.
    destruct (Ascii.eqb d " ") eqn:Hsp; subst c.
    + split; [|discriminate].
      intros H. apply list_elem_of_In in H. simpl in H.
      intuition discriminate.
    + split; [exact Hlegal|]. now apply Ascii.eqb_neq.
  - rewrite <- list_ascii_length. fold out. rewrite Hout. unfold sanitized.
    rewrite length_firstn. lia.
Qed.

(** ** C9: the formatters *)

(** C9. [format_duration] maps 0 to Unknown, 45 to 0:45 and 3661 to
    1:01:01; [format_views] maps 500 to 500, 1500 to 1.5K and 2000000
    to 2.0M. *)
Theorem formatter_values :
  format_duration (Some 0) = "Unknown"
  /\ format_duration (Some 45) = "0:45"
  /\ format_duration (Some 3661) = "1:01:01"
  /\ format_views (Some 500) = Ret "500"
  /\ format_views (Some 1500) = Ret "1.5K"
  /\ format_views (Some 2000000) = Ret "2.0M".
Proof. repeat split; vm_compute; reflexivity. Qed.

Example format_views_tie_to_even : format_views (Some 1250) = Ret "1.2K".
Proof. vm_compute. reflexivity. Qed.

Example format_views_inexact_quotient : format_views (Some 1050) = Ret "1.1K".
Proof. vm_compute. reflexivity. Qed.

Example format_views_carry : format_views (Some 999999) = Ret "1000.0K".
Proof. vm_compute. reflexivity. Qed.

Example format_duration_negative : format_duration (Some (-5)) = "59:55".
Proof. vm_compute. reflexivity. Qed.

Example splitext_plain :
  OsPath.splitext "downloads/My_Clip_abc.webm" = ("downloads/My_Clip_abc", ".webm").
Proof. vm_compute. reflexivity. Qed.

Example splitext_hidden :
  OsPath.splitext "down.loads/.hidden" = ("down.loads/.hidden", "").
Proof. vm_compute. reflexivity. Qed.

Example join_basename :
  OsPath.basename (OsPath.join DOWNLOAD_FOLDER "x.mp4") = "x.mp4".
Proof. vm_compute. reflexivity. Qed.

(** ** C7: the format directive *)

Lemma quality_map_other (label : string) :
  label ∉ ["144p"; "240p"; "360p"; "480p"; "720p"; "1080p"; "highest"] ->
  quality_map !! label = None.
Proof.
  intros Hnot. apply not_elem_of_list_to_map_1. exact Hnot.
Qed.

Lemma ladder_height_other (label : string) :
  label ∉ ["144p"; "240p"; "360p"; "480p"; "720p"; "1080p"; "highest"] ->
  ladder_height (Some label) = None.
Proof.
  intros Hnot. unfold ladder_height, ladder. simpl List.find.
  repeat match goal with
  | |- context [String.eqb label ?s] =>
      let s' := eval vm_compute in s in
      change s with s';
      destruct (String.eqb_spec label s') as [->|_];
      [exfalso; apply Hnot; set_solver|]
  end.
  reflexivity.
Qed.

Lemma download_video_collaborators urlparse parse_qs float_round
    (extract_info1 extract_info2 : YdlOpts -> string -> DownloadRun)
    url quality audio_only w st :
  (forall opts, ydl_opts_for quality audio_only = Ret opts ->
                extract_info1 opts url = extract_info2 opts url) ->
  download_video urlparse parse_qs float_round extract_info1
    url quality audio_only w st
  = download_video urlparse parse_qs float_round extract_info2
      url quality audio_only w st.
Proof.
  intros Heq. unfold download_video.
  destruct (negb (PyStr.truthy (get_video_id urlparse parse_qs url)));
    [reflexivity|].
  unfold try_except. unfold bind at 1 3, of_outcome.
  destruct (ydl_opts_for quality audio_only) as [opts|e]; [|reflexivity].
  unfold ydl_extract_info. now rewrite (Heq opts eq_refl).
Qed.

(** C7. The options built for the collaborator: with audio-only, the
    format is the best audio with one post-processor transcoding to mp3
    at 192; otherwise a label of the ladder 144p ... 1080p gives the
    selector capping the height at the label's pixel value, and every
    other label (highest, an unknown one, none) and every other value
    that is no list nor object gives the highest-available selector,
    without post-processor.  The collaborator is called on these
    options: [download_video] depends on it through its run on them
    alone.  Without audio-only a list or an object as quality makes
    the construction raise, and the collaborator is not called. *)
Theorem format_directive (quality : JsonValue) (audio_only : bool) :
  if audio_only || scalar quality then
    exists opts,
      ydl_opts_for quality audio_only = Ret opts
      /\ format opts =
           (if audio_only then "bestaudio/best"
            else match ladder_height (label_of quality) with
                 | Some h => "bestvideo[height<=" +:+ pretty h +:+
                             "]+bestaudio/best[height<=" +:+ pretty h +:+ "]"
                 | None => "bestvideo+bestaudio/best"
                 end)
      /\ postprocessors opts =
           (if audio_only
            then [{| key := "FFmpegExtractAudio"; preferredcodec := "mp3";
                     preferredquality := "192" |}]
            else [])
      /\ forall urlparse parse_qs float_round extract_info1 extract_info2 url w st,
           extract_info1 opts url = extract_info2 opts url ->
           download_video urlparse parse_qs float_round extract_info1
             url quality audio_only w st
           = download_video urlparse parse_qs float_round extract_info2
             url quality audio_only w st
  else
    exists e,
      ydl_opts_for quality audio_only = Raise e
      /\ forall urlparse parse_qs float_round extract_info1 extract_info2 url w st,
           download_video urlparse parse_qs float_round extract_info1
             url quality audio_only w st
           = download_video urlparse parse_qs float_round extract_info2
             url quality audio_only w st.
Proof.
  assert (Hsame : forall opts, ydl_opts_for quality audio_only = Ret opts ->
            forall urlparse parse_qs float_round extract_info1 extract_info2 url w st,
              extract_info1 opts url = extract_info2 opts url ->
              download_video urlparse parse_qs float_round extract_info1
                url quality audio_only w st
              = download_video urlparse parse_qs float_round extract_info2
                url quality audio_only w st).
  { intros opts Hopts ? ? ? ? ? ? ? ? Heq. apply download_video_collaborators.
    intros opts' Hopts'. congruence. }
  assert (Hnone : forall e, ydl_opts_for quality audio_only = Raise e ->
            forall urlparse parse_qs float_round extract_info1 extract_info2 url w st,
              download_video urlparse parse_qs float_round extract_info1
                url quality audio_only w st
              = download_video urlparse parse_qs float_round extract_info2
                url quality audio_only w st).
  { intros e He ? ? ? ? ? ? ? ?. apply download_video_collaborators.
    intros opts' Hopts'. congruence. }
  destruct audio_only; cbn [orb].
  { eexists. split; [reflexivity|]. split; [reflexivity|]. split; [reflexivity|].
    exact (Hsame _ eq_refl). }
  destruct quality as [|b|x|label|items|members]; cbn [scalar];
    try (eexists; split; [reflexivity|]; split; [reflexivity|];
         split; [reflexivity|]; exact (Hsame _ eq_refl));
    try (eexists; split; [reflexivity|]; exact (Hnone _ eq_refl)).
  destruct (decide (label ∈ ["144p"; "240p"; "360p"; "480p"; "720p"; "1080p"; "highest"]))
    as [Hin|Hnot].
  - repeat (apply elem_of_cons in Hin as [->|Hin];
            [eexists; split; [reflexivity|]; split; [vm_compute; reflexivity|];
             split; [reflexivity|]; exact (Hsame _ eq_refl)|]).
    now apply elem_of_nil in Hin.
  - eexists. split; [reflexivity|]. split; [|split; [reflexivity|exact (Hsame _ eq_refl)]].
    cbn [format label_of]. rewrite ladder_height_other by assumption.
    unfold quality_map_get. now rewrite quality_map_other.
Qed.

(** ** Sorting *)

Section Sorting.

Context {A : Type} (le : A -> A -> bool).
Hypothesis le_total : forall x y, le x y = false -> le y x = true.
Hypothesis le_trans : forall x y z, le x y = true -> le y z = true -> le x z = true.

Lemma insert_by_In x y l : In y (insert_by le x l) <-> y = x \/ In y l.
Proof.
  induction l as [|z l IH]; cbn [insert_by].
  - simpl. intuition.
  - destruct (le x z); simpl; [intuition|].
    rewrite IH. intuition.
Qed.

Lemma stable_sort_In y l : In y (stable_sort le l) <-> In y l.
Proof.
  induction l as [|x l IH]; [reflexivity|].
  unfold stable_sort in *. cbn [foldr].
  rewrite insert_by_In, IH. simpl. intuition.
Qed.

Lemma insert_by_sorted x l :
  StronglySorted (fun a b => le a b = true) l ->
  StronglySorted (fun a b => le a b = true) (insert_by le x l).
Proof.
  induction 1 as [|z l Hs IH Hz]; cbn [insert_by].
  - repeat constructor.
  - destruct (le x z) eqn:Hxz.
    + constructor; [now constructor|].
      constructor; [exact Hxz|].
      eapply Forall_impl; [exact Hz|]. intros a Ha. now apply le_trans with z.
    + constructor; [exact IH|].
      apply Forall_forall. intros a Ha. apply list_elem_of_In, insert_by_In in Ha.
      destruct Ha as [->|Ha]; [now apply le_total|].
      rewrite Forall_forall in Hz. now apply Hz, list_elem_of_In.
Qed.

Lemma stable_sort_sorted l :
  StronglySorted (fun a b => le a b = true) (stable_sort le l).
Proof.
  induction l as [|x l IH]; [constructor|].
  unfold stable_sort in *. cbn [foldr]. now apply insert_by_sorted.
Qed.

(** the head of the sorted list is in the list and stands before all
    its elements *)
Lemma stable_sort_head x rest l :
  (forall a, le a a = true) ->
  stable_sort le l = x :: rest ->
  In x l /\ forall y, In y l -> le x y = true.
Proof.
  intros Hrefl Hsort. split.
  - apply stable_sort_In. rewrite Hsort. now left.
  - intros y Hy. apply stable_sort_In in Hy. rewrite Hsort in Hy.
    pose proof (stable_sort_sorted l) as Hs. rewrite Hsort in Hs.
    inversion Hs as [|? ? _ Hall]; subst.
    destruct Hy as [<-|Hy]; [apply Hrefl|].
    rewrite Forall_forall in Hall. now apply Hall, list_elem_of_In.
Qed.

Lemma stable_sort_nil l : stable_sort le l = [] -> l = [].
Proof.
  destruct l as [|x l]; [reflexivity|]. intros Hsort.
  assert (Hin : In x (stable_sort le (x :: l))) by (apply stable_sort_In; now left).
  rewrite Hsort in Hin. destruct Hin.
Qed.

End Sorting.

(** ** File discovery *)

Lemma join_folder_nonempty (f : string) : OsPath.join DOWNLOAD_FOLDER f <> "".
Proof.
  unfold OsPath.join. destruct (PyStr.startswith "/" f) eqn:Hroot.
  - destruct f; [discriminate Hroot|discriminate].
  - discriminate.
Qed.

Lemma Qle_bool_total (x y : Q) : Qle_bool x y = false -> Qle_bool y x = true.
Proof.
  intros H. apply Qle_bool_iff. destruct (Qlt_le_dec y x) as [Hlt|Hle].
  - now apply Qlt_le_weak.
  - apply Qle_bool_iff in Hle. congruence.
Qed.

Lemma Qle_bool_trans (x y z : Q) :
  Qle_bool x y = true -> Qle_bool y z = true -> Qle_bool x z = true.
Proof. rewrite !Qle_bool_iff. apply Qle_trans. Qed.

Lemma find_by_video_id_Some fs video_id names p :
  find_by_video_id fs video_id names = Some p ->
  exists before f after,
    names = (before ++ f :: after)%list
    /\ p = OsPath.join DOWNLOAD_FOLDER f
    /\ candidate fs f /\ occurs_in video_id f
    /\ forall g, In g before -> ~ (candidate fs g /\ occurs_in video_id g).
Proof.
  induction names as [|f names IH]; cbn [find_by_video_id]; [discriminate|].
  destruct (nonempty_file fs (OsPath.join DOWNLOAD_FOLDER f)
            && PyStr.contains video_id f) eqn:Hf.
  - intros [= <-]. apply andb_true_iff in Hf as [Hc Ho].
    exists [], f, names. repeat split; try assumption.
    + now apply contains_occurs.
    + intros g [].
  - intros Hrest. destruct (IH Hrest) as (before & g & after & -> & -> & Hc & Ho & Hb).
    exists (f :: before), g, after. repeat split; try assumption.
    intros h [<-|Hh]; [|now apply Hb].
    intros [Hc' Ho']. apply contains_occurs in Ho'. unfold candidate in Hc'.
    now rewrite Hc', Ho' in Hf.
Qed.

Lemma find_by_video_id_None fs video_id names :
  find_by_video_id fs video_id names = None ->
  forall g, In g names -> ~ (candidate fs g /\ occurs_in video_id g).
Proof.
  induction names as [|f names IH]; cbn [find_by_video_id]; [intros _ g []|].
  destruct (nonempty_file fs (OsPath.join DOWNLOAD_FOLDER f)
            && PyStr.contains video_id f) eqn:Hf; [discriminate|].
  intros Hrest g [<-|Hg]; [|now apply IH].
  intros [Hc Ho]. apply contains_occurs in Ho. unfold candidate in Hc.
  now rewrite Hc, Ho in Hf.
Qed.

Lemma files_with_time_In fs names x :
  In x (files_with_time fs names) <->
  exists f, In f names /\ candidate fs f
            /\ x = (OsPath.join DOWNLOAD_FOLDER f, f,
                    os_path_getmtime fs (OsPath.join DOWNLOAD_FOLDER f)).
Proof.
  induction names as [|f names IH]; cbn [files_with_time].
  - split; [intros [] | intros (f & [] & _)].
  - destruct (nonempty_file fs (OsPath.join DOWNLOAD_FOLDER f)) eqn:Hf.
    + simpl. rewrite IH. split.
      * intros [<-|(g & Hg & Hc & ->)]; [exists f | exists g]; auto.
      * intros (g & [<-|Hg] & Hc & ->); [now left | right; now exists g].
    + rewrite IH. split.
      * intros (g & Hg & Hc & ->). exists g. simpl. auto.
      * intros (g & [<-|Hg] & Hc & ->); [unfold candidate in Hc; congruence|].
        now exists g.
Qed.

(** the search of [download_video] is the discovery of the specification *)
Lemma locate_download_located fs expected_filename video_id :
  located fs expected_filename video_id
    (locate_download fs expected_filename video_id).
Proof.
  unfold locate_download.
  destruct (os_path_exists fs expected_filename
            && (0 <? os_path_getsize fs expected_filename)) eqn:Hpred.
  { apply located_prediction. apply andb_true_iff in Hpred as [He Hs].
    split; [exact He | now apply Z.ltb_lt]. }
  assert (Hno : ~ prediction_holds fs expected_filename).
  { intros [He Hs]. apply Z.ltb_lt in Hs. now rewrite He, Hs in Hpred. }
  destruct (find_by_video_id fs video_id (fs_listdir fs)) as [p|] eqn:Hfind.
  { destruct (find_by_video_id_Some _ _ _ _ Hfind)
      as (before & f & after & Hl & -> & Hc & Ho & Hb).
    rewrite (truthy_Some _ (join_folder_nonempty f)). cbn [negb].
    now apply located_identifier with before after. }
  pose proof (find_by_video_id_None _ _ _ Hfind) as Hnone.
  cbn [PyStr.truthy negb].
  destruct (stable_sort _ _) as [|[[p f] t] rest] eqn:Hsort.
  - apply located_nothing; [exact Hno|].
    apply stable_sort_nil in Hsort. intros g Hg Hc.
    assert (Hin : In (OsPath.join DOWNLOAD_FOLDER g, g,
                      os_path_getmtime fs (OsPath.join DOWNLOAD_FOLDER g))
                     (files_with_time fs (fs_listdir fs)))
      by (apply files_with_time_In; now exists g).
    rewrite Hsort in Hin. destruct Hin.
  - apply stable_sort_head in Hsort as [Hin Hmax].
    + apply files_with_time_In in Hin as (f' & Hf' & Hc & [= -> -> ->]).
      apply located_recent; try assumption.
      intros g Hg Hcg. apply Qle_bool_iff.
      apply (Hmax (OsPath.join DOWNLOAD_FOLDER g, g,
                   os_path_getmtime fs (OsPath.join DOWNLOAD_FOLDER g))).
      apply files_with_time_In. now exists g.
    + intros x y H. now apply Qle_bool_total.
    + intros x y z Hxy Hyz. now apply Qle_bool_trans with y.2.
    + intros a. apply Qle_bool_iff, Qle_refl.
Qed.

(** ** The rounding to the nearest double *)

Module PyFloatFacts.
Import PyFloat.

Lemma rne_bounds n d : 0 < d ->
  2 * d * rne n d - d <= 2 * n <= 2 * d * rne n d + d.
Proof.
  intros Hd. unfold rne.
  pose proof (Z.div_mod n d ltac:(lia)) as Hdm.
  pose proof (Z.mod_pos_bound n d Hd) as Hm.
  cbv zeta.
  set (q := n / d) in *. set (r := n mod d) in *. clearbody q r. subst n.
  destruct (2 * r ?= d) eqn:Hc.
  - apply Z.compare_eq in Hc. destruct (Z.even q); lia.
  - change (2 * r < d) in Hc. lia.
  - change (2 * r > d) in Hc. lia.
Qed.

Lemma rne_same_ratio n1 d1 n2 d2 :
  0 < d1 -> 0 < d2 -> n1 * d2 = n2 * d1 -> rne n1 d1 = rne n2 d2.
Proof.
  intros H1 H2 Heq.
  assert (Hq : n1 / d1 = n2 / d2).
  { pose proof (Z.div_mod n2 d2 ltac:(lia)) as E.
    pose proof (Z.mod_pos_bound n2 d2 H2) as B.
    set (q := n2 / d2) in *. set (r := n2 mod d2) in *. clearbody q r.
    assert (Hk : (n1 - d1 * q) * d2 = d1 * r).
    { subst n2. ring_simplify. ring_simplify in Heq. lia. }
    symmetry. apply Z.div_unique with (r := n1 - d1 * q); [|lia].
    left. split.
    - assert (0 <= (n1 - d1 * q) * d2) by nia. nia.
    - assert ((n1 - d1 * q) * d2 < d1 * d2) by nia. nia. }
  unfold rne. rewrite <- Hq.
  pose proof (Z.div_mod n1 d1 ltac:(lia)) as E1.
  pose proof (Z.div_mod n2 d2 ltac:(lia)) as E2.
  rewrite <- Hq in E2.
  assert (Hr : (n1 mod d1) * d2 = (n2 mod d2) * d1).
  { replace (n1 mod d1) with (n1 - d1 * (n1 / d1)) by lia.
    replace (n2 mod d2) with (n2 - d2 * (n1 / d1)) by lia.
    ring_simplify. lia. }
  assert (Hc : (2 * (n1 mod d1) ?= d1) = (2 * (n2 mod d2) ?= d2)).
  { destruct (2 * (n2 mod d2) ?= d2) eqn:Hc2.
    - apply Z.compare_eq in Hc2. apply Z.compare_eq_iff. nia.
    - change (2 * (n2 mod d2) < d2) in Hc2.
      change (2 * (n1 mod d1) < d1). nia.
    - change (2 * (n2 mod d2) > d2) in Hc2.
      change (2 * (n1 mod d1) > d1). nia. }
  now rewrite Hc.
Qed.

Lemma rne_mono n1 d1 n2 d2 :
  0 < d1 -> 0 < d2 -> n1 * d2 <= n2 * d1 -> rne n1 d1 <= rne n2 d2.
Proof.
  intros H1 H2 Hle.
  destruct (Z.eq_dec (n1 * d2) (n2 * d1)) as [Heq|Hne].
  { rewrite (rne_same_ratio n1 d1 n2 d2); auto. lia. }
  pose proof (rne_bounds n1 d1 H1) as B1.
  pose proof (rne_bounds n2 d2 H2) as B2.
  destruct (Z_le_gt_dec (rne n1 d1) (rne n2 d2)) as [Hok|Hgt]; [exact Hok|].
  exfalso.
  set (r1 := rne n1 d1) in *. set (r2 := rne n2 d2) in *. clearbody r1 r2.
  assert (S1 : (2 * d1 * r1 - d1) * d2 <= 2 * n1 * d2)
    by (apply Z.mul_le_mono_nonneg_r; lia).
  assert (S2 : 2 * n2 * d1 <= (2 * d2 * r2 + d2) * d1)
    by (apply Z.mul_le_mono_nonneg_r; lia).
  assert (S3 : 0 <= (d1 * d2) * (r1 - r2 - 1))
    by (apply Z.mul_nonneg_nonneg; nia).
  nia.
Qed.

Lemma rne_int k : rne k 1 = k.
Proof.
  unfold rne. rewrite Z.div_1_r, Z.mod_1_r. reflexivity.
Qed.

Lemma rne_lower k n d : 0 < d -> k * d <= n -> k <= rne n d.
Proof.
  intros Hd H. rewrite <- (rne_int k). apply rne_mono; lia.
Qed.

Lemma rne_upper k n d : 0 < d -> n <= k * d -> rne n d <= k.
Proof.
  intros Hd H. rewrite <- (rne_int k). apply rne_mono; lia.
Qed.

Local Open Scope Q_scope.

Lemma two_nonzero : ~ 2 == 0.
Proof. discriminate. Qed.

Lemma pow2_pos (k : Z) : 0 < 2 ^ k.
Proof. apply Qpower_0_lt. reflexivity. Qed.

Lemma pow2_add (a b : Z) : 2 ^ (a + b) == 2 ^ a * 2 ^ b.
Proof. apply Qpower_plus, two_nonzero. Qed.

Lemma pow2_le (a b : Z) : (a <= b)%Z -> 2 ^ a <= 2 ^ b.
Proof. intros H. apply Qpower_le_compat_l; [exact H|discriminate]. Qed.

Lemma pow2_inject (k : Z) : (0 <= k)%Z -> inject_Z (2 ^ k) == 2 ^ k.
Proof. intros H. now rewrite Zpower_Qpower. Qed.

Lemma inject_pos (d : Z) : (0 < d)%Z -> 0 < inject_Z d.
Proof. intros H. change (inject_Z 0 < inject_Z d). now rewrite <- Zlt_Qlt. Qed.

Lemma ratio_le_cross n1 d1 n2 d2 :
  (0 < d1)%Z -> (0 < d2)%Z ->
  (ratio n1 d1 <= ratio n2 d2 <-> (n1 * d2 <= n2 * d1)%Z).
Proof.
  intros H1 H2. unfold ratio.
  pose proof (inject_pos d1 H1) as P1. pose proof (inject_pos d2 H2) as P2.
  rewrite Zle_Qle, !inject_Z_mult. split; intros H.
  -
    assert (E1 : inject_Z n1 * inject_Z d2
                 == inject_Z n1 / inject_Z d1 * (inject_Z d1 * inject_Z d2))
      by (field; intros E; rewrite E in P1; discriminate).
    assert (E2 : inject_Z n2 * inject_Z d1
                 == inject_Z n2 / inject_Z d2 * (inject_Z d1 * inject_Z d2))
      by (field; intros E; rewrite E in P2; discriminate).
    rewrite E1, E2. apply Qmult_le_compat_r; [exact H|].
    apply Qlt_le_weak. apply Qmult_lt_0_compat; assumption.
  - apply Qle_shift_div_l; [exact P2|].
    assert (E : inject_Z n1 / inject_Z d1 * inject_Z d2
                == inject_Z n1 * inject_Z d2 / inject_Z d1)
      by (field; intros E; rewrite E in P1; discriminate).
    rewrite E. apply Qle_shift_div_r; [exact P1|exact H].
Qed.

Lemma scaled_den n d k : (0 < d)%Z -> (0 < (scaled n d k).2)%Z.
Proof.
  intros Hd. unfold scaled. destruct (Z.leb_spec 0 k); cbn [snd]; [exact Hd|].
  apply Z.mul_pos_pos; [exact Hd|]. apply Z.pow_pos_nonneg; lia.
Qed.

Lemma scaled_ratio n d k :
  (0 < d)%Z -> ratio (scaled n d k).1 (scaled n d k).2 == ratio n d * 2 ^ k.
Proof.
  intros Hd. pose proof (inject_pos d Hd) as Pd.
  unfold scaled, ratio. destruct (Z.leb_spec 0 k) as [Hk|Hk]; cbn [fst snd].
  - rewrite inject_Z_mult, pow2_inject by exact Hk.
    field. intros E. rewrite E in Pd. discriminate.
  - rewrite inject_Z_mult, pow2_inject by lia.
    rewrite Qpower_opp.
    pose proof (pow2_pos k) as Pk.
    field. split; intros E;
      solve [rewrite E in Pk; discriminate | rewrite E in Pd; discriminate].
Qed.

Lemma ilog2_scaled n d :
  (0 < n)%Z -> (0 < d)%Z ->
  ((scaled n d (- ilog2 n d)).2 <= (scaled n d (- ilog2 n d)).1
   < 2 * (scaled n d (- ilog2 n d)).2)%Z.
Proof.
  intros Hn Hd. unfold ilog2.
  destruct (Z.leb_spec d n) as [Hdn|Hnd].
  - pose proof (Z.div_mod n d ltac:(lia)) as E.
    pose proof (Z.mod_pos_bound n d Hd) as B.
    assert (Hq : (1 <= n / d)%Z) by (apply Z.div_le_lower_bound; lia).
    set (q := (n / d)%Z) in *. set (r := (n mod d)%Z) in *. clearbody q r.
    pose proof (Z.log2_spec q ltac:(lia)) as [Lo Hi].
    pose proof (Z.log2_nonneg q) as Hi0.
    set (i := Z.log2 q) in *. clearbody i.
    rewrite Z.pow_succ_r in Hi by exact Hi0.
    unfold scaled. destruct (Z.leb_spec 0 (- i)) as [Hz|Hz]; cbn [fst snd].
    + assert (i = 0)%Z by lia. subst i. cbn in *. nia.
    + rewrite Z.opp_involutive.
      assert (Hp : (0 < 2 ^ i)%Z) by (apply Z.pow_pos_nonneg; lia).
      set (p := (2 ^ i)%Z) in *. clearbody p. nia.
  - set (c := ((d + n - 1) / n)%Z).
    pose proof (Z.div_mod (d + n - 1) n ltac:(lia)) as E.
    pose proof (Z.mod_pos_bound (d + n - 1) n Hn) as B.
    fold c in E.
    assert (Hc : (2 <= c)%Z) by (apply Z.div_le_lower_bound; lia).
    set (r := ((d + n - 1) mod n)%Z) in *. clearbody c r.
    pose proof (Z.log2_up_spec c ltac:(lia)) as [Lo Hi].
    assert (Hk : (0 < Z.log2_up c)%Z) by (apply Z.log2_up_pos; lia).
    set (k := Z.log2_up c) in *. clearbody k.
    assert (Hpk : (2 ^ k = 2 * 2 ^ Z.pred k)%Z).
    { replace k with (Z.succ (Z.pred k)) at 1 by lia.
      apply Z.pow_succ_r. lia. }
    assert (Hp : (0 < 2 ^ Z.pred k)%Z) by (apply Z.pow_pos_nonneg; lia).
    unfold scaled. rewrite Z.opp_involutive.
    destruct (Z.leb_spec 0 k) as [Hz|Hz]; [|lia]. cbn [fst snd].
    rewrite Hpk in *.
    set (p := (2 ^ Z.pred k)%Z) in *. clearbody p. nia.
Qed.

Lemma unscale (q x : Q) (k : Z) : x == q * 2 ^ (- k) -> q == x * 2 ^ k.
Proof.
  intros H. rewrite H, <- Qmult_assoc, <- pow2_add.
  replace (- k + k)%Z with 0%Z by lia. cbn. ring.
Qed.

Lemma ratio_int (k : Z) : ratio k 1 == inject_Z k.
Proof. unfold ratio. field. Qed.

Lemma ratio_le_int (k n d : Z) :
  (0 < d)%Z -> (ratio n d <= inject_Z k <-> (n <= k * d)%Z).
Proof.
  intros Hd. rewrite <- (ratio_int k).
  rewrite (ratio_le_cross n d k 1 Hd ltac:(lia)). lia.
Qed.

Lemma ratio_ge_int (k n d : Z) :
  (0 < d)%Z -> (inject_Z k <= ratio n d <-> (k * d <= n)%Z).
Proof.
  intros Hd. rewrite <- (ratio_int k).
  rewrite (ratio_le_cross k 1 n d ltac:(lia) Hd). lia.
Qed.

Lemma ilog2_spec n d :
  (0 < n)%Z -> (0 < d)%Z ->
  2 ^ ilog2 n d <= ratio n d /\ ratio n d < 2 ^ (ilog2 n d + 1).
Proof.
  intros Hn Hd.
  pose proof (ilog2_scaled n d Hn Hd) as [Lo Hi].
  pose proof (scaled_den n d (- ilog2 n d) Hd) as HD.
  pose proof (scaled_ratio n d (- ilog2 n d) Hd) as HR.
  set (N := (scaled n d (- ilog2 n d)).1) in *.
  set (D := (scaled n d (- ilog2 n d)).2) in *.
  set (i := ilog2 n d) in *.
  pose proof (pow2_pos i) as Pi.
  apply unscale in HR.
  assert (Hone : 1 <= ratio N D).
  { apply (proj2 (ratio_ge_int 1 N D HD)). lia. }
  assert (Htwo : ratio N D < 2).
  { apply Qnot_le_lt. intros H.
    apply (proj1 (ratio_ge_int 2 N D HD)) in H. lia. }
  rewrite HR. split.
  - rewrite <- (Qmult_1_l (2 ^ i)) at 1.
    apply Qmult_le_compat_r; [exact Hone|]. now apply Qlt_le_weak.
  - rewrite pow2_add. rewrite (Qmult_comm (2 ^ i)).
    apply Qmult_lt_compat_r; [exact Pi|exact Htwo].
Qed.

Lemma to_Q_spec (m k : Z) : to_Q (m, k) == inject_Z m * 2 ^ k.
Proof.
  unfold to_Q. destruct (Z.leb_spec 0 k) as [Hk|Hk].
  - now rewrite inject_Z_mult, pow2_inject.
  - assert (Hp : (0 < 2 ^ (- k))%Z) by (apply Z.pow_pos_nonneg; lia).
    rewrite Qmake_Qdiv, Z2Pos.id by exact Hp.
    rewrite pow2_inject by lia. rewrite Qpower_opp.
    pose proof (pow2_pos k) as Pk.
    field. intros E. rewrite E in Pk. discriminate.
Qed.

Lemma nearest_double_eq n d :
  nearest_double n d = (mantissa n d, (- shift n d)%Z).
Proof.
  unfold nearest_double, mantissa, shift, exponent, scaled. cbv zeta.
  set (e := Z.max (ilog2 n d) (-1022)).
  replace (e - 52)%Z with (- (52 - e))%Z by lia.
  now destruct (0 <=? 52 - e)%Z.
Qed.

Lemma value_eq n d :
  to_Q (nearest_double n d) == inject_Z (mantissa n d) * 2 ^ (- shift n d).
Proof. rewrite nearest_double_eq. apply to_Q_spec. Qed.

Lemma scaled_shift n d :
  (0 < d)%Z ->
  ratio (scaled n d (shift n d)).1 (scaled n d (shift n d)).2
  == ratio n d * 2 ^ shift n d.
Proof. apply scaled_ratio. Qed.

Lemma mantissa_upper n d :
  (0 < n)%Z -> (0 < d)%Z -> (mantissa n d <= 2 ^ 53)%Z.
Proof.
  intros Hn Hd. unfold mantissa.
  pose proof (scaled_den n d (shift n d) Hd) as HD.
  apply rne_upper; [exact HD|].
  apply (ratio_le_int _ _ _ HD).
  rewrite scaled_shift by exact Hd.
  destruct (ilog2_spec n d Hn Hd) as [_ Hi].
  rewrite pow2_inject by lia.
  apply Qlt_le_weak.
  apply Qlt_le_trans with (2 ^ (ilog2 n d + 1) * 2 ^ shift n d).
  - apply Qmult_lt_compat_r; [apply pow2_pos|exact Hi].
  - rewrite <- pow2_add. apply pow2_le. unfold shift, exponent. lia.
Qed.

Lemma mantissa_lower n d :
  (0 < n)%Z -> (0 < d)%Z -> (-1022 <= ilog2 n d)%Z ->
  (2 ^ 52 <= mantissa n d)%Z.
Proof.
  intros Hn Hd Hnormal. unfold mantissa.
  pose proof (scaled_den n d (shift n d) Hd) as HD.
  apply rne_lower; [exact HD|].
  apply (ratio_ge_int _ _ _ HD).
  rewrite scaled_shift by exact Hd.
  destruct (ilog2_spec n d Hn Hd) as [Lo _].
  rewrite pow2_inject by lia.
  apply Qle_trans with (2 ^ ilog2 n d * 2 ^ shift n d).
  - rewrite <- pow2_add. apply pow2_le. unfold shift, exponent. lia.
  - apply Qmult_le_compat_r; [exact Lo|]. apply Qlt_le_weak, pow2_pos.
Qed.

Lemma mantissa_nonneg n d :
  (0 < n)%Z -> (0 < d)%Z -> (0 <= mantissa n d)%Z.
Proof.
  intros Hn Hd. unfold mantissa.
  pose proof (scaled_den n d (shift n d) Hd) as HD.
  apply rne_lower; [exact HD|].
  unfold scaled. destruct (0 <=? shift n d)%Z; cbn [fst snd]; [|lia].
  assert (0 <= 2 ^ shift n d)%Z by (apply Z.pow_nonneg; lia). nia.
Qed.

Lemma value_nonneg n d : (0 < n)%Z -> (0 < d)%Z -> 0 <= value n d.
Proof.
  intros Hn Hd. unfold value. rewrite value_eq.
  apply Qmult_le_0_compat.
  - change 0 with (inject_Z 0). rewrite <- Zle_Qle. now apply mantissa_nonneg.
  - apply Qlt_le_weak, pow2_pos.
Qed.

Lemma value_upper n d :
  (0 < n)%Z -> (0 < d)%Z -> value n d <= 2 ^ (exponent n d + 1).
Proof.
  intros Hn Hd. unfold value. rewrite value_eq.
  apply Qle_trans with (2 ^ 53 * 2 ^ (- shift n d)).
  - apply Qmult_le_compat_r; [|apply Qlt_le_weak, pow2_pos].
    rewrite <- (pow2_inject 53) by lia. rewrite <- Zle_Qle.
    now apply mantissa_upper.
  - rewrite <- pow2_add. apply pow2_le. unfold shift. lia.
Qed.

Lemma value_lower n d :
  (0 < n)%Z -> (0 < d)%Z -> (-1022 <= ilog2 n d)%Z ->
  2 ^ exponent n d <= value n d.
Proof.
  intros Hn Hd Hnormal. unfold value. rewrite value_eq.
  apply Qle_trans with (2 ^ 52 * 2 ^ (- shift n d)).
  - rewrite <- pow2_add. apply pow2_le. unfold shift. lia.
  - apply Qmult_le_compat_r; [|apply Qlt_le_weak, pow2_pos].
    rewrite <- (pow2_inject 52) by lia. rewrite <- Zle_Qle.
    now apply mantissa_lower.
Qed.

Lemma ilog2_mono n1 d1 n2 d2 :
  (0 < n1)%Z -> (0 < d1)%Z -> (0 < n2)%Z -> (0 < d2)%Z ->
  ratio n1 d1 <= ratio n2 d2 -> (ilog2 n1 d1 <= ilog2 n2 d2)%Z.
Proof.
  intros Hn1 Hd1 Hn2 Hd2 Hle.
  destruct (ilog2_spec n1 d1 Hn1 Hd1) as [Lo1 _].
  destruct (ilog2_spec n2 d2 Hn2 Hd2) as [_ Hi2].
  assert (H : 2 ^ ilog2 n1 d1 < 2 ^ (ilog2 n2 d2 + 1)).
  { eapply Qle_lt_trans; [exact Lo1|]. eapply Qle_lt_trans; [exact Hle|exact Hi2]. }
  apply Qpower_lt_compat_l_inv in H; [lia|reflexivity].
Qed.

Lemma value_mono n1 d1 n2 d2 :
  (0 < n1)%Z -> (0 < d1)%Z -> (0 < n2)%Z -> (0 < d2)%Z ->
  ratio n1 d1 <= ratio n2 d2 -> value n1 d1 <= value n2 d2.
Proof.
  intros Hn1 Hd1 Hn2 Hd2 Hle.
  pose proof (ilog2_mono _ _ _ _ Hn1 Hd1 Hn2 Hd2 Hle) as Hi.
  assert (He : (exponent n1 d1 <= exponent n2 d2)%Z) by (unfold exponent; lia).
  destruct (Z.eq_dec (exponent n1 d1) (exponent n2 d2)) as [Heq|Hne].
  - unfold value. rewrite !value_eq.
    assert (Hs : shift n1 d1 = shift n2 d2) by (unfold shift; lia).
    rewrite Hs. apply Qmult_le_compat_r; [|apply Qlt_le_weak, pow2_pos].
    rewrite <- Zle_Qle. unfold mantissa. rewrite Hs.
    pose proof (scaled_den n1 d1 (shift n2 d2) Hd1) as HD1.
    pose proof (scaled_den n2 d2 (shift n2 d2) Hd2) as HD2.
    apply rne_mono; [exact HD1|exact HD2|].
    apply (proj1 (ratio_le_cross _ _ _ _ HD1 HD2)).
    rewrite !scaled_ratio by assumption.
    apply Qmult_le_compat_r; [exact Hle|]. apply Qlt_le_weak, pow2_pos.
  - apply Qle_trans with (2 ^ (exponent n1 d1 + 1)); [now apply value_upper|].
    apply Qle_trans with (2 ^ exponent n2 d2).
    + apply pow2_le. lia.
    + apply value_lower; try assumption. unfold exponent in *. lia.
Qed.

Lemma round_mono (x y : Q) : x <= y -> round x <= round y.
Proof.
  destruct x as [nx dx], y as [ny dy]. intros H.
  unfold Qle in H. unfold round. cbn [Qnum Qden] in *.
  destruct nx as [|nx|nx], ny as [|ny|ny]; try (exfalso; lia).
  - apply Qle_refl.
  - rewrite Qred_correct. apply (value_nonneg (Zpos ny) (Zpos dy)); lia.
  - rewrite !Qred_correct.
    apply (value_mono (Zpos nx) (Zpos dx) (Zpos ny) (Zpos dy)); try lia.
    apply ratio_le_cross; lia.
  - rewrite Qred_correct.
    apply (Qopp_le_compat 0). apply (value_nonneg (Zpos nx) (Zpos dx)); lia.
  - rewrite !Qred_correct.
    apply Qle_trans with 0.
    + apply (Qopp_le_compat 0). apply (value_nonneg (Zpos nx) (Zpos dx)); lia.
    + apply (value_nonneg (Zpos ny) (Zpos dy)); lia.
  - rewrite !Qred_correct. apply Qopp_le_compat.
    apply (value_mono (Zpos ny) (Zpos dy) (Zpos nx) (Zpos dx)); try lia.
    apply ratio_le_cross; lia.
Qed.

Lemma round_faithful : faithful_rounding round.
Proof.
  split; [exact round_mono|]. repeat split.
Qed.

End PyFloatFacts.

(** ** The monad *)

Ltac run_py :=
  unfold bind, ret, raise, get_state, put_state, try_except, dict_item,
    assign_progress, assign_metadata, alloc, deref, assign_at in *;
  cbn [fst snd heap download_progress download_metadata
       with_heap with_progress with_metadata] in *.

Section Handlers.

Context (urlparse : string -> outcome ParseResult)
        (parse_qs : string -> outcome (gmap string (list string)))
        (float_round : Q -> Q)
        (extract_info : YdlOpts -> string -> DownloadRun).

Local Abbreviation get_video_id' := (get_video_id urlparse parse_qs).
Local Abbreviation progress_hook' := (progress_hook float_round).
Local Abbreviation run_hooks' := (run_hooks float_round).
Local Abbreviation download_video' :=
  (download_video urlparse parse_qs float_round extract_info).
Local Abbreviation download' := (download urlparse parse_qs).
Local Abbreviation download_file' := (download_file float_round).

(** *** The progress callback and the tables *)

Lemma assign_progress_tables video_id f st :
  download_progress (assign_progress video_id f st).2 = download_progress st
  /\ download_metadata (assign_progress video_id f st).2 = download_metadata st.
Proof.
  unfold assign_progress. now destruct (download_progress st !! video_id).
Qed.

Lemma bind_tables {A B} (m : M A) (k : A -> M B) st :
  (forall st0, download_progress (m st0).2 = download_progress st0
               /\ download_metadata (m st0).2 = download_metadata st0) ->
  (forall a st0, download_progress (k a st0).2 = download_progress st0
                 /\ download_metadata (k a st0).2 = download_metadata st0) ->
  download_progress (bind m k st).2 = download_progress st
  /\ download_metadata (bind m k st).2 = download_metadata st.
Proof.
  intros Hm Hk. unfold bind. specialize (Hm st).
  destruct (m st) as [[a|e] st1]; cbn [snd] in *; [|exact Hm].
  destruct (Hk a st1) as [-> ->]. exact Hm.
Qed.

Lemma progress_hook_tables d video_id st :
  download_progress (progress_hook' d video_id st).2 = download_progress st
  /\ download_metadata (progress_hook' d video_id st).2 = download_metadata st.
Proof.
  unfold progress_hook.
  apply bind_tables; [now intros|]. intros st1 st0.
  destruct (download_progress st1 !! video_id); [|now split].
  apply bind_tables.
  { intros st2. unfold dict_item. now destruct (d_status d). }
  intros status st2.
  destruct (String.eqb status "downloading").
  { destruct (d_downloaded_bytes d) as [[q|]|]; try (now split);
      repeat (apply bind_tables; [intros; apply assign_progress_tables|intros]);
      apply assign_progress_tables. }
  destruct (String.eqb status "finished"); [|now split].
  repeat (apply bind_tables;
          [intros ?;
           first [apply assign_progress_tables
                 | unfold dict_item; now destruct (d_filename d)]
          |intros ? ?]).
  apply assign_progress_tables.
Qed.

(** *** The callback as a function on the record *)

Lemma updated_at_refl l st : updated_at l id st st.
Proof.
  repeat split; try reflexivity. now rewrite option_fmap_id.
Qed.

Lemma updated_at_trans l f g st st1 st2 :
  updated_at l f st st1 -> updated_at l g st1 st2 ->
  updated_at l (g ∘ f) st st2.
Proof.
  intros (Hp1 & Hl1 & Ho1) (Hp2 & Hl2 & Ho2).
  repeat split; try congruence.
  - rewrite Hl2, Hl1. now rewrite option_fmap_compose.
  - intros l' Hne. rewrite Ho2, Ho1; auto.
Qed.

Lemma assign_progress_updated video_id l f st :
  download_progress st !! video_id = Some l ->
  exists st', assign_progress video_id f st = (Ret tt, st')
              /\ updated_at l f st st'.
Proof.
  intros Hl. unfold assign_progress. rewrite Hl.
  eexists; split; [reflexivity|].
  repeat split; cbn.
  - apply lookup_alter_eq.
  - intros l' Hne. now apply lookup_alter_ne.
Qed.

(** running [m] then [k] when [m] returns and both update the dict at [l] *)
Lemma bind_updated {A B} (m : M A) (k : A -> M B) l f g a o st st1 st2 :
  m st = (Ret a, st1) -> updated_at l f st st1 ->
  k a st1 = (o, st2) -> updated_at l g st1 st2 ->
  bind m k st = (o, st2) /\ updated_at l (g ∘ f) st st2.
Proof.
  intros Hm Hf Hk Hg. split.
  - unfold bind. now rewrite Hm.
  - eapply updated_at_trans; eassumption.
Qed.

Lemma progress_hook_effect d video_id l st :
  download_progress st !! video_id = Some l ->
  exists st', progress_hook' d video_id st = ((hook_effect float_round d).1, st')
              /\ updated_at l (hook_effect float_round d).2 st st'.
Proof.
  intros Hl. unfold progress_hook, hook_effect.
  unfold bind at 1, get_state. rewrite Hl.
  destruct (d_status d) as [status|]; cbn [dict_item].
  2:{ eexists; split; [reflexivity|apply updated_at_refl]. }
  unfold bind at 1, ret.
  destruct (String.eqb status "downloading").
  { assert (Hgo : forall q,
      exists st',
        (assign_progress video_id
           (set_progress (float_round (float_round (q / effective_total d) * 100)%Q)) ;;
         assign_progress video_id (set_status Downloading) ;;
         assign_progress video_id (set_downloaded_bytes (Some q)) ;;
         assign_progress video_id (set_total_bytes (Some (effective_total d))))%py st
        = (Ret tt, st')
        /\ updated_at l
             (set_total_bytes (Some (effective_total d))
              ∘ set_downloaded_bytes (Some q)
              ∘ set_status Downloading
              ∘ set_progress (float_round (float_round (q / effective_total d) * 100)%Q))
             st st').
    { intros q.
      destruct (assign_progress_updated video_id l
                  (set_progress (float_round (float_round (q / effective_total d) * 100)%Q))
                  st Hl) as (st1 & E1 & U1).
      assert (Hl1 : download_progress st1 !! video_id = Some l)
        by (destruct U1 as (-> & _); exact Hl).
      destruct (assign_progress_updated video_id l (set_status Downloading) st1 Hl1)
        as (st2 & E2 & U2).
      assert (Hl2 : download_progress st2 !! video_id = Some l)
        by (destruct U2 as (-> & _); exact Hl1).
      destruct (assign_progress_updated video_id l (set_downloaded_bytes (Some q)) st2 Hl2)
        as (st3 & E3 & U3).
      assert (Hl3 : download_progress st3 !! video_id = Some l)
        by (destruct U3 as (-> & _); exact Hl2).
      destruct (assign_progress_updated video_id l
                  (set_total_bytes (Some (effective_total d))) st3 Hl3)
        as (st4 & E4 & U4).
      exists st4. split.
      - unfold bind. now rewrite E1, E2, E3, E4.
      - eapply updated_at_trans; [exact U1|].
        eapply updated_at_trans; [exact U2|].
        eapply updated_at_trans; [exact U3|exact U4]. }
    destruct (d_downloaded_bytes d) as [[q|]|]; cbn [mjoin option_join default fst snd].
    - apply Hgo.
    - eexists; split; [reflexivity|apply updated_at_refl].
    - apply Hgo. }
  destruct (String.eqb status "finished").
  2:{ eexists; split; [reflexivity|apply updated_at_refl]. }
  destruct (assign_progress_updated video_id l (set_progress 100%Q) st Hl)
    as (st1 & E1 & U1).
  assert (Hl1 : download_progress st1 !! video_id = Some l)
    by (destruct U1 as (-> & _); exact Hl).
  destruct (assign_progress_updated video_id l (set_status Processing) st1 Hl1)
    as (st2 & E2 & U2).
  assert (Hl2 : download_progress st2 !! video_id = Some l)
    by (destruct U2 as (-> & _); exact Hl1).
  destruct (d_filename d) as [filename|]; cbn [dict_item fst snd].
  - destruct (assign_progress_updated video_id l (set_filepath (Some filename)) st2 Hl2)
      as (st3 & E3 & U3).
    exists st3. split.
    + unfold bind, ret. now rewrite E1, E2, E3.
    + eapply updated_at_trans; [exact U1|].
      eapply updated_at_trans; [exact U2|exact U3].
  - exists st2. split.
    + unfold bind, raise. now rewrite E1, E2.
    + eapply updated_at_trans; [exact U1|exact U2].
Qed.

Lemma run_hooks_effect ticks video_id l st :
  download_progress st !! video_id = Some l ->
  exists st', run_hooks' ticks video_id st = ((hooks_effect float_round ticks).1, st')
              /\ updated_at l (hooks_effect float_round ticks).2 st st'.
Proof.
  revert st. induction ticks as [|d rest IH]; intros st Hl; cbn [run_hooks hooks_effect].
  - exists st. split; [reflexivity|apply updated_at_refl].
  - destruct (progress_hook_effect d video_id l st Hl) as (st1 & E1 & U1).
    destruct (hook_effect float_round d) as [[[]|e] f]; cbn [fst snd] in *.
    + assert (Hl1 : download_progress st1 !! video_id = Some l)
        by (destruct U1 as (-> & _); exact Hl).
      destruct (IH st1 Hl1) as (st2 & E2 & U2).
      destruct (hooks_effect float_round rest) as [o g]; cbn [fst snd] in *.
      exists st2. split.
      * unfold bind. now rewrite E1.
      * eapply updated_at_trans; eassumption.
    + exists st1. split; [|exact U1].
      unfold bind. now rewrite E1.
Qed.

Lemma run_hooks_tables ticks video_id st :
  download_progress (run_hooks' ticks video_id st).2 = download_progress st
  /\ download_metadata (run_hooks' ticks video_id st).2 = download_metadata st.
Proof.
  revert st. induction ticks as [|d rest IH]; intros st; cbn [run_hooks].
  - now split.
  - apply bind_tables; [apply progress_hook_tables|]. intros _ st0. apply IH.
Qed.



(** *** [download_video], from its first line to its last *)

Lemma download_video_unbuilt url quality audio_only w st video_id e :
  get_video_id' url = Some video_id -> video_id <> "" ->
  ydl_opts_for quality audio_only = Raise e ->
  download_video' url quality audio_only w st
  = (Ret (None, Some e),
     match download_progress st !! video_id with
     | Some l =>
         with_heap (alter (set_error (Some e) ∘ set_status Error) l (heap st)) st
     | None => st
     end).
Proof.
  intros Hid Hne Hopts.
  unfold download_video. rewrite Hid, (truthy_Some _ Hne).
  cbn [negb default from_option id].
  unfold try_except. unfold bind at 1, of_outcome. rewrite Hopts.
  unfold bind at 1, get_state.
  destruct (download_progress st !! video_id) as [l|] eqn:Hl; [|reflexivity].
  unfold bind, assign_progress, ret. cbn. rewrite Hl. cbn. rewrite Hl.
  unfold with_heap. cbn. now rewrite alter_alter_eq.
Qed.

Lemma download_video_effect url quality audio_only w st video_id ydl_opts :
  get_video_id' url = Some video_id -> video_id <> "" ->
  ydl_opts_for quality audio_only = Ret ydl_opts ->
  let l := fresh (dom (heap st)) in
  let run := extract_info ydl_opts url in
  let o := (hooks_effect float_round (run_ticks run)).1 in
  let r := (hooks_effect float_round (run_ticks run)).2
             (initial_record (w_time_start w)) in
  exists res st',
    download_video' url quality audio_only w st = (Ret res, st')
    /\ download_progress st' = <[video_id := l]> (download_progress st)
    /\ (forall l', l' <> l -> heap st' !! l' = heap st !! l')
    /\ match o, run_result run with
       | Ret _, Ret info =>
           let found := locate_download (w_fs w)
                          (expected_filename_of info audio_only) video_id in
           if PyStr.truthy found then
             let name := OsPath.basename (default "" found) in
             res = (found, None)
             /\ heap st' !! l =
                  Some (set_end_time (Some (w_time_end w))
                          (set_status Completed
                             (set_filepath found (set_filename (Some name) r))))
             /\ download_metadata st' =
                  <[video_id := set_md_filename name
                                  (metadata_of url quality audio_only info w)]>
                    (download_metadata st)
           else
             res = (None, Some "Download completed but file not found")
             /\ heap st' !! l =
                  Some (set_error (Some "Download completed but file not found")
                          (set_status Error r))
             /\ download_metadata st' =
                  <[video_id := metadata_of url quality audio_only info w]>
                    (download_metadata st)
       | Raise e, _ | Ret _, Raise e =>
           res = (None, Some e)
           /\ heap st' !! l = Some (set_error (Some e) (set_status Error r))
           /\ download_metadata st' = download_metadata st
       end.
Proof.
  intros Hid Hne Hopts l run o r.
  unfold download_video. rewrite Hid, (truthy_Some _ Hne).
  cbn [negb default from_option id].
  unfold try_except, ydl_extract_info.
  unfold bind at 1, of_outcome. rewrite Hopts. fold run.
  unfold bind at 1, alloc. fold l.
  unfold bind at 1, get_state. unfold bind at 1, put_state.
  set (st0 := with_progress _ _).
  assert (Hl0 : download_progress st0 !! video_id = Some l)
    by (unfold st0; cbn; apply lookup_insert_eq).
  destruct (run_hooks_effect (run_ticks run) video_id l st0 Hl0)
    as (st1 & E1 & (Hp1 & Hh1 & Ho1)).
  pose proof (run_hooks_tables (run_ticks run) video_id st0) as [_ Hm1].
  rewrite E1 in Hm1. cbn [snd] in Hm1.
  assert (Hr : heap st1 !! l = Some r).
  { rewrite Hh1. unfold st0. cbn. now rewrite lookup_insert_eq. }
  assert (Hl1 : download_progress st1 !! video_id = Some l) by now rewrite Hp1.
  assert (Hother : forall l', l' <> l -> heap st1 !! l' = heap st !! l').
  { intros l' Hl'. rewrite Ho1 by exact Hl'. unfold st0. cbn.
    now rewrite lookup_insert_ne. }
  assert (Hfail : forall e,
    exists res st',
      (s <- get_state ;;
       match download_progress s !! video_id with
       | Some _ =>
           assign_progress video_id (set_status Error) ;;
           assign_progress video_id (set_error (Some e)) ;;
           ret ((None, Some e) : option string * option string)
       | None => ret (None, Some e)
       end)%py st1 = (Ret res, st')
      /\ download_progress st' = <[video_id := l]> (download_progress st)
      /\ (forall l', l' <> l -> heap st' !! l' = heap st !! l')
      /\ res = (None, Some e)
      /\ heap st' !! l = Some (set_error (Some e) (set_status Error r))
      /\ download_metadata st' = download_metadata st).
  { intros e. unfold bind at 1, get_state. rewrite Hl1.
    unfold bind, assign_progress, ret. cbn. rewrite Hl1. cbn. rewrite Hl1.
    do 2 eexists. split; [reflexivity|]. cbn. repeat split.
    - exact Hp1.
    - intros l' Hl'. rewrite !lookup_alter_ne by congruence. now apply Hother.
    - rewrite !lookup_alter_eq, Hr. reflexivity.
    - exact Hm1. }
  unfold bind at 1. unfold bind at 1. unfold bind at 1. rewrite E1.
  fold o. destruct o as [[]|e] eqn:Ho.
  2:{ destruct (Hfail e) as (res & st' & E & H). exists res, st'.
      split; [exact E|]. exact H. }
  unfold ret at 1.
  destruct (run_result run) as [info|e] eqn:Hres.
  2:{ unfold raise. destruct (Hfail e) as (res & st' & E & H). exists res, st'.
      split; [exact E|]. exact H. }
  unfold ret at 1. unfold bind at 1, get_state. unfold bind at 1, put_state.
  fold (metadata_of url quality audio_only info w).
  set (found := locate_download _ _ _).
  destruct (PyStr.truthy found) eqn:Hfound.
  - apply truthy_inv in Hfound as (pth & Hpth & _).
    unfold bind, assign_progress, assign_metadata, ret. cbn.
    rewrite Hl1. cbn. rewrite Hl1. cbn. rewrite Hl1. cbn. rewrite Hl1. cbn.
    rewrite lookup_insert_eq.
    do 2 eexists. split; [reflexivity|]. cbn. repeat split.
    + exact Hp1.
    + intros l' Hl'. rewrite !lookup_alter_ne by congruence. now apply Hother.
    + now rewrite Hpth.
    + rewrite !lookup_alter_eq, Hr, Hpth. reflexivity.
    + rewrite Hm1, Hpth. unfold st0. cbn. now rewrite insert_insert_eq.
  - unfold bind, assign_progress, ret. cbn.
    rewrite Hl1. cbn. rewrite Hl1. cbn.
    do 2 eexists. split; [reflexivity|]. cbn. repeat split.
    + exact Hp1.
    + intros l' Hl'. rewrite !lookup_alter_ne by congruence. now apply Hother.
    + rewrite !lookup_alter_eq, Hr. reflexivity.
    + rewrite Hm1. reflexivity.
Qed.

(** the options are built unless a list or an object is looked up *)
Lemma ydl_opts_for_cases (quality : JsonValue) (audio_only : bool) :
  if audio_only || scalar quality
  then exists ydl_opts, ydl_opts_for quality audio_only = Ret ydl_opts
  else exists e, ydl_opts_for quality audio_only = Raise e.
Proof.
  destruct audio_only; [now eexists|].
  destruct quality; now eexists.
Qed.

Lemma ydl_opts_for_built (quality : JsonValue) (audio_only : bool) :
  audio_only || scalar quality = true ->
  exists ydl_opts, ydl_opts_for quality audio_only = Ret ydl_opts.
Proof.
  intros Hb. pose proof (ydl_opts_for_cases quality audio_only) as H.
  now rewrite Hb in H.
Qed.

(** *** C10: ticks for an unknown identifier *)

(** C10. A tick for an identifier that has no entry in the progress
    table returns at once and leaves the whole state as it was; and
    whatever the tick and the identifier, the callback leaves both
    tables with the keys they had: it never creates a record.  A
    download started through [download_video] does create one, once
    its options are built (audio-only, or a quality that is neither a
    list nor an object). *)
Theorem progress_hook_unknown_id (d : Tick) (video_id : string) (st : state)
    (Habsent : download_progress st !! video_id = None) :
  progress_hook' d video_id st = (Ret tt, st)
  /\ (forall d' id' st',
        download_progress (progress_hook' d' id' st').2 = download_progress st'
        /\ download_metadata (progress_hook' d' id' st').2 = download_metadata st')
  /\ (forall url quality audio_only w,
        get_video_id' url = Some video_id -> video_id <> "" ->
        audio_only || scalar quality = true ->
        is_Some (download_progress
                   (download_video' url quality audio_only w st).2 !! video_id)).
Proof.
  split; [|split].
  - unfold progress_hook. run_py. now rewrite Habsent.
  - intros. apply progress_hook_tables.
  - intros url quality audio_only w Hid Hne Hbuilt.
    destruct (ydl_opts_for_built quality audio_only Hbuilt) as [ydl_opts Hopts].
    destruct (download_video_effect url quality audio_only w st video_id ydl_opts
                Hid Hne Hopts)
      as (res & st' & E & Hp & _).
    rewrite E. cbn [snd]. rewrite Hp, lookup_insert_eq. now eexists.
Qed.

(** *** C6: a URL without identifier *)

(** C6. When no identifier can be resolved from the submitted URL
    (the extractor returns [None] or the empty string), the download
    end point answers with an error body, starts no thread and leaves
    the state, hence both tables, as it was; so does [download_video]
    itself when it is called on such a URL. *)
Theorem download_unresolved (url : string)
    (Hnone : PyStr.truthy (get_video_id' url) = false) :
  forall quality audio_only st w,
    (exists msg,
       download' {| req_url := Some url; req_quality := quality;
                    req_audio_only := audio_only |} st
       = (Ret (Json 200 (BError msg), []), st))
    /\ download_video' url (default JNull quality) (default false audio_only) w st
       = (Ret (None, Some "Could not extract video ID from URL"), st).
Proof.
  intros quality audio_only st w. split.
  - unfold download. cbn [req_url req_quality req_audio_only].
    destruct (PyStr.truthy (Some url)) eqn:Hurl; cbn [negb].
    + cbn [default from_option id]. rewrite Hnone. cbn [negb].
      now eexists.
    + now eexists.
  - unfold download_video. now rewrite Hnone.
Qed.

(** *** C4: traversal patterns in the recorded filename *)

(** C4. When the filename recorded for an identifier contains the
    parent-directory marker or begins with a slash, the file-serving
    end point answers 400 with the error body, sends no file, starts
    no thread and leaves the state as it was, whatever the files on
    disk are. *)
Theorem download_file_rejects_traversal
    (video_id filename : string) (md : MetadataRecord) (w : World) (st : state)
    (Hmd : download_metadata st !! video_id = Some md)
    (Hname : md_filename md = Some filename)
    (Hbad : occurs_in "../" filename \/ PyStr.startswith "/" filename = true) :
  download_file' video_id w st
  = (Ret (Json 400 (BError "Invalid filename"), []), st).
Proof.
  assert (Hcheck : PyStr.contains ".." filename || PyStr.startswith "/" filename = true).
  { apply orb_true_iff. destruct Hbad as [Hocc|Hroot]; [left|now right].
    apply contains_occurs. eapply occurs_in_trans; [|exact Hocc].
    now exists "", "/". }
  unfold download_file. unfold bind at 1, get_state. rewrite Hmd.
  unfold bind at 1, ret. unfold bind at 1, get_state. rewrite Hmd.
  unfold bind, dict_item, ret. rewrite Hname, Hcheck. reflexivity.
Qed.

(** *** C5: polling after the file has vanished *)

(** C5. When the record stored for an identifier is completed with a
    resolved filename and no file of that name is in the download
    folder, the progress end point answers with a copy of the record
    whose status is error (with the message), all other fields, in
    particular progress and downloaded bytes, being those stored; and
    the poll changes neither table nor any stored record. *)
Theorem progress_vanished_file
    (video_id filename : string) (r : ProgressRecord) (w : World) (st : state)
    (Hrec : progress_of st video_id = Some r)
    (Hdone : pr_status r = Completed)
    (Hname : pr_filename r = Some filename)
    (Hnonempty : filename <> "")
    (Hgone : os_path_exists (w_fs w) (OsPath.join DOWNLOAD_FOLDER filename) = false) :
  exists snapshot st',
    progress video_id w st = (Ret (Json 200 (BProgress snapshot)), st')
    /\ snapshot = set_error (Some "Downloaded file not found") (set_status Error r)
    /\ pr_status snapshot = Error
    /\ pr_progress snapshot = pr_progress r
    /\ pr_downloaded_bytes snapshot = pr_downloaded_bytes r
    /\ download_progress st' = download_progress st
    /\ download_metadata st' = download_metadata st
    /\ (forall id r0, progress_of st id = Some r0 -> progress_of st' id = Some r0).
Proof.
  unfold progress_of in Hrec.
  destruct (download_progress st !! video_id) as [l|] eqn:Hl; [|discriminate].
  set (l' := fresh (dom (heap st))).
  assert (Hfresh : heap st !! l' = None)
    by (apply not_elem_of_dom; apply is_fresh).
  unfold progress. unfold bind at 1, get_state. rewrite Hl.
  unfold bind at 1, deref. rewrite Hrec.
  unfold bind at 1, alloc. fold l'. cbn [heap with_heap].
  unfold bind at 1. cbn [heap with_heap]. rewrite lookup_insert_eq.
  rewrite Hdone. cbn [Status_eqb]. rewrite Hname, (truthy_Some _ Hnonempty).
  cbn [default from_option id]. rewrite Hgone. cbn [negb].
  unfold bind, assign_at, ret. cbn [heap with_heap].
  rewrite !lookup_alter_eq, lookup_insert_eq. cbn [fmap option_fmap option_map].
  do 2 eexists. split; [reflexivity|].
  repeat split.
  intros id r0. unfold progress_of. cbn [download_progress heap with_heap].
  destruct (download_progress st !! id) as [l0|]; [|discriminate].
  intros Hl0.
  assert (l0 <> l') by (intros ->; congruence).
  now rewrite !lookup_alter_ne, lookup_insert_ne by congruence.
Qed.

(** *** C1: file discovery after the download *)

Lemma hook_effect_outcome d :
  (hook_effect float_round d).1 = (hook_effect id d).1.
Proof.
  unfold hook_effect. destruct (d_status d) as [status|]; [|reflexivity].
  destruct (String.eqb status "downloading").
  { now destruct (d_downloaded_bytes d) as [[q|]|]. }
  destruct (String.eqb status "finished"); [|reflexivity].
  now destruct (d_filename d).
Qed.

Lemma hooks_effect_returns ticks :
  Forall (fun d => hook_raises d = false) ticks ->
  (hooks_effect float_round ticks).1 = Ret tt.
Proof.
  induction 1 as [|d rest Hd _ IH]; [reflexivity|].
  cbn [hooks_effect]. unfold hook_raises in Hd.
  rewrite <- hook_effect_outcome in Hd.
  destruct (hook_effect float_round d) as [[[]|e] f]; [|discriminate].
  now destruct (hooks_effect float_round rest).
Qed.

(** C1. When the collaborator's download call returns (it is called
    on the options built, its result is a value and no tick makes the
    callback raise), the file is looked
    for in three steps, the first that applies winning: the predicted
    name, with its extension replaced by .mp3 when audio-only was
    requested, if it exists and is not empty; else the first listed
    non-empty file of the download directory whose name holds the
    identifier; else a non-empty file of the directory modified no
    earlier than any other.  If a file is found, the record of the
    identifier ends completed with the file's base name, its path and
    the end time, and the name is added to the metadata; otherwise
    the record ends in error with the message. *)
Theorem download_video_discovery
    (url : string) (quality : JsonValue) (audio_only : bool)
    (w : World) (st : state) (video_id : string) (ydl_opts : YdlOpts) (info : Info)
    (Hid : get_video_id' url = Some video_id)
    (Hne : video_id <> "")
    (Hopts : ydl_opts_for quality audio_only = Ret ydl_opts)
    (Hret : run_result (extract_info ydl_opts url) = Ret info)
    (Hticks : Forall (fun d => hook_raises d = false)
                (run_ticks (extract_info ydl_opts url))) :
  let expected_filename :=
    if audio_only
    then (OsPath.splitext (prepared_filename info)).1 +:+ ".mp3"
    else prepared_filename info in
  let found := locate_download (w_fs w) expected_filename video_id in
  located (w_fs w) expected_filename video_id found
  /\ exists res st' r md,
       download_video' url quality audio_only w st = (Ret res, st')
       /\ progress_of st' video_id = Some r
       /\ download_metadata st' !! video_id = Some md
       /\ if PyStr.truthy found then
            res = (found, None)
            /\ pr_status r = Completed
            /\ pr_filepath r = found
            /\ pr_filename r = Some (OsPath.basename (default "" found))
            /\ pr_end_time r = Some (w_time_end w)
            /\ md_filename md = Some (OsPath.basename (default "" found))
          else
            res = (None, Some "Download completed but file not found")
            /\ pr_status r = Error
            /\ pr_error r = Some "Download completed but file not found".
Proof.
  intros expected_filename found.
  split; [apply locate_download_located|].
  destruct (download_video_effect url quality audio_only w st video_id ydl_opts
              Hid Hne Hopts)
    as (res & st' & E & Hp & _ & Hcase).
  rewrite (hooks_effect_returns _ Hticks), Hret in Hcase.
  cbv zeta in Hcase. unfold expected_filename_of in Hcase.
  fold expected_filename in Hcase. fold found in Hcase.
  destruct (PyStr.truthy found) eqn:Hfound.
  - destruct Hcase as (-> & Hh & Hm).
    do 4 eexists. split; [exact E|]. split; [|split].
    + unfold progress_of. rewrite Hp, lookup_insert_eq. exact Hh.
    + rewrite Hm. apply lookup_insert_eq.
    + now repeat split.
  - destruct Hcase as (-> & Hh & Hm).
    do 4 eexists. split; [exact E|]. split; [|split].
    + unfold progress_of. rewrite Hp, lookup_insert_eq. exact Hh.
    + rewrite Hm. apply lookup_insert_eq.
    + now repeat split.
Qed.

(** *** C2: the progress field as a percentage *)

Lemma effective_total_nonzero d : ~ (effective_total d == 0)%Q.
Proof.
  unfold effective_total, num_truthy.
  destruct (d_total_bytes d) as [t|].
  - destruct (Qeq_bool t 0) eqn:Ht; cbn [negb default from_option id].
    + destruct (d_total_bytes_estimate d) as [e|]; [|discriminate].
      destruct (Qeq_bool e 0) eqn:He; cbn [negb default from_option id];
        [discriminate | now apply Qeq_bool_neq].
    + now apply Qeq_bool_neq.
  - destruct (d_total_bytes_estimate d) as [e|]; [|discriminate].
    destruct (Qeq_bool e 0) eqn:He; cbn [negb default from_option id];
      [discriminate | now apply Qeq_bool_neq].
Qed.

Lemma ratio_percentage (q t : Q) :
  faithful_rounding float_round ->
  (0 <= q)%Q -> (q <= t)%Q -> ~ (t == 0)%Q ->
  percentage (float_round (float_round (q / t) * 100)%Q).
Proof.
  intros (Hmono & H0 & H1 & H100) Hq Hqt Ht.
  assert (Htpos : (0 < t)%Q).
  { assert (H : (0 <= t)%Q) by (eapply Qle_trans; eauto).
    apply Qle_lt_or_eq in H as [H|H]; [exact H|].
    exfalso. apply Ht. now symmetry. }
  assert (Hlo : (0 <= q / t)%Q).
  { apply Qle_shift_div_l; [exact Htpos|]. now rewrite Qmult_0_l. }
  assert (Hhi : (q / t <= 1)%Q).
  { apply Qle_shift_div_r; [exact Htpos|]. now rewrite Qmult_1_l. }
  assert (Hlo' : (0 <= float_round (q / t))%Q).
  { apply Qle_trans with (float_round 0); [|now apply Hmono].
    rewrite H0. apply Qle_refl. }
  assert (Hhi' : (float_round (q / t) <= 1)%Q).
  { apply Qle_trans with (float_round 1); [now apply Hmono|].
    rewrite H1. apply Qle_refl. }
  split.
  - apply Qle_trans with (float_round 0).
    + rewrite H0. apply Qle_refl.
    + apply Hmono. apply Qmult_le_0_compat; [exact Hlo'|discriminate].
  - apply Qle_trans with (float_round 100).
    + apply Hmono. apply Qle_trans with (1 * 100)%Q; [|apply Qle_refl].
      apply Qmult_le_compat_r; [exact Hhi'|discriminate].
    + rewrite H100. apply Qle_refl.
Qed.

Lemma hook_effect_percentage d r :
  faithful_rounding float_round -> tick_within_total d ->
  percentage (pr_progress r) ->
  percentage (pr_progress ((hook_effect float_round d).2 r)).
Proof.
  intros Hfr Htick Hr. unfold hook_effect, tick_within_total in *.
  destruct (d_status d) as [status|]; [|exact Hr].
  destruct (String.eqb_spec status "downloading") as [->|_].
  { specialize (Htick eq_refl).
    destruct (d_downloaded_bytes d) as [[q|]|]; cbn [snd]; [|exact Hr|];
      cbn [compose set_total_bytes set_downloaded_bytes set_status set_progress
           pr_progress];
      destruct Htick as [Hq Hqt];
      apply ratio_percentage; auto using effective_total_nonzero. }
  destruct (String.eqb status "finished"); [|exact Hr].
  destruct (d_filename d); cbn; split; discriminate.
Qed.

Lemma hooks_effect_percentage ticks r :
  faithful_rounding float_round -> Forall tick_within_total ticks ->
  percentage (pr_progress r) ->
  percentage (pr_progress ((hooks_effect float_round ticks).2 r)).
Proof.
  intros Hfr Hticks. revert r.
  induction Hticks as [|d rest Hd _ IH]; intros r Hr; [exact Hr|].
  cbn [hooks_effect].
  pose proof (hook_effect_percentage d r Hfr Hd Hr) as Hstep.
  destruct (hook_effect float_round d) as [[[]|e] f]; cbn [snd] in *.
  - specialize (IH (f r) Hstep).
    now destruct (hooks_effect float_round rest).
  - exact Hstep.
Qed.

Lemma progress_hook_absent d video_id st :
  download_progress st !! video_id = None ->
  progress_hook' d video_id st = (Ret tt, st).
Proof. intros Habsent. unfold progress_hook. run_py. now rewrite Habsent. Qed.

(** C2 (as amended). With a rounding to floats that is monotone and
    exact on 0, 1 and 100: a tick of the callback whose downloaded
    byte count lies between 0 and the total the callback divides by
    (the reported total, else the estimate, else 1), and a whole run
    of [download_video] whose ticks (those of the collaborator on the
    options built, if they are built) are all such, leave every record
    of the job table with a progress between 0 and 100 when it was so
    before. *)
Theorem progress_stays_percentage (Hfr : faithful_rounding float_round) :
  (forall d video_id st,
     tick_within_total d -> progress_in_range st ->
     progress_in_range (progress_hook' d video_id st).2)
  /\ (forall url quality audio_only w st,
        (forall ydl_opts, ydl_opts_for quality audio_only = Ret ydl_opts ->
           Forall tick_within_total (run_ticks (extract_info ydl_opts url))) ->
        progress_in_range st ->
        progress_in_range (download_video' url quality audio_only w st).2).
Proof.
  split.
  - intros d video_id st Htick Hst.
    destruct (download_progress st !! video_id) as [l|] eqn:Hl.
    2:{ now rewrite progress_hook_absent. }
    destruct (progress_hook_effect d video_id l st Hl) as (st' & E & Hp & Hh & Ho).
    rewrite E. cbn [snd]. intros id r. unfold progress_of. rewrite Hp.
    destruct (download_progress st !! id) as [l0|] eqn:Hl0; [|discriminate].
    destruct (decide (l0 = l)) as [->|Hne].
    + rewrite Hh. destruct (heap st !! l) as [r0|] eqn:Hr0; [|discriminate].
      intros [= <-]. apply hook_effect_percentage; auto.
      apply (Hst id). unfold progress_of. now rewrite Hl0.
    + rewrite Ho by exact Hne. intros Hr. apply (Hst id).
      unfold progress_of. now rewrite Hl0.
  - intros url quality audio_only w st Hticks Hst.
    destruct (PyStr.truthy (get_video_id' url)) eqn:Hid.
    2:{ unfold download_video. now rewrite Hid. }
    apply truthy_inv in Hid as (video_id & Hid & Hne).
    destruct (ydl_opts_for quality audio_only) as [ydl_opts|e0] eqn:Hopts.
    2:{ rewrite (download_video_unbuilt url quality audio_only w st video_id e0
                   Hid Hne Hopts). cbn [snd].
        destruct (download_progress st !! video_id) as [l|]; [|exact Hst].
        intros id r. unfold progress_of. cbn [download_progress heap with_heap].
        destruct (download_progress st !! id) as [l0|] eqn:Hl0; [|discriminate].
        destruct (decide (l0 = l)) as [->|Hlne].
        - rewrite lookup_alter_eq.
          destruct (heap st !! l) as [r0|] eqn:Hr0; [|discriminate].
          intros [= <-]. cbn. apply (Hst id). unfold progress_of.
          now rewrite Hl0.
        - rewrite lookup_alter_ne by congruence. intros Hr. apply (Hst id).
          unfold progress_of. now rewrite Hl0. }
    specialize (Hticks ydl_opts eq_refl).
    destruct (download_video_effect url quality audio_only w st video_id ydl_opts
                Hid Hne Hopts)
      as (res & st' & E & Hp & Ho & Hcase).
    rewrite E. cbn [snd].
    set (l := fresh (dom (heap st))) in *.
    assert (Hnew : exists r, heap st' !! l = Some r /\ percentage (pr_progress r)).
    { pose proof (hooks_effect_percentage
                    (run_ticks (extract_info ydl_opts url))
                    (initial_record (w_time_start w)) Hfr Hticks) as Hr.
      assert (H0 : percentage (pr_progress (initial_record (w_time_start w))))
        by (split; discriminate).
      specialize (Hr H0).
      destruct (hooks_effect float_round _).1 as [[]|e];
        [destruct (run_result _) as [info|e];
           [cbv zeta in Hcase; destruct (PyStr.truthy _)|]|];
        destruct Hcase as (_ & Hh & _); eexists; (split; [exact Hh|exact Hr]). }
    destruct Hnew as (rl & Hrl & Hperc).
    intros id r. unfold progress_of. rewrite Hp.
    destruct (decide (id = video_id)) as [->|Hidne].
    + rewrite lookup_insert_eq, Hrl. now intros [= <-].
    + rewrite lookup_insert_ne by congruence.
      destruct (download_progress st !! id) as [l0|] eqn:Hl0; [|discriminate].
      destruct (decide (l0 = l)) as [->|Hlne].
      * rewrite Hrl. now intros [= <-].
      * rewrite Ho by exact Hlne. intros Hr. apply (Hst id).
        unfold progress_of. now rewrite Hl0.
Qed.

(** *** C3: the identifier extractor *)

Lemma no_domain_occurs (domain : string) :
  (forall d, In d youtube_domains -> ~ occurs_in d domain) ->
  existsb (fun youtube_domain => PyStr.contains youtube_domain domain)
          youtube_domains = false.
Proof.
  intros Hno. destruct (existsb _ _) eqn:Hex; [|reflexivity].
  apply existsb_exists in Hex as (d & Hd & Hc).
  apply contains_occurs in Hc. now destruct (Hno d Hd).
Qed.

(** C3 (as amended). [get_video_id] returns [None] when the lowercased
    network location of the URL contains none of the four known
    hostnames; when it is the short-link hostname, the whole path
    without its first character ([None] for an empty path), which is
    the first path segment when the path has a single one; when it is
    one of the other known hostnames, the first value of the query
    parameter v, [None] when the parameter is absent; and [None]
    whenever parsing raises: no exception leaves the function.
    Nothing is stated of a network location that is no known hostname
    but contains one. *)
Theorem get_video_id_cases (url : string) :
  match urlparse url with
  | Raise _ => get_video_id' url = None
  | Ret p =>
      let domain := PyStr.lower (netloc p) in
      ((forall d, In d youtube_domains -> ~ occurs_in d domain) ->
         get_video_id' url = None)
      /\ (domain = "youtu.be" ->
            get_video_id' url
            = (if String.eqb (path p) "" then None else Some (PyStr.drop 1 (path p)))
            /\ forall seg, path p = "/" +:+ seg -> ~ occurs_in "/" seg ->
                 get_video_id' url = Some seg
                 /\ first_path_segment (path p) = seg)
      /\ (In domain ["youtube.com"; "www.youtube.com"; "m.youtube.com"] ->
            get_video_id' url
            = match parse_qs (query p) with
              | Ret query_params => query_params !! "v" ≫= head
              | Raise _ => None
              end)
  end.
Proof.
  unfold get_video_id.
  destruct (urlparse url) as [p|e]; [|reflexivity].
  cbv zeta. split; [|split].
  - intros Hno. now rewrite no_domain_occurs.
  - intros Hshort.
    assert (Hknown : existsb (fun youtube_domain =>
                                PyStr.contains youtube_domain (PyStr.lower (netloc p)))
                             youtube_domains = true
                     /\ PyStr.contains "youtu.be" (PyStr.lower (netloc p)) = true)
      by (rewrite Hshort; split; reflexivity).
    destruct Hknown as [-> ->]. split.
    + now destruct (path p).
    + intros seg Hpath Hseg. rewrite Hpath.
      change ("/" +:+ seg) with (String "/" seg). cbn [PyStr.drop].
      split; [reflexivity|].
      unfold first_path_segment. cbn [PyStr.drop].
      now rewrite span_until_absent.
  - intros Hin.
    assert (Hknown : existsb (fun youtube_domain =>
                                PyStr.contains youtube_domain (PyStr.lower (netloc p)))
                             youtube_domains = true
                     /\ PyStr.contains "youtu.be" (PyStr.lower (netloc p)) = false).
    { cbn [In] in Hin. destruct Hin as [<-|[<-|[<-|[]]]]; split; reflexivity. }
    destruct Hknown as [-> ->].
    destruct (parse_qs (query p)) as [query_params|e]; [|reflexivity].
    now destruct (query_params !! "v") as [[|v vs]|].
Qed.

End Handlers.

(** ** The program on concrete inputs *)

Example get_video_id_watch :
  get_video_id Urllib.urlparse Urllib.parse_qs
    "https://www.youtube.com/watch?t=1&v=dQw4w9WgXcQ" = Some "dQw4w9WgXcQ".
Proof. vm_compute. reflexivity. Qed.

Example get_video_id_short :
  get_video_id Urllib.urlparse Urllib.parse_qs "https://youtu.be/dQw4w9WgXcQ"
  = Some "dQw4w9WgXcQ".
Proof. vm_compute. reflexivity. Qed.

Example get_video_id_bare_short :
  get_video_id Urllib.urlparse Urllib.parse_qs "https://youtu.be/" = Some "".
Proof. vm_compute. reflexivity. Qed.

Example get_video_id_malformed :
  get_video_id Urllib.urlparse Urllib.parse_qs "http://[youtube.com/watch?v=abc" = None.
Proof. vm_compute. reflexivity. Qed.

Example round_third : PyFloat.round (1 # 3) = (6004799503160661 # 18014398509481984)%Q.
Proof. vm_compute. reflexivity. Qed.

(** The host test is a substring test: a host that merely contains a
    known hostname is taken for one, against the comments of the
    function. *)
Example get_video_id_host_substring :
  get_video_id Urllib.urlparse Urllib.parse_qs "https://notyoutube.com/watch?v=abc"
  = Some "abc"
  /\ ~ unknown_host_gives_none Urllib.urlparse Urllib.parse_qs.
Proof.
  split; [vm_compute; reflexivity|]. intros H.
  specialize (H "https://notyoutube.com/watch?v=abc" _ eq_refl).
  assert (Hnot : PyStr.lower "notyoutube.com" ∉ youtube_domains).
  { intros Hin. vm_compute in Hin.
    repeat (apply elem_of_cons in Hin as [Hin|Hin]; [discriminate Hin|]).
    now apply elem_of_nil in Hin. }
  specialize (H Hnot). vm_compute in H. discriminate H.
Qed.

(** C3, counterexample.  On a short link with two path segments the
    extractor returns both, not the first. *)
Lemma get_video_id_not_as_worded :
  ~ short_link_gives_first_segment Urllib.urlparse Urllib.parse_qs.
Proof.
  intros H.
  specialize (H "https://youtu.be/abc/def" _ eq_refl eq_refl).
  vm_compute in H. discriminate H.
Qed.

Lemma get_video_id_cases_witness :
  get_video_id Urllib.urlparse Urllib.parse_qs
    "https://www.youtube.com/watch?v=dQw4w9WgXcQ" = Some "dQw4w9WgXcQ"
  /\ get_video_id Urllib.urlparse Urllib.parse_qs "https://youtu.be/dQw4w9WgXcQ"
     = Some "dQw4w9WgXcQ"
  /\ get_video_id Urllib.urlparse Urllib.parse_qs "https://vimeo.com/watch?v=abc"
     = None.
Proof.
  split; [|split].
  - pose proof (get_video_id_cases Urllib.urlparse Urllib.parse_qs
                  "https://www.youtube.com/watch?v=dQw4w9WgXcQ") as H.
    assert (Hknown : In "www.youtube.com"
                       ["youtube.com"; "www.youtube.com"; "m.youtube.com"])
      by (simpl; tauto).
    exact (proj2 (proj2 H) Hknown).
  - pose proof (get_video_id_cases Urllib.urlparse Urllib.parse_qs
                  "https://youtu.be/dQw4w9WgXcQ") as H.
    assert (Hseg : ~ occurs_in "/" "dQw4w9WgXcQ").
    { intros Ho. apply contains_occurs in Ho. vm_compute in Ho. discriminate Ho. }
    exact (proj1 (proj2 (proj1 (proj2 H) eq_refl) "dQw4w9WgXcQ" eq_refl Hseg)).
  - pose proof (get_video_id_cases Urllib.urlparse Urllib.parse_qs
                  "https://vimeo.com/watch?v=abc") as H.
    apply (proj1 H). intros d Hd Ho. apply contains_occurs in Ho.
    simpl in Hd. destruct Hd as [<-|[<-|[<-|[<-|[]]]]]; vm_compute in Ho; discriminate Ho.
Defined.

(** C2, counterexample.  With the rounding of doubles, one tick of a
    download whose total size is unknown and that has fetched 5000
    bytes takes the record of a job that has just started from 0 to
    500000 percent. *)
Lemma progress_exceeds_percentage :
  progress_in_range st_one_job
  /\ progress_of (progress_hook PyFloat.round tick_unknown_total "abc" st_one_job).2 "abc"
     = Some (set_total_bytes (Some 1%Q)
               (set_downloaded_bytes (Some 5000%Q)
                  (set_status Downloading
                     (set_progress (inject_Z 500000) record_at_start))))
  /\ ~ progress_in_range
        (progress_hook PyFloat.round tick_unknown_total "abc" st_one_job).2.
Proof.
  split; [|split].
  - intros id r. unfold progress_of, st_one_job. cbn [download_progress heap].
    destruct (decide (id = "abc")) as [->|Hne].
    + rewrite lookup_singleton_eq, lookup_singleton_eq. intros [= <-].
      split; discriminate.
    + rewrite lookup_singleton_ne by congruence. discriminate.
  - vm_compute. reflexivity.
  - intros H.
    assert (Hrec : exists r,
              progress_of (progress_hook PyFloat.round tick_unknown_total "abc"
                             st_one_job).2 "abc" = Some r
              /\ pr_progress r = inject_Z 500000).
    { eexists. split; [vm_compute; reflexivity|reflexivity]. }
    destruct Hrec as (r & Hr & Hp).
    destruct (H "abc" r Hr) as [_ Hle]. rewrite Hp in Hle.
    vm_compute in Hle. now apply Hle.
Qed.

Lemma tick_half_within_total : tick_within_total tick_half.
Proof.
  intros _. cbn. split; discriminate.
Defined.

Lemma st_one_job_in_range : progress_in_range st_one_job.
Proof.
  intros id r. unfold progress_of, st_one_job. cbn [download_progress heap].
  destruct (decide (id = "abc")) as [->|Hne].
  - rewrite lookup_singleton_eq, lookup_singleton_eq. intros [= <-].
    split; discriminate.
  - rewrite lookup_singleton_ne by congruence. discriminate.
Defined.

Lemma progress_stays_percentage_witness :
  progress_in_range (progress_hook PyFloat.round tick_half "abc" st_one_job).2
  /\ progress_in_range
       (download_video Urllib.urlparse Urllib.parse_qs PyFloat.round collaborator_clip
          "https://youtu.be/abc" JNull true (world_of fs_clip) st_one_job).2.
Proof.
  pose proof (progress_stays_percentage Urllib.urlparse Urllib.parse_qs
                PyFloat.round collaborator_clip PyFloatFacts.round_faithful)
    as [Hhook Hrun].
  split.
  - apply Hhook; [exact tick_half_within_total | exact st_one_job_in_range].
  - apply Hrun; [|exact st_one_job_in_range].
    intros ydl_opts _.
    constructor; [exact tick_half_within_total|].
    constructor; [|constructor].
    intros H. discriminate H.
Defined.

Lemma download_video_discovery_witness :
  exists res st' r,
    download_video Urllib.urlparse Urllib.parse_qs PyFloat.round collaborator_clip
      "https://youtu.be/abc" JNull true (world_of fs_clip) st_one_job = (Ret res, st')
    /\ res = (Some "downloads/Clip_abc.mp3", None)
    /\ progress_of st' "abc" = Some r
    /\ pr_status r = Completed
    /\ pr_filename r = Some "Clip_abc.mp3".
Proof.
  assert (Hid : get_video_id Urllib.urlparse Urllib.parse_qs "https://youtu.be/abc"
                = Some "abc") by (vm_compute; reflexivity).
  assert (Hne : "abc" <> "") by discriminate.
  destruct (ydl_opts_for_built JNull true eq_refl) as [ydl_opts Hopts].
  assert (Hret : run_result (collaborator_clip ydl_opts "https://youtu.be/abc")
                 = Ret info_clip)
    by reflexivity.
  assert (Hticks : Forall (fun d => hook_raises d = false)
                     (run_ticks (collaborator_clip ydl_opts "https://youtu.be/abc")))
    by (repeat constructor).
  destruct (download_video_discovery Urllib.urlparse Urllib.parse_qs PyFloat.round
              collaborator_clip "https://youtu.be/abc" JNull true (world_of fs_clip)
              st_one_job "abc" ydl_opts info_clip Hid Hne Hopts Hret Hticks)
    as (_ & res & st' & r & md & E & Hr & _ & Hcase).
  exists res, st', r.
  change (PyStr.truthy _) with true in Hcase.
  destruct Hcase as (Hres & Hstatus & _ & Hname & _).
  repeat split; assumption.
Defined.

Lemma format_directive_witness :
  download_video Urllib.urlparse Urllib.parse_qs PyFloat.round collaborator_clip
    "https://youtu.be/abc" (JString "720p") false (world_of fs_clip) st_one_job
  = download_video Urllib.urlparse Urllib.parse_qs PyFloat.round collaborator_no_audio
      "https://youtu.be/abc" (JString "720p") false (world_of fs_clip) st_one_job.
Proof.
  destruct (format_directive (JString "720p") false)
    as (opts & Hopts & _ & _ & Hrun).
  apply Hrun. injection Hopts as <-. reflexivity.
Defined.

Lemma progress_hook_unknown_id_witness :
  download_progress st_one_job !! "zzz" = None
  /\ progress_hook PyFloat.round tick_half "zzz" st_one_job = (Ret tt, st_one_job).
Proof.
  assert (Habsent : download_progress st_one_job !! "zzz" = None)
    by (vm_compute; reflexivity).
  split; [exact Habsent|].
  exact (proj1 (progress_hook_unknown_id Urllib.urlparse Urllib.parse_qs
                  PyFloat.round collaborator_clip tick_half "zzz" st_one_job Habsent)).
Defined.

Lemma download_unresolved_witness :
  exists msg,
    download Urllib.urlparse Urllib.parse_qs
      {| req_url := Some "https://vimeo.com/watch?v=abc";
         req_quality := Some (JString "720p");
         req_audio_only := None |} st_one_job
    = (Ret (Json 200 (BError msg), []), st_one_job).
Proof.
  assert (Hnone : PyStr.truthy (get_video_id Urllib.urlparse Urllib.parse_qs
                                  "https://vimeo.com/watch?v=abc") = false)
    by (vm_compute; reflexivity).
  exact (proj1 (download_unresolved Urllib.urlparse Urllib.parse_qs PyFloat.round
                  collaborator_clip "https://vimeo.com/watch?v=abc" Hnone
                  (Some (JString "720p")) None st_one_job (world_of fs_empty))).
Defined.

Lemma download_file_rejects_traversal_witness :
  os_path_exists fs_secret (OsPath.join DOWNLOAD_FOLDER "../secret.txt") = true
  /\ download_file PyFloat.round "abc" (world_of fs_secret) st_traversal
     = (Ret (Json 400 (BError "Invalid filename"), []), st_traversal).
Proof.
  split; [vm_compute; reflexivity|].
  apply (download_file_rejects_traversal PyFloat.round "abc" "../secret.txt"
           metadata_traversal).
  - vm_compute. reflexivity.
  - reflexivity.
  - left. now exists "", "secret.txt".
Defined.

Lemma progress_vanished_file_witness :
  exists snapshot st',
    progress "abc" (world_of fs_empty) st_completed
    = (Ret (Json 200 (BProgress snapshot)), st')
    /\ pr_status snapshot = Error
    /\ pr_progress snapshot = 100%Q
    /\ progress_of st' "abc" = Some record_completed.
Proof.
  assert (Hrec : progress_of st_completed "abc" = Some record_completed)
    by (vm_compute; reflexivity).
  assert (Hne : "Clip_abc.mp3" <> "") by discriminate.
  assert (Hgone : os_path_exists (w_fs (world_of fs_empty))
                    (OsPath.join DOWNLOAD_FOLDER "Clip_abc.mp3") = false)
    by (vm_compute; reflexivity).
  destruct (progress_vanished_file "abc" "Clip_abc.mp3" record_completed
              (world_of fs_empty) st_completed Hrec eq_refl eq_refl Hne Hgone)
    as (snapshot & st' & E & -> & Hs & Hp & _ & _ & _ & Hkeep).
  eexists. exists st'. split; [exact E|].
  split; [exact Hs|]. split; [exact Hp|]. now apply Hkeep.
Defined.

(** * Further properties of the handlers *)

Section Orchestration.

Context (urlparse : string -> outcome ParseResult)
        (parse_qs : string -> outcome (gmap string (list string)))
        (float_round : Q -> Q)
        (extract_info : YdlOpts -> string -> DownloadRun).

Local Abbreviation get_video_id' := (get_video_id urlparse parse_qs).
Local Abbreviation progress_hook' := (progress_hook float_round).
Local Abbreviation download_video' :=
  (download_video urlparse parse_qs float_round extract_info).
Local Abbreviation download' := (download urlparse parse_qs).
Local Abbreviation download_file' := (download_file float_round).

(** ** [download_video] as a whole *)

(** the record [download_video] leaves is that of the steps applied to
    a new record: what stood in the table before plays no part *)
Lemma download_video_record url quality audio_only w st video_id ydl_opts :
  get_video_id' url = Some video_id -> video_id <> "" ->
  ydl_opts_for quality audio_only = Ret ydl_opts ->
  let run := extract_info ydl_opts url in
  let r0 := (hooks_effect float_round (run_ticks run)).2
              (initial_record (w_time_start w)) in
  exists st',
    download_progress st' = <[video_id := fresh (dom (heap st))]> (download_progress st)
    /\ (forall l', l' <> fresh (dom (heap st)) -> heap st' !! l' = heap st !! l')
    /\ match (hooks_effect float_round (run_ticks run)).1, run_result run with
       | Ret _, Ret info =>
           let found := locate_download (w_fs w)
                          (expected_filename_of info audio_only) video_id in
           if PyStr.truthy found then
             download_video' url quality audio_only w st = (Ret (found, None), st')
             /\ progress_of st' video_id =
                  Some (set_end_time (Some (w_time_end w))
                          (set_status Completed
                             (set_filepath found
                                (set_filename
                                   (Some (OsPath.basename (default "" found))) r0))))
             /\ download_metadata st' =
                  <[video_id := set_md_filename (OsPath.basename (default "" found))
                                  (metadata_of url quality audio_only info w)]>
                    (download_metadata st)
           else
             download_video' url quality audio_only w st
             = (Ret (None, Some "Download completed but file not found"), st')
             /\ progress_of st' video_id =
                  Some (set_error (Some "Download completed but file not found")
                          (set_status Error r0))
             /\ download_metadata st' =
                  <[video_id := metadata_of url quality audio_only info w]>
                    (download_metadata st)
       | Raise e, _ | Ret _, Raise e =>
           download_video' url quality audio_only w st = (Ret (None, Some e), st')
           /\ progress_of st' video_id = Some (set_error (Some e) (set_status Error r0))
           /\ download_metadata st' = download_metadata st
       end.
Proof.
  intros Hid Hne Hopts run r0.
  destruct (download_video_effect urlparse parse_qs float_round extract_info
              url quality audio_only w st video_id ydl_opts Hid Hne Hopts)
    as (res & st' & E & Hp & Ho & Hcase).
  fold run in Hcase. fold r0 in Hcase.
  exists st'. split; [exact Hp|]. split; [exact Ho|].
  assert (Hl : download_progress st' !! video_id = Some (fresh (dom (heap st))))
    by (rewrite Hp; apply lookup_insert_eq).
  unfold progress_of. rewrite Hl.
  destruct (hooks_effect float_round (run_ticks run)).1 as [[]|e].
  - destruct (run_result run) as [info|e].
    + cbv zeta in *. destruct (PyStr.truthy _).
      * destruct Hcase as (-> & Hh & Hm). now rewrite E.
      * destruct Hcase as (-> & Hh & Hm). now rewrite E.
    + destruct Hcase as (-> & Hh & Hm). now rewrite E.
  - destruct Hcase as (-> & Hh & Hm). now rewrite E.
Qed.

Lemma hook_keeps_refl r : hook_keeps r r.
Proof. repeat split; auto. Qed.

Lemma hook_keeps_trans r1 r2 r3 :
  hook_keeps r1 r2 -> hook_keeps r2 r3 -> hook_keeps r1 r3.
Proof.
  intros (F1 & S1 & E1 & R1 & T1) (F2 & S2 & E2 & R2 & T2).
  repeat split; try congruence.
  destruct T2 as [T2|[T2|T2]]; [rewrite T2; exact T1|auto..].
Qed.

Lemma hook_effect_keeps d r : hook_keeps r ((hook_effect float_round d).2 r).
Proof.
  unfold hook_effect. destruct (d_status d) as [status|]; [|apply hook_keeps_refl].
  destruct (String.eqb status "downloading").
  { destruct (d_downloaded_bytes d) as [[q|]|]; cbn;
      try apply hook_keeps_refl; repeat split; auto. }
  destruct (String.eqb status "finished"); [|apply hook_keeps_refl].
  destruct (d_filename d); cbn; repeat split; auto.
Qed.

Lemma hooks_effect_keeps ticks r :
  hook_keeps r ((hooks_effect float_round ticks).2 r).
Proof.
  revert r. induction ticks as [|d rest IH]; intros r; cbn [hooks_effect].
  - apply hook_keeps_refl.
  - pose proof (hook_effect_keeps d r) as Hd.
    destruct (hook_effect float_round d) as [[[]|e] f]; cbn [snd] in *; [|exact Hd].
    specialize (IH (f r)).
    destruct (hooks_effect float_round rest) as [o g]; cbn [snd] in *.
    eapply hook_keeps_trans; eassumption.
Qed.

(** X1. [download_video] swallows every exception: for a URL that
    resolves it always returns a pair.  When its options are built
    (audio-only, or a quality that is neither a list nor an object) it
    ends the job: the record of the identifier is left either
    completed, with the path it returns and no error message, or in
    error, with the message it returns.  When they are not built, it
    returns the message of the exception, creates neither record nor
    metadata, and the record the identifier had before, if any, is
    marked as failed with that message. *)
Theorem download_video_ends_job
    (url : string) (quality : JsonValue) (audio_only : bool)
    (w : World) (st : state) (video_id : string)
    (Hid : get_video_id' url = Some video_id) (Hne : video_id <> "") :
  exists res st',
    download_video' url quality audio_only w st = (Ret res, st')
    /\ if audio_only || scalar quality then
         exists r,
           progress_of st' video_id = Some r
           /\ ((exists p, res = (Some p, None) /\ pr_status r = Completed
                          /\ pr_filepath r = Some p /\ pr_error r = None)
               \/ (exists msg, res = (None, Some msg) /\ pr_status r = Error
                               /\ pr_error r = Some msg))
       else
         exists e,
           res = (None, Some e)
           /\ download_progress st' = download_progress st
           /\ download_metadata st' = download_metadata st
           /\ progress_of st' video_id
              = (set_error (Some e) ∘ set_status Error) <$> progress_of st video_id.
Proof.
  pose proof (ydl_opts_for_cases quality audio_only) as Hcases.
  destruct (audio_only || scalar quality).
  2:{ destruct Hcases as [e Hopts].
      rewrite (download_video_unbuilt urlparse parse_qs float_round extract_info
                 url quality audio_only w st video_id e Hid Hne Hopts).
      do 2 eexists. split; [reflexivity|]. exists e. split; [reflexivity|].
      unfold progress_of.
      destruct (download_progress st !! video_id) as [l|] eqn:Hl;
        cbn [download_progress download_metadata heap with_heap];
        rewrite ?Hl; repeat split.
      now rewrite lookup_alter_eq. }
  destruct Hcases as [ydl_opts Hopts].
  destruct (download_video_record url quality audio_only w st video_id ydl_opts
              Hid Hne Hopts)
    as (st' & _ & _ & Hcase).
  pose proof (hooks_effect_keeps
                (run_ticks (extract_info ydl_opts url))
                (initial_record (w_time_start w))) as (_ & _ & _ & Herr & _).
  cbv zeta in Hcase.
  destruct (hooks_effect float_round _).1 as [[]|e].
  - destruct (run_result _) as [info|e].
    + destruct (PyStr.truthy _) eqn:Hfound.
      * destruct Hcase as (E & Hr & _).
        apply truthy_inv in Hfound as (p & Hp & _).
        do 2 eexists. split; [exact E|]. eexists. split; [exact Hr|].
        left. exists p. rewrite Hp. cbn. repeat split. exact Herr.
      * destruct Hcase as (E & Hr & _).
        do 2 eexists. split; [exact E|]. eexists. split; [exact Hr|].
        right. eexists. repeat split.
    + destruct Hcase as (E & Hr & _).
      do 2 eexists. split; [exact E|]. eexists. split; [exact Hr|].
      right. eexists. repeat split.
  - destruct Hcase as (E & Hr & _).
    do 2 eexists. split; [exact E|]. eexists. split; [exact Hr|].
    right. eexists. repeat split.
Qed.

(** X2. When the collaborator's download call raises, after ticks the
    callback accepts, [download_video] returns the exception's message
    as its error, leaves the record of the identifier in error with
    that message, and creates no metadata record. *)
Theorem download_video_collaborator_failure
    (url : string) (quality : JsonValue) (audio_only : bool)
    (w : World) (st : state) (video_id : string) (ydl_opts : YdlOpts) (e : string)
    (Hid : get_video_id' url = Some video_id) (Hne : video_id <> "")
    (Hopts : ydl_opts_for quality audio_only = Ret ydl_opts)
    (Hraise : run_result (extract_info ydl_opts url) = Raise e)
    (Hticks : Forall (fun d => hook_raises d = false)
                (run_ticks (extract_info ydl_opts url))) :
  exists st' r,
    download_video' url quality audio_only w st = (Ret (None, Some e), st')
    /\ progress_of st' video_id = Some r
    /\ pr_status r = Error /\ pr_error r = Some e
    /\ pr_filename r = None /\ pr_end_time r = None
    /\ download_metadata st' = download_metadata st.
Proof.
  destruct (download_video_record url quality audio_only w st video_id ydl_opts
              Hid Hne Hopts)
    as (st' & _ & _ & Hcase).
  pose proof (hooks_effect_keeps
                (run_ticks (extract_info ydl_opts url))
                (initial_record (w_time_start w))) as (Hname & _ & Hend & _).
  cbv zeta in Hcase.
  rewrite (hooks_effect_returns float_round _ Hticks), Hraise in Hcase.
  destruct Hcase as (E & Hr & Hm).
  do 2 eexists. split; [exact E|]. split; [exact Hr|].
  cbn. repeat split; assumption.
Qed.

(** X3. [download_video] touches the job of its own identifier only:
    the record stored for any other identifier and the metadata of any
    other identifier are what they were.  (Where the options are not
    built, the record the identifier had before is written to: the two
    identifiers are then taken not to share one dict object, as they
    never do in a state the program has reached.) *)
Theorem download_video_other_jobs
    (url : string) (quality : JsonValue) (audio_only : bool)
    (w : World) (st : state) (video_id other : string)
    (Hid : get_video_id' url = Some video_id) (Hne : video_id <> "")
    (Hother : other <> video_id)
    (Hsep : audio_only || scalar quality = true
            \/ forall l, download_progress st !! other = Some l ->
                         download_progress st !! video_id <> Some l) :
  let st' := (download_video' url quality audio_only w st).2 in
  (forall r, progress_of st other = Some r -> progress_of st' other = Some r)
  /\ download_metadata st' !! other = download_metadata st !! other.
Proof.
  pose proof (ydl_opts_for_cases quality audio_only) as Hcases.
  destruct (audio_only || scalar quality) eqn:Hbuilt.
  2:{ destruct Hcases as [e Hopts]. destruct Hsep as [Hsep|Hsep]; [discriminate|].
      cbv zeta.
      rewrite (download_video_unbuilt urlparse parse_qs float_round extract_info
                 url quality audio_only w st video_id e Hid Hne Hopts).
      cbn [snd].
      destruct (download_progress st !! video_id) as [l|] eqn:Hl; [|now split].
      split; [|reflexivity].
      intros r. unfold progress_of. cbn [download_progress heap with_heap].
      destruct (download_progress st !! other) as [l0|] eqn:Hl0; [|discriminate].
      rewrite lookup_alter_ne; [trivial|].
      intros <-. now apply (Hsep l). }
  destruct Hcases as [ydl_opts Hopts]. clear Hsep.
  destruct (download_video_record url quality audio_only w st video_id ydl_opts
              Hid Hne Hopts)
    as (st' & Hp & Ho & Hcase).
  assert (Hst : (download_video' url quality audio_only w st).2 = st'
                /\ download_metadata st' !! other = download_metadata st !! other).
  { cbv zeta in Hcase.
    destruct (hooks_effect float_round _).1 as [[]|e];
      [destruct (run_result _) as [info|e]; [destruct (PyStr.truthy _)|]|];
      destruct Hcase as (E & _ & Hm); rewrite E, Hm; cbn [snd];
      (split; [reflexivity|]); try reflexivity;
      now rewrite lookup_insert_ne by congruence. }
  destruct Hst as [-> Hm]. cbv zeta. split; [|exact Hm].
  intros r. unfold progress_of. rewrite Hp, lookup_insert_ne by congruence.
  destruct (download_progress st !! other) as [l0|]; [|discriminate].
  intros Hr. rewrite Ho; [exact Hr|].
  intros ->. pose proof (is_fresh (dom (heap st))) as Hfresh.
  apply Hfresh. apply elem_of_dom. eexists. exact Hr.
Qed.

(** X4. A download whose options are built (audio-only, or a quality
    that is neither a list nor an object) overwrites, it does not
    merge: whatever the tables held before, [download_video] returns
    the same value and leaves the same record for the identifier. *)
Theorem download_video_overwrites
    (url : string) (quality : JsonValue) (audio_only : bool)
    (w : World) (st1 st2 : state) (video_id : string)
    (Hid : get_video_id' url = Some video_id) (Hne : video_id <> "")
    (Hbuilt : audio_only || scalar quality = true) :
  (download_video' url quality audio_only w st1).1
  = (download_video' url quality audio_only w st2).1
  /\ progress_of (download_video' url quality audio_only w st1).2 video_id
     = progress_of (download_video' url quality audio_only w st2).2 video_id.
Proof.
  destruct (ydl_opts_for_built quality audio_only Hbuilt) as [ydl_opts Hopts].
  destruct (download_video_record url quality audio_only w st1 video_id ydl_opts
              Hid Hne Hopts)
    as (st1' & _ & _ & H1).
  destruct (download_video_record url quality audio_only w st2 video_id ydl_opts
              Hid Hne Hopts)
    as (st2' & _ & _ & H2).
  cbv zeta in H1, H2.
  destruct (hooks_effect float_round _).1 as [[]|e];
    [destruct (run_result _) as [info|e]; [destruct (PyStr.truthy _)|]|];
    destruct H1 as (E1 & R1 & _); destruct H2 as (E2 & R2 & _);
    rewrite E1, E2; cbn [fst snd]; now rewrite R1, R2.
Qed.

(** ** The callback *)

(** X5. On an identifier that has a record, the callback raises on
    every tick it cannot read (no status, a downloading tick whose
    byte count is null, a finished tick without filename).  Whenever
    it raises on a tick that is not a finished one, the record is as
    it was; a finished tick sets the progress to 100 and the status to
    processing, also when it then raises for lack of a filename.  In
    every case filename, start and end time and error message of the
    record are left alone, and the status left is the old one,
    downloading or processing: the callback never completes a job nor
    fails one. *)
Theorem progress_hook_on_record
    (d : Tick) (video_id : string) (st : state) (r : ProgressRecord)
    (Hrec : progress_of st video_id = Some r) :
  exists o st' r',
    progress_hook' d video_id st = (o, st')
    /\ progress_of st' video_id = Some r'
    /\ hook_keeps r r'
    /\ (unreadable d -> exists e, o = Raise e)
    /\ ((exists e, o = Raise e) -> d_status d <> Some "finished" -> r' = r)
    /\ (d_status d = Some "finished" ->
        pr_progress r' = 100%Q /\ pr_status r' = Processing).
Proof.
  unfold progress_of in Hrec.
  destruct (download_progress st !! video_id) as [l|] eqn:Hl; [|discriminate].
  destruct (progress_hook_effect float_round d video_id l st Hl)
    as (st' & E & Hp & Hh & _).
  exists (hook_effect float_round d).1, st', ((hook_effect float_round d).2 r).
  split; [exact E|]. split; [|split; [apply hook_effect_keeps|]].
  { unfold progress_of. rewrite Hp, Hl, Hh, Hrec. reflexivity. }
  unfold hook_effect, unreadable.
  destruct (d_status d) as [status|].
  2:{ split; [now eexists|]. split; [reflexivity|discriminate]. }
  destruct (String.eqb_spec status "downloading") as [->|Hdl].
  { destruct (d_downloaded_bytes d) as [[q|]|]; cbn [fst snd].
    - split; [intros [H|[[_ H]|[H _]]]; discriminate H|].
      split; [intros [e He]; discriminate He|discriminate].
    - split; [now eexists|]. split; [reflexivity|discriminate].
    - split; [intros [H|[[_ H]|[H _]]]; discriminate H|].
      split; [intros [e He]; discriminate He|discriminate]. }
  destruct (String.eqb_spec status "finished") as [->|Hfin].
  { destruct (d_filename d) as [filename|]; cbn [fst snd].
    - split; [intros [H|[[H _]|[_ H]]]; discriminate H|].
      split; [intros [e He]; discriminate He|]. intros _. now split.
    - split; [now eexists|]. split; [intros _ H; now destruct H|].
      intros _. now split. }
  cbn [fst snd]. split.
  - intros [H|[[H _]|[H _]]]; [discriminate H|congruence|congruence].
  - split; [intros [e He]; discriminate He|congruence].
Qed.

Lemma with_heap_same st : with_heap (heap st) st = st.
Proof. now destruct st. Qed.

(** the progress end point changes the store only, and only by adding
    the copy it works on *)
Lemma progress_adds_copy video_id w st :
  exists o h,
    progress video_id w st = (o, with_heap h st)
    /\ forall l0 r, heap st !! l0 = Some r -> h !! l0 = Some r.
Proof.
  unfold progress. unfold bind at 1, get_state.
  destruct (download_progress st !! video_id) as [l|] eqn:Hl.
  2:{ exists (Ret (Json 200 BNotFound)), (heap st).
      now rewrite with_heap_same. }
  unfold bind at 1, deref.
  destruct (heap st !! l) as [stored|] eqn:Hstored.
  2:{ exists (Raise "dangling reference"), (heap st). now rewrite with_heap_same. }
  set (l' := fresh (dom (heap st))).
  assert (Hfresh : heap st !! l' = None)
    by (apply not_elem_of_dom; apply is_fresh).
  unfold bind at 1, alloc. fold l'. cbn [heap with_heap].
  unfold bind at 1. cbn [heap with_heap]. rewrite lookup_insert_eq.
  destruct (Status_eqb (pr_status stored) Completed
            && PyStr.truthy (pr_filename stored)
            && negb (os_path_exists (w_fs w)
                       (OsPath.join DOWNLOAD_FOLDER (default "" (pr_filename stored)))))
    eqn:Hvanished.
  - apply andb_true_iff in Hvanished as [Hv Hgone].
    apply andb_true_iff in Hv as [Hdone Hname].
    rewrite Hdone, Hname, Hgone.
    unfold bind, assign_at, ret. cbn [heap with_heap].
    rewrite !lookup_alter_eq, lookup_insert_eq. cbn.
    do 2 eexists. split; [reflexivity|].
    intros l0 r Hr. assert (l0 <> l') by congruence.
    now rewrite !lookup_alter_ne, lookup_insert_ne by congruence.
  - assert (Hsame :
      (if Status_eqb (pr_status stored) Completed
       then if PyStr.truthy (pr_filename stored)
            then if negb (os_path_exists (w_fs w)
                            (OsPath.join DOWNLOAD_FOLDER
                               (default "" (pr_filename stored))))
                 then (assign_at l' (set_status Error) ;;
                       assign_at l' (set_error (Some "Downloaded file not found")))%py
                 else ret tt
            else ret tt
       else ret tt) = ret tt).
    { destruct (Status_eqb _ _); [|reflexivity].
      destruct (PyStr.truthy _); [|reflexivity].
      destruct (negb _); [discriminate|reflexivity]. }
    rewrite Hsame. unfold bind, ret. cbn [heap with_heap].
    rewrite lookup_insert_eq. cbn.
    do 2 eexists. split; [reflexivity|].
    intros l0 r Hr. assert (l0 <> l') by congruence.
    now rewrite lookup_insert_ne by congruence.
Qed.

(** X6. A poll only reads: whatever the identifier, the state and the
    files, the progress end point leaves both tables as they were and
    every stored record with the contents it had. *)
Theorem progress_read_only (video_id : string) (w : World) (st : state) :
  let st' := (progress video_id w st).2 in
  download_progress st' = download_progress st
  /\ download_metadata st' = download_metadata st
  /\ forall id r, progress_of st id = Some r -> progress_of st' id = Some r.
Proof.
  destruct (progress_adds_copy video_id w st) as (o & h & E & Hh).
  cbv zeta. rewrite E. cbn [snd download_progress download_metadata with_heap].
  repeat split. intros id r. unfold progress_of.
  cbn [download_progress heap with_heap].
  destruct (download_progress st !! id) as [l0|]; [|discriminate].
  apply Hh.
Qed.

(** X7. What a poll answers: the not-found sentinel for an identifier
    without record; otherwise a copy of the stored record in which only
    status and error message can differ, and they differ only when the
    stored status is completed and the recorded file is not in the
    download folder. *)
Theorem progress_snapshot (video_id : string) (w : World) (st : state) :
  (download_progress st !! video_id = None ->
     progress video_id w st = (Ret (Json 200 BNotFound), st))
  /\ (forall r, progress_of st video_id = Some r ->
        exists snapshot,
          (progress video_id w st).1 = Ret (Json 200 (BProgress snapshot))
          /\ pr_progress snapshot = pr_progress r
          /\ pr_downloaded_bytes snapshot = pr_downloaded_bytes r
          /\ pr_total_bytes snapshot = pr_total_bytes r
          /\ pr_filename snapshot = pr_filename r
          /\ pr_filepath snapshot = pr_filepath r
          /\ pr_start_time snapshot = pr_start_time r
          /\ pr_end_time snapshot = pr_end_time r
          /\ (snapshot = r
              \/ (pr_status r = Completed /\ pr_status snapshot = Error
                  /\ exists filename,
                       pr_filename r = Some filename
                       /\ os_path_exists (w_fs w)
                            (OsPath.join DOWNLOAD_FOLDER filename) = false))).
Proof.
  split.
  - intros Hnone. unfold progress, bind, get_state. now rewrite Hnone.
  - intros r. unfold progress_of.
    destruct (download_progress st !! video_id) as [l|] eqn:Hl; [|discriminate].
    intros Hr. unfold progress. unfold bind at 1, get_state. rewrite Hl.
    unfold bind at 1, deref. rewrite Hr.
    unfold bind at 1, alloc. cbn [heap with_heap].
    unfold bind at 1. cbn [heap with_heap]. rewrite lookup_insert_eq.
    destruct (Status_eqb (pr_status r) Completed) eqn:Hdone.
    2:{ unfold bind, ret. cbn [heap with_heap]. rewrite lookup_insert_eq. cbn.
        exists r. repeat split; auto. }
    destruct (PyStr.truthy (pr_filename r)) eqn:Hname.
    2:{ unfold bind, ret. cbn [heap with_heap]. rewrite lookup_insert_eq. cbn.
        exists r. repeat split; auto. }
    apply truthy_inv in Hname as (filename & Hfile & _). rewrite Hfile.
    cbn [default from_option id].
    destruct (os_path_exists (w_fs w) (OsPath.join DOWNLOAD_FOLDER filename))
      eqn:Hexists; cbn [negb].
    { unfold bind, ret. cbn [heap with_heap]. rewrite lookup_insert_eq. cbn.
      exists r. repeat split; auto. }
    unfold bind, assign_at, ret. cbn [heap with_heap].
    rewrite !lookup_alter_eq, lookup_insert_eq. cbn.
    eexists. split; [reflexivity|]. do 7 (split; [cbn; congruence|]).
    right. split; [now destruct (pr_status r)|]. split; [reflexivity|].
    now exists filename.
Qed.

(** ** Starting and ending a job *)

(** X8. For a resolvable URL the download end point answers with the
    identifier, starts exactly one download thread with the URL,
    quality (null when the request has none) and audio flag (false
    when the request has none) of the request, and discards the job of
    that identifier and nothing else; a poll made before the thread
    has run gets the not-found sentinel. *)
Theorem download_starts_job
    (url : string) (quality : option JsonValue) (audio_only : option bool)
    (st : state) (video_id : string)
    (Hurl : url <> "")
    (Hid : get_video_id' url = Some video_id) (Hne : video_id <> "") :
  exists st',
    download' {| req_url := Some url; req_quality := quality;
                 req_audio_only := audio_only |} st
    = (Ret (Json 200 (BVideoId video_id),
            [DownloadVideo url (default JNull quality)
               (default false audio_only)]), st')
    /\ download_progress st' = delete video_id (download_progress st)
    /\ download_metadata st' = delete video_id (download_metadata st)
    /\ heap st' = heap st
    /\ forall w, progress video_id w st' = (Ret (Json 200 BNotFound), st').
Proof.
  unfold download. cbn [req_url req_quality req_audio_only].
  rewrite (truthy_Some _ Hurl). cbn [negb default from_option id].
  rewrite Hid, (truthy_Some _ Hne). cbn [negb default from_option id].
  unfold bind, get_state, put_state, ret.
  eexists. split; [reflexivity|]. cbn. repeat split.
  intros w. unfold progress, bind, get_state. cbn.
  now rewrite lookup_delete_eq.
Qed.

(** X9. The cleanup thread removes the job of its identifier from both
    tables and nothing else; afterwards a poll for the identifier gets
    the not-found sentinel. *)
Theorem cleanup_after_send_removes_job (video_id : string) (st : state) :
  exists st',
    cleanup_after_send video_id st = (Ret tt, st')
    /\ download_progress st' = delete video_id (download_progress st)
    /\ download_metadata st' = delete video_id (download_metadata st)
    /\ heap st' = heap st
    /\ (forall other, other <> video_id ->
          progress_of st' other = progress_of st other
          /\ download_metadata st' !! other = download_metadata st !! other)
    /\ forall w, progress video_id w st' = (Ret (Json 200 BNotFound), st').
Proof.
  unfold cleanup_after_send, bind, get_state, put_state.
  eexists. split; [reflexivity|]. cbn. repeat split.
  - unfold progress_of. cbn. now rewrite lookup_delete_ne by congruence.
  - now rewrite lookup_delete_ne by congruence.
  - intros w. unfold progress, bind, get_state. cbn.
    now rewrite lookup_delete_eq.
Qed.

(** ** Serving the file *)

Lemma isfile_exists fs p : os_path_isfile fs p = true -> os_path_exists fs p = true.
Proof.
  unfold os_path_isfile, os_path_exists. now destruct (fs_stat fs !! p).
Qed.

Lemma find_similar_Some fs video_id filename names p f :
  find_similar fs video_id filename names = Some (p, f) ->
  p = OsPath.join DOWNLOAD_FOLDER f /\ In f names /\ nonempty_file fs p = true.
Proof.
  induction names as [|g names IH]; cbn [find_similar]; [discriminate|].
  destruct (nonempty_file fs (OsPath.join DOWNLOAD_FOLDER g)) eqn:Hg; cbn [andb].
  - destruct (PyStr.contains video_id g || _).
    + intros [= <- <-]. repeat split; [now left|exact Hg].
    + intros H. destruct (IH H) as (-> & Hin & Hne). repeat split; [now right|exact Hne].
  - intros H. destruct (IH H) as (-> & Hin & Hne). repeat split; [now right|exact Hne].
Qed.

Lemma recent_files_In fs now names x :
  In x (recent_files float_round fs now names) ->
  In x.1.2 names
  /\ os_path_isfile fs (OsPath.join DOWNLOAD_FOLDER x.1.2) = true
  /\ 0 < os_path_getsize fs (OsPath.join DOWNLOAD_FOLDER x.1.2)
  /\ Qlt_bool (float_round (now - os_path_getctime fs
                                    (OsPath.join DOWNLOAD_FOLDER x.1.2))%Q) 300 = true.
Proof.
  induction names as [|f names IH]; cbn [recent_files]; [intros []|].
  destruct (os_path_isfile fs (OsPath.join DOWNLOAD_FOLDER f)) eqn:Hfile.
  2:{ intros H. destruct (IH H) as (? & ? & ? & ?). repeat split; auto. now right. }
  destruct (Qlt_bool _ 300 && _) eqn:Hrecent.
  2:{ intros H. destruct (IH H) as (? & ? & ? & ?). repeat split; auto. now right. }
  intros [<-|H].
  - cbn [fst snd]. apply andb_true_iff in Hrecent as [Hage Hsize].
    apply Z.ltb_lt in Hsize. repeat split; auto. now left.
  - destruct (IH H) as (? & ? & ? & ?). repeat split; auto. now right.
Qed.

(** X10. Whatever the identifier, the tables and the files, the file
    end point never touches the progress table nor the metadata of
    another identifier.  When it sends a file, the file is an existing,
    non-empty entry of the download folder and exactly one cleanup
    thread is started for the identifier; every other answer is an
    error body with code 400, 404 or 500 and starts no thread; and the
    handler fails only on a metadata record of the identifier that has
    no filename yet or whose title is [None]. *)
Theorem download_file_outcomes (video_id : string) (w : World) (st : state) :
  exists o st',
    download_file' video_id w st = (o, st')
    /\ download_progress st' = download_progress st
    /\ heap st' = heap st
    /\ (forall other, other <> video_id ->
          download_metadata st' !! other = download_metadata st !! other)
    /\ match o with
       | Ret (Attachment filepath _, threads) =>
           threads = [Cleanup video_id]
           /\ (exists f, filepath = OsPath.join DOWNLOAD_FOLDER f)
           /\ os_path_exists (w_fs w) filepath = true
           /\ 0 < os_path_getsize (w_fs w) filepath
       | Ret (Json code body, threads) =>
           threads = []
           /\ (code = 400 \/ code = 404 \/ code = 500)
           /\ exists msg, body = BError msg
       | Raise _ =>
           exists md, download_metadata st !! video_id = Some md
                      /\ (md_filename md = None \/ md_title md = None)
       end.
Proof.
  unfold download_file. unfold bind at 1, get_state. unfold bind at 1.
  set (phase1 := match download_metadata st !! video_id with
                 | Some _ => ret tt
                 | None => _
                 end).
  assert (H1 : exists st1,
            phase1 st = (Ret tt, st1)
            /\ download_progress st1 = download_progress st
            /\ heap st1 = heap st
            /\ (forall other, other <> video_id ->
                  download_metadata st1 !! other = download_metadata st !! other)
            /\ match download_metadata st !! video_id with
               | Some md => st1 = st
               | None =>
                   forall md, download_metadata st1 !! video_id = Some md ->
                              md_filename md <> None /\ md_title md <> None
               end).
  { unfold phase1. destruct (download_metadata st !! video_id) as [md|] eqn:Hmd.
    - exists st. repeat split.
    - destruct (stable_sort _ _) as [|most_recent rest].
      + exists st. repeat split; auto; now rewrite Hmd in *.
      + eexists. split; [reflexivity|]. cbn.
        split; [reflexivity|]. split; [reflexivity|]. split.
        * intros other Hne. now rewrite lookup_insert_ne by congruence.
        * intros md. rewrite lookup_insert_eq. intros [= <-]. now split. }
  destruct H1 as (st1 & E1 & Hp1 & Hh1 & Hm1 & Hvid). rewrite E1. clear phase1 E1.
  unfold bind at 1, get_state.
  destruct (download_metadata st1 !! video_id) as [md|] eqn:Hmd.
  2:{ do 2 eexists. split; [reflexivity|]. repeat split; auto. now eexists. }
  destruct (md_filename md) as [filename|] eqn:Hname.
  2:{ unfold bind, dict_item, raise. do 2 eexists. split; [reflexivity|].
      repeat split; auto.
      destruct (download_metadata st !! video_id) as [md0|] eqn:Hmd0.
      - subst st1. exists md0. split; [reflexivity|]. left. congruence.
      - now destruct (Hvid md eq_refl). }
  unfold bind at 1, dict_item, ret.
  destruct (PyStr.contains ".." filename || PyStr.startswith "/" filename).
  { do 2 eexists. split; [reflexivity|]. repeat split; auto. now eexists. }
  destruct (os_path_exists (w_fs w) (OsPath.join DOWNLOAD_FOLDER filename)
            && (0 <? os_path_getsize (w_fs w) (OsPath.join DOWNLOAD_FOLDER filename)))
    eqn:Hthere.
  { apply andb_true_iff in Hthere as [Hex Hsize]. apply Z.ltb_lt in Hsize.
    destruct (md_title md) as [title|] eqn:Htitle.
    2:{ unfold raise. do 2 eexists. split; [reflexivity|].
        repeat split; auto.
        destruct (download_metadata st !! video_id) as [md0|] eqn:Hmd0.
        - subst st1. exists md0. split; [reflexivity|]. right. congruence.
        - now destruct (Hvid md eq_refl). }
    destruct (w_send_file w).
    - do 2 eexists. split; [reflexivity|]. repeat split; auto. now eexists.
    - do 2 eexists. split; [reflexivity|]. repeat split; auto. now eexists. }
  destruct (find_similar _ _ _ _) as [[file_path f]|] eqn:Hsim.
  2:{ do 2 eexists. split; [reflexivity|]. repeat split; auto. now eexists. }
  apply find_similar_Some in Hsim as (-> & Hin & Hnonempty).
  apply andb_true_iff in Hnonempty as [Hfile Hsize]. apply Z.ltb_lt in Hsize.
  unfold bind, assign_metadata. rewrite Hmd.
  destruct (w_send_file w); unfold ret; do 2 eexists;
    (split; [reflexivity|]); cbn;
    (split; [exact Hp1|]); (split; [exact Hh1|]);
    (split; [intros other Hne; rewrite lookup_insert_ne by congruence; now apply Hm1|]).
  - repeat split; auto; [now eexists | now apply isfile_exists].
  - repeat split; auto. now eexists.
Qed.

(** ** From a finished download to the file *)

(** the state a successful [download_video] leaves, as the file end
    point sees it *)
Lemma download_video_found url quality audio_only w st video_id ydl_opts info :
  get_video_id' url = Some video_id -> video_id <> "" ->
  ydl_opts_for quality audio_only = Ret ydl_opts ->
  run_result (extract_info ydl_opts url) = Ret info ->
  Forall (fun d => hook_raises d = false) (run_ticks (extract_info ydl_opts url)) ->
  forall p, locate_download (w_fs w) (expected_filename_of info audio_only) video_id
            = Some p -> p <> "" ->
  exists md,
    download_metadata (download_video' url quality audio_only w st).2 !! video_id
    = Some md
    /\ md_filename md = Some (OsPath.basename p)
    /\ md_title md = dict_get_default (info_title info) "Unknown".
Proof.
  intros Hid Hne Hopts Hret Hticks p Hp Hpne.
  destruct (download_video_record url quality audio_only w st video_id ydl_opts
              Hid Hne Hopts)
    as (st' & _ & _ & Hcase).
  cbv zeta in Hcase.
  rewrite (hooks_effect_returns float_round _ Hticks), Hret, Hp in Hcase.
  rewrite (truthy_Some _ Hpne) in Hcase.
  destruct Hcase as (E & _ & Hm). rewrite E. cbn [snd]. rewrite Hm.
  eexists. split; [apply lookup_insert_eq|]. now split.
Qed.

(** X11. A download that completed with a file whose name contains two
    consecutive dots cannot be fetched: the name [download_video]
    records is then refused by the traversal check of the file end
    point, which answers 400 although the file is in the download
    folder. *)
Theorem completed_download_refused
    (url : string) (quality : JsonValue) (audio_only : bool)
    (w w' : World) (st : state) (video_id p : string)
    (ydl_opts : YdlOpts) (info : Info)
    (Hid : get_video_id' url = Some video_id) (Hne : video_id <> "")
    (Hopts : ydl_opts_for quality audio_only = Ret ydl_opts)
    (Hret : run_result (extract_info ydl_opts url) = Ret info)
    (Hticks : Forall (fun d => hook_raises d = false)
                (run_ticks (extract_info ydl_opts url)))
    (Hfound : locate_download (w_fs w) (expected_filename_of info audio_only) video_id
              = Some p)
    (Hp : p <> "")
    (Hdots : occurs_in ".." (OsPath.basename p)) :
  let st' := (download_video' url quality audio_only w st).2 in
  download_file' video_id w' st'
  = (Ret (Json 400 (BError "Invalid filename"), []), st').
Proof.
  cbv zeta.
  destruct (download_video_found url quality audio_only w st video_id ydl_opts info
              Hid Hne Hopts Hret Hticks p Hfound Hp) as (md & Hmd & Hname & _).
  set (st' := (download_video' url quality audio_only w st).2) in *.
  apply contains_occurs in Hdots.
  unfold download_file. unfold bind at 1, get_state. rewrite Hmd.
  unfold bind at 1, ret. unfold bind at 1, get_state. rewrite Hmd.
  unfold bind, dict_item, ret. rewrite Hname, Hdots. reflexivity.
Qed.

(** X12. A download that completed is served: when the name
    [download_video] recorded passes the traversal check and the file
    of that name is in the download folder and not empty, the file end
    point sends it under the sanitized title (Unknown when the
    collaborator's result has no title key) followed by the file's
    extension, starts the cleanup thread and leaves the state as it
    is.  When the collaborator's result binds its title to [None],
    the end point fails instead: nothing is sent and no thread is
    started. *)
Theorem completed_download_served
    (url : string) (quality : JsonValue) (audio_only : bool)
    (w w' : World) (st : state) (video_id p : string)
    (ydl_opts : YdlOpts) (info : Info)
    (Hid : get_video_id' url = Some video_id) (Hne : video_id <> "")
    (Hopts : ydl_opts_for quality audio_only = Ret ydl_opts)
    (Hret : run_result (extract_info ydl_opts url) = Ret info)
    (Hticks : Forall (fun d => hook_raises d = false)
                (run_ticks (extract_info ydl_opts url)))
    (Hfound : locate_download (w_fs w) (expected_filename_of info audio_only) video_id
              = Some p)
    (Hp : p <> "")
    (Hsafe : PyStr.contains ".." (OsPath.basename p) = false
             /\ PyStr.startswith "/" (OsPath.basename p) = false)
    (Hthere : os_path_exists (w_fs w')
                (OsPath.join DOWNLOAD_FOLDER (OsPath.basename p)) = true
              /\ 0 < os_path_getsize (w_fs w')
                        (OsPath.join DOWNLOAD_FOLDER (OsPath.basename p)))
    (Hsend : w_send_file w' = Ret tt) :
  let st' := (download_video' url quality audio_only w st).2 in
  match dict_get_default (info_title info) "Unknown" with
  | Some title =>
      download_file' video_id w' st'
      = (Ret (Attachment (OsPath.join DOWNLOAD_FOLDER (OsPath.basename p))
                (sanitize_filename title
                 +:+ (OsPath.splitext (OsPath.basename p)).2),
              [Cleanup video_id]), st')
  | None =>
      exists e, download_file' video_id w' st' = (Raise e, st')
  end.
Proof.
  cbv zeta.
  destruct (download_video_found url quality audio_only w st video_id ydl_opts info
              Hid Hne Hopts Hret Hticks p Hfound Hp) as (md & Hmd & Hname & Htitle).
  set (st' := (download_video' url quality audio_only w st).2) in *.
  destruct Hsafe as [Hdots Hroot]. destruct Hthere as [Hex Hsize].
  apply Z.ltb_lt in Hsize.
  assert (Hrun : download_file' video_id w' st'
                 = match md_title md with
                   | Some title =>
                       (Ret (Attachment
                               (OsPath.join DOWNLOAD_FOLDER (OsPath.basename p))
                               (sanitize_filename title
                                +:+ (OsPath.splitext (OsPath.basename p)).2),
                             [Cleanup video_id]), st')
                   | None =>
                       (Raise "expected string or bytes-like object, got 'NoneType'",
                        st')
                   end).
  { unfold download_file. unfold bind at 1, get_state. rewrite Hmd.
    unfold bind at 1, ret. unfold bind at 1, get_state. rewrite Hmd.
    unfold bind, dict_item, ret, raise.
    rewrite Hname, Hdots, Hroot, Hex, Hsize, Hsend.
    now destruct (md_title md). }
  rewrite Htitle in Hrun.
  destruct (dict_get_default (info_title info) "Unknown") as [title|];
    [exact Hrun|].
  eexists. exact Hrun.
Qed.

End Orchestration.

(** ** The pure functions *)

Lemma list_ascii_inj (s t : string) :
  list_ascii_of_string s = list_ascii_of_string t -> s = t.
Proof.
  intros H. rewrite <- (string_of_list_ascii_of_string s),
              <- (string_of_list_ascii_of_string t). now rewrite H.
Qed.

Lemma list_ascii_sanitize (filename : string) :
  list_ascii_of_string (sanitize_filename filename)
  = sanitized (list_ascii_of_string filename).
Proof.
  unfold sanitize_filename, sanitized.
  set (t := PyStr.replace_char " " "_" (re_sub_invalid filename)).
  assert (Ht : list_ascii_of_string t
               = List.map (fun c => if Ascii.eqb c " " then "_"%char else c)
                   (List.filter (fun c => negb (bool_decide (c ∈ illegal_chars)))
                      (list_ascii_of_string filename))).
  { unfold t. now rewrite list_ascii_replace, list_ascii_re_sub. }
  rewrite <- Ht.
  destruct (150 <? PyStr.len t) eqn:Hlen.
  - apply list_ascii_take.
  - apply Z.ltb_ge in Hlen. unfold PyStr.len in Hlen.
    symmetry. apply firstn_all2. rewrite list_ascii_length. lia.
Qed.

Lemma sanitized_fixed (l : list ascii) :
  Forall (fun c => (c ∉ illegal_chars) /\ c <> " "%char) l ->
  (length l <= 150)%nat -> sanitized l = l.
Proof.
  intros Hclean Hlen. unfold sanitized.
  assert (Hf : List.filter (fun c => negb (bool_decide (c ∈ illegal_chars))) l = l).
  { induction Hclean as [|c l [Hc _] _ IH]; [reflexivity|].
    cbn [List.filter]. rewrite (bool_decide_eq_false_2 _ Hc). cbn [negb].
    rewrite IH; [reflexivity|]. cbn in Hlen. lia. }
  assert (Hm : List.map (fun c => if Ascii.eqb c " " then "_"%char else c) l = l).
  { clear Hf. induction Hclean as [|c l [_ Hc] _ IH]; [reflexivity|].
    cbn [List.map]. apply Ascii.eqb_neq in Hc. rewrite Hc.
    rewrite IH; [reflexivity|]. cbn in Hlen. lia. }
  rewrite Hf, Hm. now apply firstn_all2.
Qed.

Lemma sanitized_clean (l : list ascii) :
  Forall (fun c => (c ∉ illegal_chars) /\ c <> " "%char) (sanitized l)
  /\ (length (sanitized l) <= 150)%nat.
Proof.
  split.
  - unfold sanitized. apply Forall_forall. intros c Hc.
    apply (subseteq_take 150), list_elem_of_In in Hc.
    apply in_map_iff in Hc as (d & Hd & Hin).
    apply filter_In in Hin as [_ Hlegal].
    apply negb_true_iff, bool_decide_eq_false in Hlegal.
    destruct (Ascii.eqb d " ") eqn:Hsp; subst c.
    + split; [|discriminate].
      intros H. apply list_elem_of_In in H. simpl in H. intuition discriminate.
    + split; [exact Hlegal|]. now apply Ascii.eqb_neq.
  - unfold sanitized. rewrite length_firstn. lia.
Qed.

(** X13. Sanitizing is idempotent, and a name that is already clean
    (none of the nine characters, no space, at most 150 characters) is
    returned as it is. *)
Theorem sanitize_filename_idempotent (filename : string) :
  sanitize_filename (sanitize_filename filename) = sanitize_filename filename
  /\ (Forall (fun c => (c ∉ illegal_chars) /\ c <> " "%char)
        (list_ascii_of_string filename) ->
      (String.length filename <= 150)%nat ->
      sanitize_filename filename = filename).
Proof.
  split.
  - apply list_ascii_inj. rewrite list_ascii_sanitize.
    rewrite list_ascii_sanitize.
    destruct (sanitized_clean (list_ascii_of_string filename)) as [Hc Hl].
    now apply sanitized_fixed.
  - intros Hclean Hlen. apply list_ascii_inj. rewrite list_ascii_sanitize.
    apply sanitized_fixed; [exact Hclean|]. now rewrite list_ascii_length.
Qed.

Lemma format_02d_length (n : Z) :
  0 <= n < 60 -> String.length (format_02d n) = 2%nat.
Proof.
  intros Hn. rewrite <- (Z2Nat.id n) by lia.
  assert (Hk : (Z.to_nat n < 60)%nat) by lia.
  generalize dependent (Z.to_nat n). clear. intros k Hk.
  do 60 (destruct k as [|k]; [vm_compute; reflexivity|]). lia.
Qed.

(** X14. For every duration other than zero, also a negative one, the
    formatted duration ends with a colon and a seconds field of exactly
    two characters; when the hour count is positive, the hours are
    followed by a colon and a minutes field of exactly two characters. *)
Theorem format_duration_fields (duration : Z) (Hnz : duration <> 0) :
  exists pre ss,
    format_duration (Some duration) = pre +:+ ":" +:+ ss
    /\ String.length ss = 2%nat
    /\ (0 < duration / 3600 ->
        exists mm, pre = pretty (duration / 3600) +:+ ":" +:+ mm
                   /\ String.length mm = 2%nat)
    /\ (duration / 3600 <= 0 -> pre = pretty ((duration mod 3600) / 60)).
Proof.
  assert (Hs : String.length (format_02d (duration mod 60)) = 2%nat).
  { apply format_02d_length. apply Z.mod_pos_bound. lia. }
  assert (Hm : String.length (format_02d ((duration mod 3600) / 60)) = 2%nat).
  { apply format_02d_length.
    pose proof (Z.mod_pos_bound duration 3600 ltac:(lia)) as B. split.
    - apply Z.div_pos; lia.
    - apply Z.div_lt_upper_bound; lia. }
  unfold format_duration. destruct duration as [|d|d]; [congruence| |].
  - destruct (Z.ltb_spec 0 (Z.pos d / 3600)) as [Hh|Hh].
    + exists (pretty (Z.pos d / 3600) +:+ ":" +:+ format_02d ((Z.pos d mod 3600) / 60)),
             (format_02d (Z.pos d mod 60)).
      split; [now rewrite !string_app_assoc|]. split; [exact Hs|].
      split; [|lia]. intros _. now eexists.
    + exists (pretty ((Z.pos d mod 3600) / 60)), (format_02d (Z.pos d mod 60)).
      split; [reflexivity|]. split; [exact Hs|]. split; [lia|reflexivity].
  - destruct (Z.ltb_spec 0 (Z.neg d / 3600)) as [Hh|Hh].
    + exists (pretty (Z.neg d / 3600) +:+ ":" +:+ format_02d ((Z.neg d mod 3600) / 60)),
             (format_02d (Z.neg d mod 60)).
      split; [now rewrite !string_app_assoc|]. split; [exact Hs|].
      split; [|lia]. intros _. now eexists.
    + exists (pretty ((Z.neg d mod 3600) / 60)), (format_02d (Z.neg d mod 60)).
      split; [reflexivity|]. split; [exact Hs|]. split; [lia|reflexivity].
Qed.

Lemma true_divide_returns (n d : Z) :
  0 < n -> 0 < d -> n < 2 ^ 1000 * d ->
  exists x, PyFloat.true_divide n d = Ret x.
Proof.
  intros Hn Hd Hbound. unfold PyFloat.true_divide.
  rewrite PyFloatFacts.nearest_double_eq.
  set (m := PyFloat.mantissa n d). set (e := - PyFloat.shift n d).
  destruct (Z.leb_spec 0 e) as [He|He]; cbn [andb]; [|now eexists].
  assert (Hsmall : m * 2 ^ e <= 2 ^ 1000).
  { assert (Hi : PyFloat.ilog2 n d < 1000).
    { destruct (PyFloatFacts.ilog2_spec n d Hn Hd) as [Lo _].
      assert (Hr : (PyFloat.ratio n d <= inject_Z (2 ^ 1000))%Q).
      { apply (proj2 (PyFloatFacts.ratio_le_int (2 ^ 1000) n d Hd)). lia. }
      rewrite PyFloatFacts.pow2_inject in Hr by lia.
      assert (Hlt : (2 ^ PyFloat.ilog2 n d < 2 ^ 1001)%Q).
      { eapply Qle_lt_trans; [exact Lo|]. eapply Qle_lt_trans; [exact Hr|].
        apply Qpower_lt_compat_l; [lia|reflexivity]. }
      apply Qpower_lt_compat_l_inv in Hlt; [|reflexivity].
      destruct (Z.eq_dec (PyFloat.ilog2 n d) 1000) as [E|]; [|lia].
      exfalso. rewrite E in Lo.
      assert (Hc : (PyFloat.ratio n d < inject_Z (2 ^ 1000))%Q).
      { apply Qnot_le_lt. intros Hge.
        apply (proj1 (PyFloatFacts.ratio_ge_int (2 ^ 1000) n d Hd)) in Hge. lia. }
      rewrite PyFloatFacts.pow2_inject in Hc by lia.
      exact (Qlt_irrefl _ (Qle_lt_trans _ _ _ Lo Hc)). }
    pose proof (PyFloatFacts.value_upper n d Hn Hd) as Hv.
    unfold PyFloat.value in Hv. rewrite PyFloatFacts.value_eq in Hv.
    fold m e in Hv.
    assert (Hv' : (inject_Z (m * 2 ^ e) <= inject_Z (2 ^ 1000))%Q).
    { rewrite inject_Z_mult, !PyFloatFacts.pow2_inject by lia.
      eapply Qle_trans; [exact Hv|].
      apply PyFloatFacts.pow2_le. unfold PyFloat.exponent. lia. }
    now rewrite <- Zle_Qle in Hv'. }
  assert (Hpow : 2 ^ 1000 < 2 ^ 1024) by (apply Z.pow_lt_mono_r; lia).
  destruct (Z.leb_spec (2 ^ 1024) (m * 2 ^ e)); [lia|now eexists].
Qed.

Lemma format_views_defined (views : option Z) :
  match views with Some v => v < 2 ^ 1000 | None => True end ->
  exists s, format_views views = Ret s.
Proof.
  unfold format_views. destruct views as [[|v|v]|]; intros Hbound.
  - now eexists.
  - destruct (Z.leb_spec 1000000 (Z.pos v)) as [Hm|Hm].
    + destruct (true_divide_returns (Z.pos v) 1000000) as [x ->]; try lia.
      now eexists.
    + destruct (Z.leb_spec 1000 (Z.pos v)) as [Hk|Hk]; [|now eexists].
      destruct (true_divide_returns (Z.pos v) 1000) as [x ->]; try lia.
      now eexists.
  - cbn. now eexists.
  - now eexists.
Qed.

(** X15. The view formatter returns a string, without overflow of the
    float division, for every count below 2^1000, zero and negative
    counts included; from one million on the string ends with M, from
    one thousand on with K. *)
Theorem format_views_returns (views : Z) (Hbound : views < 2 ^ 1000) :
  exists s,
    format_views (Some views) = Ret s
    /\ (1000000 <= views -> exists digits, s = digits +:+ "M")
    /\ (1000 <= views < 1000000 -> exists digits, s = digits +:+ "K")
    /\ (views < 1000 -> views <> 0 -> s = pretty views).
Proof.
  unfold format_views. destruct views as [|v|v].
  - exists "Unknown". repeat split; intros; lia.
  - destruct (Z.leb_spec 1000000 (Z.pos v)) as [Hm|Hm].
    + destruct (true_divide_returns (Z.pos v) 1000000) as [x ->]; try lia.
      eexists. split; [reflexivity|]. repeat split; intros; try lia. now eexists.
    + destruct (Z.leb_spec 1000 (Z.pos v)) as [Hk|Hk].
      * destruct (true_divide_returns (Z.pos v) 1000) as [x ->]; try lia.
        eexists. split; [reflexivity|]. repeat split; intros; try lia. now eexists.
      * eexists. split; [reflexivity|]. repeat split; intros; lia.
  - cbn. eexists. split; [reflexivity|]. repeat split; intros; lia.
Qed.

(** ** The janitor *)

Section Janitor.

Context (now : Q) (removable : string -> bool).

Lemma same_stat_isfile fs1 fs2 p :
  fs_stat fs1 !! p = fs_stat fs2 !! p ->
  os_path_isfile fs1 p = os_path_isfile fs2 p
  /\ expired now fs1 p = expired now fs2 p.
Proof.
  intros H. unfold expired, os_path_isfile, os_path_getctime. now rewrite H.
Qed.

Lemma cleanup_loop_sound names fs :
  (forall p s, fs_stat (cleanup_loop now removable names fs) !! p = Some s ->
               fs_stat fs !! p = Some s)
  /\ (forall p s, fs_stat fs !! p = Some s ->
                 fs_stat (cleanup_loop now removable names fs) !! p = None ->
                 exists f, In f names /\ p = OsPath.join DOWNLOAD_FOLDER f
                           /\ st_isfile s = true /\ expired now fs p = true
                           /\ removable p = true)
  /\ (forall f, In f (fs_listdir (cleanup_loop now removable names fs)) ->
                In f (fs_listdir fs)).
Proof.
  revert fs. induction names as [|g names IH]; intros fs; cbn [cleanup_loop].
  { repeat split; auto. intros p s H1 H2. congruence. }
  set (p0 := OsPath.join DOWNLOAD_FOLDER g).
  assert (Hskip :
    (forall p s, fs_stat (cleanup_loop now removable names fs) !! p = Some s ->
                 fs_stat fs !! p = Some s)
    /\ (forall p s, fs_stat fs !! p = Some s ->
                   fs_stat (cleanup_loop now removable names fs) !! p = None ->
                   exists f, In f (g :: names) /\ p = OsPath.join DOWNLOAD_FOLDER f
                             /\ st_isfile s = true /\ expired now fs p = true
                             /\ removable p = true)
    /\ (forall f, In f (fs_listdir (cleanup_loop now removable names fs)) ->
                  In f (fs_listdir fs))).
  { destruct (IH fs) as (I1 & I2 & I3). repeat split; auto.
    intros p s H1 H2. destruct (I2 p s H1 H2) as (f & Hf & Hrest).
    exists f. split; [now right|exact Hrest]. }
  destruct (os_path_isfile fs p0) eqn:Hfile; [|exact Hskip].
  destruct (expired now fs p0) eqn:Hexp; [|exact Hskip].
  destruct (removable p0) eqn:Hrem.
  2:{ repeat split; auto. intros p s H1 H2. congruence. }
  clear Hskip. destruct (IH (os_remove fs p0)) as (I1 & I2 & I3).
  split; [|split].
  - intros p s H. apply I1 in H. cbn in H.
    now apply lookup_delete_Some in H as [_ H].
  - intros p s H1 H2. destruct (decide (p = p0)) as [->|Hne].
    + exists g. split; [now left|]. split; [reflexivity|].
      unfold os_path_isfile in Hfile. rewrite H1 in Hfile. auto.
    + assert (Hsame : fs_stat (os_remove fs p0) !! p = fs_stat fs !! p)
        by (cbn; now apply lookup_delete_ne).
      rewrite <- Hsame in H1.
      destruct (I2 p s H1 H2) as (f & Hf & -> & Hs & He & Hr).
      exists f. split; [now right|]. split; [reflexivity|].
      destruct (same_stat_isfile _ _ _ Hsame) as [_ <-]. auto.
  - intros f H. apply I3 in H. cbn in H. now apply filter_In in H as [H _].
Qed.

Lemma cleanup_loop_idle names fs :
  (forall f, In f names ->
     os_path_isfile fs (OsPath.join DOWNLOAD_FOLDER f)
     && expired now fs (OsPath.join DOWNLOAD_FOLDER f) = false) ->
  cleanup_loop now removable names fs = fs.
Proof.
  induction names as [|g names IH]; intros H; cbn [cleanup_loop]; [reflexivity|].
  pose proof (H g (or_introl eq_refl)) as Hg.
  assert (Hrest : cleanup_loop now removable names fs = fs)
    by (apply IH; intros f Hf; apply H; now right).
  destruct (os_path_isfile fs _); [|exact Hrest].
  destruct (expired now fs _); [discriminate|exact Hrest].
Qed.

Lemma cleanup_loop_complete names fs f :
  (forall p, removable p = true) ->
  In f names ->
  os_path_isfile fs (OsPath.join DOWNLOAD_FOLDER f) = true ->
  expired now fs (OsPath.join DOWNLOAD_FOLDER f) = true ->
  fs_stat (cleanup_loop now removable names fs) !! OsPath.join DOWNLOAD_FOLDER f = None
  /\ ~ In f (fs_listdir (cleanup_loop now removable names fs)).
Proof.
  intros Hrem. revert fs.
  induction names as [|g names IH]; intros fs Hin Hfile Hexp; [destruct Hin|].
  cbn [cleanup_loop]. set (p0 := OsPath.join DOWNLOAD_FOLDER g).
  destruct (decide (p0 = OsPath.join DOWNLOAD_FOLDER f)) as [Heq|Hne].
  - rewrite Heq, Hfile, Hexp, Hrem.
    destruct (cleanup_loop_sound names (os_remove fs (OsPath.join DOWNLOAD_FOLDER f)))
      as (I1 & _ & I3).
    split.
    + destruct (fs_stat (cleanup_loop _ _ _ _) !! _) as [s|] eqn:Hs; [|reflexivity].
      apply I1 in Hs. cbn in Hs. now rewrite lookup_delete_eq in Hs.
    + intros H. apply I3 in H. cbn in H. apply filter_In in H as [_ H].
      now rewrite String.eqb_refl in H.
  - assert (Hrest : In f names).
    { destruct Hin as [->|Hin]; [now destruct Hne|exact Hin]. }
    assert (Hskip : fs_stat (cleanup_loop now removable names fs)
                      !! OsPath.join DOWNLOAD_FOLDER f = None
                    /\ ~ In f (fs_listdir (cleanup_loop now removable names fs)))
      by now apply IH.
    destruct (os_path_isfile fs p0); [|exact Hskip].
    destruct (expired now fs p0); [|exact Hskip].
    rewrite Hrem. apply IH; [exact Hrest| |].
    + destruct (same_stat_isfile (os_remove fs p0) fs (OsPath.join DOWNLOAD_FOLDER f))
        as [-> _]; [|exact Hfile].
      cbn. now apply lookup_delete_ne.
    + destruct (same_stat_isfile (os_remove fs p0) fs (OsPath.join DOWNLOAD_FOLDER f))
        as [_ ->]; [|exact Hexp].
      cbn. now apply lookup_delete_ne.
Qed.

(** X16. The janitor deletes nothing but expired files: a path that
    was there and is gone afterwards is a regular file listed in the
    download directory whose creation time, to the microsecond, lies
    more than an hour back; nothing is created, and the listing only
    shrinks.  This holds also when a removal fails and ends the pass. *)
Theorem cleanup_removes_only_expired (fs : FS) :
  let fs' := cleanup_old_files now removable fs in
  (forall p s, fs_stat fs !! p = Some s -> fs_stat fs' !! p = None ->
     exists f, In f (fs_listdir fs) /\ p = OsPath.join DOWNLOAD_FOLDER f
               /\ st_isfile s = true
               /\ (3600 < now - fromtimestamp (st_ctime s))%Q)
  /\ (forall p s, fs_stat fs' !! p = Some s -> fs_stat fs !! p = Some s)
  /\ (forall f, In f (fs_listdir fs') -> In f (fs_listdir fs)).
Proof.
  cbv zeta. unfold cleanup_old_files.
  destruct (cleanup_loop_sound (fs_listdir fs) fs) as (I1 & I2 & I3).
  split; [|split; assumption].
  intros p s H1 H2. destruct (I2 p s H1 H2) as (f & Hf & -> & Hs & He & _).
  exists f. repeat split; auto.
  unfold expired, os_path_getctime, Qlt_bool in He. rewrite H1 in He.
  apply negb_true_iff in He. apply Qnot_le_lt. intros Hle.
  apply Qle_bool_iff in Hle. unfold MAX_DOWNLOAD_AGE in He. congruence.
Qed.

(** X17. When no removal fails, one pass of the janitor leaves no
    expired regular file in the download directory: each is gone from
    the file system and from the listing. *)
Theorem cleanup_removes_all_expired (fs : FS) (f : string) (s : FileStat)
    (Hrem : forall p, removable p = true)
    (Hlisted : In f (fs_listdir fs))
    (Hstat : fs_stat fs !! OsPath.join DOWNLOAD_FOLDER f = Some s)
    (Hfile : st_isfile s = true)
    (Hold : (3600 < now - fromtimestamp (st_ctime s))%Q) :
  let fs' := cleanup_old_files now removable fs in
  fs_stat fs' !! OsPath.join DOWNLOAD_FOLDER f = None
  /\ ~ In f (fs_listdir fs').
Proof.
  cbv zeta. unfold cleanup_old_files.
  apply cleanup_loop_complete; auto.
  - unfold os_path_isfile. now rewrite Hstat.
  - unfold expired, os_path_getctime, Qlt_bool. rewrite Hstat.
    apply negb_true_iff. destruct (Qle_bool _ _) eqn:Hle; [|reflexivity].
    apply Qle_bool_iff in Hle. unfold MAX_DOWNLOAD_AGE in Hle.
    exfalso. exact (Qlt_irrefl _ (Qlt_le_trans _ _ _ Hold Hle)).
Qed.

(** X18. When no removal fails, a second pass of the janitor at the
    same time changes nothing. *)
Theorem cleanup_idempotent (fs : FS) (Hrem : forall p, removable p = true) :
  cleanup_old_files now removable (cleanup_old_files now removable fs)
  = cleanup_old_files now removable fs.
Proof.
  unfold cleanup_old_files at 1. apply cleanup_loop_idle.
  intros f Hf. set (fs' := cleanup_old_files now removable fs) in *.
  destruct (os_path_isfile fs' _) eqn:Hfile; [|reflexivity].
  destruct (expired now fs' _) eqn:Hexp; [|reflexivity].
  exfalso.
  destruct (cleanup_loop_sound (fs_listdir fs) fs) as (I1 & _ & I3).
  fold (cleanup_old_files now removable fs) in I1, I3. fold fs' in I1, I3.
  destruct (fs_stat fs' !! OsPath.join DOWNLOAD_FOLDER f) as [s|] eqn:Hs.
  2:{ unfold os_path_isfile in Hfile. now rewrite Hs in Hfile. }
  pose proof (I1 _ _ Hs) as Hs0.
  assert (Hsame : fs_stat fs' !! OsPath.join DOWNLOAD_FOLDER f
                  = fs_stat fs !! OsPath.join DOWNLOAD_FOLDER f) by congruence.
  destruct (same_stat_isfile _ _ _ Hsame) as [Hf1 He1].
  destruct (cleanup_loop_complete (fs_listdir fs) fs f Hrem (I3 f Hf)) as [Hgone _];
    [congruence|congruence|].
  fold (cleanup_old_files now removable fs) in Hgone. fold fs' in Hgone. congruence.
Qed.

End Janitor.

(** ** The search and metadata adapters *)

Lemma short_description_bound (n : nat) (entry : Entry) :
  short_description n entry = ""
  \/ exists t, short_description n entry = t +:+ "..."
                /\ (String.length t <= n)%nat.
Proof.
  unfold short_description. destruct (PyStr.truthy _); [right|now left].
  eexists. split; [reflexivity|].
  rewrite <- list_ascii_length, list_ascii_take. apply firstn_le_length.
Qed.

Lemma string_app_length (a b : string) :
  String.length (a +:+ b) = (String.length a + String.length b)%nat.
Proof.
  induction a as [|c a IH]; [reflexivity|].
  change (S (String.length (a +:+ b)) = S (String.length a + String.length b)).
  now rewrite IH.
Qed.

Lemma video_summary_consistent entry v :
  video_summary entry = Ret v -> summary_consistent v.
Proof.
  unfold video_summary.
  destruct (format_views (dict_get_default (e_view_count entry) 0)) as [vf|e] eqn:Hv;
    [|discriminate].
  intros [= <-]. unfold summary_consistent. cbn.
  split; [reflexivity|]. split; [reflexivity|]. split; [exact Hv|].
  destruct (short_description_bound 200 entry) as [->|(t & -> & Ht)].
  - split; [cbn; lia|now left].
  - split; [rewrite string_app_length; cbn; lia|]. right. now exists t.
Qed.

Lemma collect_videos_spec entries acc :
  match collect_videos entries acc with
  | Ret videos =>
      exists new, videos = app acc new
                  /\ Forall2 (fun e v => video_summary e = Ret v)
                             (kept_entries entries) new
  | Raise msg =>
      exists e, In e (kept_entries entries) /\ video_summary e = Raise msg
  end.
Proof.
  revert acc. induction entries as [|[entry|] rest IH]; intros acc;
    cbn [collect_videos kept_entries omap list_omap mbind option_bind].
  - exists []. split; [now rewrite app_nil_r|constructor].
  - destruct (entry_truthy entry) eqn:Ht.
    + destruct (video_summary entry) as [v|msg] eqn:Hv.
      * specialize (IH (app acc [v])).
        destruct (collect_videos rest (app acc [v])) as [videos|msg].
        -- destruct IH as (new & -> & Hnew). exists (v :: new).
           split; [now rewrite <- app_assoc|]. now constructor.
        -- destruct IH as (e & He & Hr). exists e. split; [now right|exact Hr].
      * exists entry. split; [now left|exact Hv].
    + apply IH.
  - apply IH.
Qed.

Lemma collect_videos_raises entries acc e msg :
  In e (kept_entries entries) -> video_summary e = Raise msg ->
  exists msg', collect_videos entries acc = Raise msg'.
Proof.
  revert acc. induction entries as [|[entry|] rest IH]; intros acc;
    cbn [collect_videos kept_entries omap list_omap mbind option_bind].
  - intros [].
  - destruct (entry_truthy entry) eqn:Ht.
    + intros Hin Hr. destruct (video_summary entry) as [v|msg0] eqn:Hv.
      * destruct Hin as [->|Hin]; [congruence|]. now apply IH.
      * now eexists.
    + apply IH.
  - apply IH.
Qed.

Section AdapterFacts.

Context (ydl_search : string -> outcome (option (option (list (option Entry)))))
        (ydl_info : string -> outcome (option Entry)).

(** X19. When the collaborator returns entries whose view counts are
    below 2^1000, the search adapter returns one dict per entry that is
    neither [None] nor an empty dict, in the collaborator's order, each
    built from its entry. *)
Theorem search_results_follow_entries
    (query : string) (max_results : Z) (entries : list (option Entry))
    (Hsearch : ydl_search ("ytsearch" +:+ pretty max_results +:+ ":" +:+ query)
               = Ret (Some (Some entries)))
    (Hviews : forall e v, In e (kept_entries entries) ->
                          dict_get_default (e_view_count e) 0 = Some v ->
                          v < 2 ^ 1000) :
  Forall2 (fun e v => video_summary e = Ret v)
          (kept_entries entries)
          (search_youtube_videos ydl_search query max_results).
Proof.
  unfold search_youtube_videos. rewrite Hsearch.
  pose proof (collect_videos_spec entries []) as Hspec.
  destruct (collect_videos entries []) as [videos|msg].
  - destruct Hspec as (new & -> & Hnew). exact Hnew.
  - exfalso. destruct Hspec as (e & He & Hr). unfold video_summary in Hr.
    destruct (format_views_defined (dict_get_default (e_view_count e) 0)) as [s Hs].
    + destruct (dict_get_default (e_view_count e) 0) as [v|] eqn:Hv; [|exact I].
      now apply (Hviews e v).
    + now rewrite Hs in Hr.
Qed.

(** X20. Whatever the collaborator does, every dict the search adapter
    returns is consistent: its URL is the watch URL of its identifier,
    its formatted duration and views are those of its raw duration and
    views, and its description is empty or at most 200 characters
    followed by three dots. *)
Theorem search_results_consistent (query : string) (max_results : Z) :
  Forall summary_consistent (search_youtube_videos ydl_search query max_results).
Proof.
  unfold search_youtube_videos.
  destruct (ydl_search _) as [[[entries|]|]|e]; try constructor.
  pose proof (collect_videos_spec entries []) as Hspec.
  destruct (collect_videos entries []) as [videos|msg]; [|constructor].
  destruct Hspec as (new & -> & Hnew). cbn [app].
  induction Hnew as [|e v es vs Hv _ IH]; constructor; [|exact IH].
  now apply video_summary_consistent with e.
Qed.

(** X21. One entry whose view count overflows the float division empties
    the whole result: the exception of the formatter is caught around
    the loop, not around the entry. *)
Theorem search_overflow_empties_result
    (query : string) (max_results : Z) (entries : list (option Entry))
    (e : Entry) (msg : string)
    (Hsearch : ydl_search ("ytsearch" +:+ pretty max_results +:+ ":" +:+ query)
               = Ret (Some (Some entries)))
    (Hkept : In e (kept_entries entries))
    (Hoverflow : format_views (dict_get_default (e_view_count e) 0) = Raise msg) :
  search_youtube_videos ydl_search query max_results = [].
Proof.
  unfold search_youtube_videos. rewrite Hsearch.
  destruct (collect_videos_raises entries [] e msg Hkept) as [msg' ->]; [|reflexivity].
  unfold video_summary. now rewrite Hoverflow.
Qed.

(** X22. The metadata adapter never fails: an exception of the
    collaborator comes back as an error record with the exception's
    message, a [None] result as an error record, and a result whose
    view count is below 2^1000 as a detail dict whose formatted fields
    are those of its raw fields and whose description is empty or at
    most 300 characters followed by three dots. *)
Theorem get_video_info_cases (url : string) :
  match ydl_info url with
  | Raise e => get_video_info ydl_info url = InfoError e
  | Ret None => exists msg, get_video_info ydl_info url = InfoError msg
  | Ret (Some info) =>
      (forall v, dict_get_default (e_view_count info) 0 = Some v -> v < 2 ^ 1000) ->
      exists d, get_video_info ydl_info url = InfoOk d
                /\ vd_video_id d = dict_get_default (e_id info) ""
                /\ vd_duration_formatted d = format_duration (vd_duration d)
                /\ format_views (vd_views d) = Ret (vd_views_formatted d)
                /\ (vd_description d = ""
                    \/ exists t, vd_description d = t +:+ "..."
                                  /\ (String.length t <= 300)%nat)
  end.
Proof.
  unfold get_video_info. destruct (ydl_info url) as [[info|]|e];
    [|now eexists|reflexivity].
  intros Hviews. unfold video_detail.
  destruct (format_views_defined (dict_get_default (e_view_count info) 0)) as [s Hs].
  { destruct (dict_get_default (e_view_count info) 0) as [v|] eqn:Hv; [|exact I].
    now apply Hviews. }
  rewrite Hs. eexists. split; [reflexivity|]. cbn.
  repeat split; auto. apply short_description_bound.
Qed.

End AdapterFacts.

(** ** From a search result back to its identifier *)

Lemma all_chars_impl (f g : ascii -> bool) (s : string) :
  (forall c, f c = true -> g c = true) ->
  Urllib.all_chars f s = true -> Urllib.all_chars g s = true.
Proof.
  intros Hfg. induction s as [|c s IH]; [reflexivity|]. cbn.
  intros [Hc Hs]%andb_true_iff. now rewrite (Hfg c Hc), IH.
Qed.

Lemma filter_chars_all (f : ascii -> bool) (s : string) :
  Urllib.all_chars f s = true -> Urllib.filter_chars f s = s.
Proof.
  induction s as [|c s IH]; [reflexivity|]. cbn.
  intros [Hc Hs]%andb_true_iff. now rewrite Hc, IH.
Qed.

Lemma span_until_all (stop : ascii -> bool) (s : string) :
  Urllib.all_chars (fun c => negb (stop c)) s = true ->
  Urllib.span_until stop s = (s, "").
Proof.
  induction s as [|c s IH]; [reflexivity|]. cbn.
  intros [Hc Hs]%andb_true_iff. apply negb_true_iff in Hc.
  now rewrite Hc, IH.
Qed.

Lemma replace_char_all (a b : ascii) (s : string) :
  Urllib.all_chars (fun c => negb (Ascii.eqb c a)) s = true ->
  PyStr.replace_char a b s = s.
Proof.
  induction s as [|c s IH]; [reflexivity|]. cbn.
  intros [Hc Hs]%andb_true_iff. apply negb_true_iff in Hc.
  now rewrite Hc, IH.
Qed.

Lemma unquote_all (s : string) :
  Urllib.all_chars (fun c => negb (Ascii.eqb c "%")) s = true ->
  Urllib.unquote s = s.
Proof.
  induction s as [|c s IH]; [reflexivity|]. cbn [Urllib.all_chars Urllib.unquote].
  intros [Hc Hs]%andb_true_iff. apply negb_true_iff in Hc.
  now rewrite Hc, IH.
Qed.

Lemma split_all (c : ascii) (s : string) :
  Urllib.all_chars (fun d => negb (Ascii.eqb c d)) s = true ->
  Urllib.split c s = [s].
Proof.
  induction s as [|d s IH]; [reflexivity|]. cbn [Urllib.all_chars Urllib.split].
  intros [Hc Hs]%andb_true_iff. apply negb_true_iff in Hc.
  now rewrite IH, Hc.
Qed.

Lemma id_char_plain (c : ascii) :
  id_char c = true ->
  PyStr.mem_char c (String "009" (String "010" (String "013" "#?&=+%;"))) = false.
Proof.
  destruct c as [[] [] [] [] [] [] [] []]; vm_compute; congruence.
Qed.

Lemma all_chars_app (f : ascii -> bool) (a b : string) :
  Urllib.all_chars f (a +:+ b) = Urllib.all_chars f a && Urllib.all_chars f b.
Proof.
  induction a as [|c a IH]; [reflexivity|].
  change (f c && Urllib.all_chars f (a +:+ b)
          = f c && Urllib.all_chars f a && Urllib.all_chars f b).
  now rewrite IH, andb_assoc.
Qed.

Lemma id_chars_avoid (stop : ascii -> bool) (id : string) :
  (forall c, stop c = true ->
             PyStr.mem_char c (String "009" (String "010" (String "013" "#?&=+%;")))
             = true) ->
  Urllib.all_chars id_char id = true ->
  Urllib.all_chars (fun c => negb (stop c)) id = true.
Proof.
  intros Hstop. apply all_chars_impl. intros c Hc%id_char_plain.
  apply negb_true_iff. destruct (stop c) eqn:Hs; [|reflexivity].
  apply Hstop in Hs. congruence.
Qed.

Ltac avoided :=
  apply id_chars_avoid; [|assumption];
  let c := fresh "c" in
  intros c;
  first [ intros ->%Ascii.eqb_eq; reflexivity
        | intros <-%Ascii.eqb_eq; reflexivity
        | let H := fresh in
          intros H; cbn in H |- *;
          repeat (apply orb_true_iff in H; destruct H as [H|H]);
          try discriminate H;
          apply Ascii.eqb_eq in H; subst c; reflexivity ].

Lemma watch_url_parsed (id : string) :
  Urllib.all_chars id_char id = true ->
  Urllib.urlparse ("https://www.youtube.com/watch?v=" +:+ id)
  = Ret {| scheme := "https"; netloc := "www.youtube.com"; path := "/watch";
           params := ""; query := "v=" +:+ id; fragment := "" |}.
Proof.
  intros Hid. unfold Urllib.urlparse.
  cbv [String.append]. fold String.append.
  set (u := String "h" _).
  assert (Hstrip : Urllib.lstrip_c0 u = u) by reflexivity.
  rewrite Hstrip. clear Hstrip.
  rewrite (filter_chars_all _ u).
  2:{ change u with ("https://www.youtube.com/watch?v=" +:+ id).
      rewrite all_chars_app. apply andb_true_iff. split; [reflexivity|].
      apply (id_chars_avoid (fun c => PyStr.mem_char c _)); [|assumption].
      intros c Hc. cbn in Hc |- *.
      repeat (apply orb_true_iff in Hc; destruct Hc as [Hc|Hc]);
        try discriminate Hc; apply Ascii.eqb_eq in Hc; subst c; reflexivity. }
  assert (Hscheme : Urllib.split_once ":" u
                    = Some ("https", "//www.youtube.com/watch?v=" +:+ id))
    by reflexivity.
  rewrite Hscheme. clear Hscheme. cbv beta iota.
  change (Urllib.is_alpha "h" && Urllib.all_chars Urllib.scheme_char "https")
    with true.
  cbv beta iota. clear u.
  change (PyStr.startswith "//" ("//www.youtube.com/watch?v=" +:+ id)) with true.
  cbv beta iota.
  change (Urllib.span_until _ (PyStr.drop 2 ("//www.youtube.com/watch?v=" +:+ id)))
    with ("www.youtube.com", "/watch?v=" +:+ id).
  cbv beta iota.
  change (xorb _ _) with false. cbv beta iota.
  assert (Hfragment : Urllib.split_once "#" ("/watch?v=" +:+ id) = None).
  { unfold Urllib.split_once. rewrite span_until_all; [reflexivity|].
    rewrite all_chars_app. apply andb_true_iff. split; [reflexivity|]. avoided. }
  rewrite Hfragment. clear Hfragment. cbv beta iota delta [default].
  change (Urllib.split_once "?" ("/watch?v=" +:+ id))
    with (Some ("/watch", "v=" +:+ id)).
  cbv beta iota delta [Datatypes.id].
  change (PyStr.mem_char ";" "/watch") with false.
  rewrite andb_false_r. reflexivity.
Qed.

Lemma watch_query_parsed (id : string) :
  id <> "" -> Urllib.all_chars id_char id = true ->
  Urllib.parse_qs ("v=" +:+ id) = Ret {[ "v" := [id] ]}.
Proof.
  intros Hne Hid. unfold Urllib.parse_qs.
  rewrite split_all.
  2:{ rewrite all_chars_app. apply andb_true_iff. split; [reflexivity|]. avoided. }
  cbn [Urllib.parse_qsl_pairs].
  change (Urllib.split_once "=" ("v=" +:+ id)) with (Some ("v", id)).
  destruct id as [|c id']; [congruence|].
  set (id := String c id') in *. cbn [foldl fst snd].
  change (Urllib.unquote (PyStr.replace_char "+" " " "v")) with "v".
  rewrite replace_char_all by avoided. rewrite unquote_all by avoided.
  rewrite lookup_empty. reflexivity.
Qed.

(** X23. The URL the search adapter gives a result leads back to the
    result's identifier: for a non-empty identifier of letters, digits,
    hyphens and underscores, [get_video_id] over the library's URL
    parsing returns the identifier from the result's URL. *)
Theorem search_url_round_trip (entry : Entry) (v : VideoSummary) (id : string)
    (Hsummary : video_summary entry = Ret v)
    (Hid : vs_id v = Some id)
    (Hne : id <> "")
    (Hchars : Urllib.all_chars id_char id = true) :
  get_video_id Urllib.urlparse Urllib.parse_qs (vs_url v) = Some id.
Proof.
  apply video_summary_consistent in Hsummary. destruct Hsummary as (Hurl & _).
  rewrite Hurl, Hid. cbn [format_str].
  unfold get_video_id. rewrite watch_url_parsed by assumption.
  cbn [netloc query path].
  change (existsb _ youtube_domains) with true.
  change (PyStr.contains "youtu.be" (PyStr.lower "www.youtube.com")) with false.
  cbv beta iota.
  rewrite watch_query_parsed by assumption.
  now rewrite lookup_singleton_eq.
Qed.

(** ** The further properties on concrete inputs *)

Lemma get_video_id_abc :
  get_video_id Urllib.urlparse Urllib.parse_qs "https://youtu.be/abc" = Some "abc".
Proof. vm_compute. reflexivity. Qed.

Lemma abc_nonempty : "abc" <> "".
Proof. discriminate. Qed.

Lemma download_video_ends_job_witness :
  exists res st',
    download_video Urllib.urlparse Urllib.parse_qs PyFloat.round collaborator_clip
      "https://youtu.be/abc" (JArray []) false (world_of fs_clip) st_one_job
    = (Ret res, st')
    /\ exists e,
         res = (None, Some e)
         /\ download_progress st' = download_progress st_one_job
         /\ download_metadata st' = download_metadata st_one_job
         /\ progress_of st' "abc"
            = (set_error (Some e) ∘ set_status Error) <$> progress_of st_one_job "abc".
Proof.
  exact (download_video_ends_job Urllib.urlparse Urllib.parse_qs PyFloat.round
           collaborator_clip "https://youtu.be/abc" (JArray []) false
           (world_of fs_clip) st_one_job "abc" get_video_id_abc abc_nonempty).
Defined.

Lemma download_video_collaborator_failure_witness :
  exists st' r,
    download_video Urllib.urlparse Urllib.parse_qs PyFloat.round collaborator_failing
      "https://youtu.be/abc" JNull false (world_of fs_clip) st_one_job
    = (Ret (None, Some "network down"), st')
    /\ progress_of st' "abc" = Some r
    /\ pr_status r = Error /\ pr_error r = Some "network down"
    /\ pr_filename r = None /\ pr_end_time r = None
    /\ download_metadata st' = download_metadata st_one_job.
Proof.
  destruct (ydl_opts_for_built JNull false eq_refl) as [ydl_opts Hopts].
  apply (download_video_collaborator_failure Urllib.urlparse Urllib.parse_qs
           PyFloat.round collaborator_failing "https://youtu.be/abc" JNull false
           (world_of fs_clip) st_one_job "abc" ydl_opts "network down"
           get_video_id_abc abc_nonempty Hopts eq_refl).
  repeat constructor.
Defined.

Lemma download_video_other_jobs_witness :
  progress_of
    (download_video Urllib.urlparse Urllib.parse_qs PyFloat.round collaborator_clip
       "https://youtu.be/xyz" JNull true (world_of fs_clip) st_one_job).2 "abc"
  = Some record_at_start.
Proof.
  assert (Hid : get_video_id Urllib.urlparse Urllib.parse_qs "https://youtu.be/xyz"
                = Some "xyz") by (vm_compute; reflexivity).
  assert (Hne : "xyz" <> "") by discriminate.
  assert (Hother : "abc" <> "xyz") by discriminate.
  apply (proj1 (download_video_other_jobs Urllib.urlparse Urllib.parse_qs
                  PyFloat.round collaborator_clip "https://youtu.be/xyz" JNull true
                  (world_of fs_clip) st_one_job "xyz" "abc" Hid Hne Hother
                  (or_introl eq_refl))).
  vm_compute. reflexivity.
Defined.

Lemma download_video_overwrites_witness :
  (download_video Urllib.urlparse Urllib.parse_qs PyFloat.round collaborator_clip
     "https://youtu.be/abc" JNull true (world_of fs_clip) st_one_job).1
  = (download_video Urllib.urlparse Urllib.parse_qs PyFloat.round collaborator_clip
       "https://youtu.be/abc" JNull true (world_of fs_clip) st_completed).1.
Proof.
  exact (proj1 (download_video_overwrites Urllib.urlparse Urllib.parse_qs
                  PyFloat.round collaborator_clip "https://youtu.be/abc" JNull true
                  (world_of fs_clip) st_one_job st_completed "abc"
                  get_video_id_abc abc_nonempty eq_refl)).
Defined.

Lemma progress_hook_on_record_witness :
  exists o st' r',
    progress_hook PyFloat.round tick_finished "abc" st_one_job = (o, st')
    /\ progress_of st' "abc" = Some r'
    /\ hook_keeps record_at_start r'
    /\ pr_progress r' = 100%Q /\ pr_status r' = Processing.
Proof.
  assert (Hrec : progress_of st_one_job "abc" = Some record_at_start)
    by (vm_compute; reflexivity).
  destruct (progress_hook_on_record PyFloat.round tick_finished "abc" st_one_job
              record_at_start Hrec)
    as (o & st' & r' & E & Hr & Hkeeps & _ & _ & Hfinished).
  exists o, st', r'. split; [exact E|]. split; [exact Hr|].
  split; [exact Hkeeps|]. now apply Hfinished.
Defined.

Lemma download_starts_job_witness :
  exists st',
    download Urllib.urlparse Urllib.parse_qs
      {| req_url := Some "https://youtu.be/abc";
         req_quality := Some (JString "720p");
         req_audio_only := None |} st_completed
    = (Ret (Json 200 (BVideoId "abc"),
            [DownloadVideo "https://youtu.be/abc" (JString "720p") false]), st')
    /\ download_progress st' = delete "abc" (download_progress st_completed).
Proof.
  assert (Hurl : "https://youtu.be/abc" <> "") by discriminate.
  destruct (download_starts_job Urllib.urlparse Urllib.parse_qs
              "https://youtu.be/abc" (Some (JString "720p")) None st_completed "abc"
              Hurl get_video_id_abc abc_nonempty) as (st' & E & Hp & _).
  exists st'. split; [exact E|exact Hp].
Defined.

Lemma completed_download_refused_witness :
  os_path_exists fs_ellipsis "downloads/Wait..._abc.mp4" = true
  /\ (download_file PyFloat.round "abc" (world_of fs_ellipsis)
        (download_video Urllib.urlparse Urllib.parse_qs PyFloat.round
           collaborator_ellipsis "https://youtu.be/abc" JNull false
           (world_of fs_ellipsis) st_one_job).2).1
     = Ret (Json 400 (BError "Invalid filename"), []).
Proof.
  split; [vm_compute; reflexivity|].
  destruct (ydl_opts_for_built JNull false eq_refl) as [ydl_opts Hopts].
  assert (Hticks : Forall (fun d => hook_raises d = false)
                     (run_ticks (collaborator_ellipsis ydl_opts
                                   "https://youtu.be/abc")))
    by (repeat constructor).
  assert (Hfound : locate_download (w_fs (world_of fs_ellipsis))
                     (expected_filename_of info_ellipsis false) "abc"
                   = Some "downloads/Wait..._abc.mp4")
    by (vm_compute; reflexivity).
  assert (Hp : "downloads/Wait..._abc.mp4" <> "") by discriminate.
  assert (Hdots : occurs_in ".." (OsPath.basename "downloads/Wait..._abc.mp4")).
  { exists "Wait", "._abc.mp4". vm_compute. reflexivity. }
  rewrite (completed_download_refused Urllib.urlparse Urllib.parse_qs PyFloat.round
             collaborator_ellipsis "https://youtu.be/abc" JNull false
             (world_of fs_ellipsis) (world_of fs_ellipsis) st_one_job "abc"
             "downloads/Wait..._abc.mp4" ydl_opts info_ellipsis
             get_video_id_abc abc_nonempty Hopts eq_refl Hticks Hfound Hp Hdots).
  reflexivity.
Defined.

Lemma completed_download_served_witness :
  (download_file PyFloat.round "abc" (world_of fs_clip)
     (download_video Urllib.urlparse Urllib.parse_qs PyFloat.round
        collaborator_clip "https://youtu.be/abc" JNull true
        (world_of fs_clip) st_one_job).2).1
  = Ret (Attachment "downloads/Clip_abc.mp3" "Clip.mp3", [Cleanup "abc"]).
Proof.
  destruct (ydl_opts_for_built JNull true eq_refl) as [ydl_opts Hopts].
  assert (Hticks : Forall (fun d => hook_raises d = false)
                     (run_ticks (collaborator_clip ydl_opts "https://youtu.be/abc")))
    by (repeat constructor).
  assert (Hfound : locate_download (w_fs (world_of fs_clip))
                     (expected_filename_of info_clip true) "abc"
                   = Some "downloads/Clip_abc.mp3")
    by (vm_compute; reflexivity).
  assert (Hp : "downloads/Clip_abc.mp3" <> "") by discriminate.
  assert (Hsafe : PyStr.contains ".." (OsPath.basename "downloads/Clip_abc.mp3") = false
                  /\ PyStr.startswith "/" (OsPath.basename "downloads/Clip_abc.mp3")
                     = false)
    by (split; vm_compute; reflexivity).
  assert (Hthere : os_path_exists (w_fs (world_of fs_clip))
                     (OsPath.join DOWNLOAD_FOLDER
                        (OsPath.basename "downloads/Clip_abc.mp3")) = true
                   /\ 0 < os_path_getsize (w_fs (world_of fs_clip))
                             (OsPath.join DOWNLOAD_FOLDER
                                (OsPath.basename "downloads/Clip_abc.mp3")))
    by (split; vm_compute; reflexivity).
  pose proof (completed_download_served Urllib.urlparse Urllib.parse_qs PyFloat.round
                collaborator_clip "https://youtu.be/abc" JNull true
                (world_of fs_clip) (world_of fs_clip) st_one_job "abc"
                "downloads/Clip_abc.mp3" ydl_opts info_clip
                get_video_id_abc abc_nonempty Hopts eq_refl Hticks Hfound Hp Hsafe
                Hthere eq_refl) as Hserved.
  cbv beta iota zeta delta [dict_get_default info_title info_clip] in Hserved.
  rewrite Hserved. vm_compute. reflexivity.
Defined.

(** a list as quality: the options are not built, no record is made *)
Example download_video_list_quality :
  download_video Urllib.urlparse Urllib.parse_qs PyFloat.round collaborator_clip
    "https://youtu.be/abc" (JArray [JString "720p"]) false (world_of fs_clip) st_idle
  = (Ret (None, Some "unhashable type: 'list'"), st_idle).
Proof. vm_compute. reflexivity. Qed.

(** a title bound to [None]: the download completes, the file end point
    fails *)
Example download_file_untitled :
  (download_video Urllib.urlparse Urllib.parse_qs PyFloat.round collaborator_untitled
     "https://youtu.be/abc" JNull false (world_of fs_untitled) st_idle).1
  = Ret (Some "downloads/NA_abc.mp4", None)
  /\ (download_file PyFloat.round "abc" (world_of fs_untitled)
        (download_video Urllib.urlparse Urllib.parse_qs PyFloat.round
           collaborator_untitled "https://youtu.be/abc" JNull false
           (world_of fs_untitled) st_idle).2).1
     = Raise "expected string or bytes-like object, got 'NoneType'".
Proof. split; vm_compute; reflexivity. Qed.

Lemma format_duration_fields_witness :
  exists pre ss,
    format_duration (Some 3725) = pre +:+ ":" +:+ ss
    /\ String.length ss = 2%nat.
Proof.
  assert (Hnz : 3725 <> 0) by lia.
  destruct (format_duration_fields 3725 Hnz) as (pre & ss & E & Hlen & _).
  exists pre, ss. split; [exact E|exact Hlen].
Defined.

Lemma format_views_returns_witness :
  exists s, format_views (Some 1250) = Ret s
            /\ exists digits, s = digits +:+ "K".
Proof.
  assert (Hbound : 1250 < 2 ^ 1000) by (vm_compute; reflexivity).
  destruct (format_views_returns 1250 Hbound) as (s & E & _ & Hk & _).
  exists s. split; [exact E|]. apply Hk. lia.
Defined.

Lemma cleanup_removes_all_expired_witness :
  fs_stat (cleanup_old_files 10000 (fun _ => true) fs_two_ages)
    !! OsPath.join DOWNLOAD_FOLDER "old.mp4" = None
  /\ ~ In "old.mp4" (fs_listdir (cleanup_old_files 10000 (fun _ => true) fs_two_ages)).
Proof.
  apply (cleanup_removes_all_expired 10000 (fun _ => true) fs_two_ages "old.mp4"
           (stat_file 10 1000)).
  - reflexivity.
  - now left.
  - vm_compute. reflexivity.
  - reflexivity.
  - vm_compute. reflexivity.
Defined.

Lemma cleanup_idempotent_witness :
  cleanup_old_files 10000 (fun _ => true)
    (cleanup_old_files 10000 (fun _ => true) fs_two_ages)
  = cleanup_old_files 10000 (fun _ => true) fs_two_ages.
Proof.
  apply cleanup_idempotent. reflexivity.
Defined.

Lemma search_results_follow_entries_witness :
  Forall2 (fun e v => video_summary e = Ret v)
          [entry_clip] (search_youtube_videos search_clip "clip" 20).
Proof.
  apply (search_results_follow_entries search_clip "clip" 20
           [None; Some entry_clip] eq_refl).
  intros e v [<-|[]] [= <-]. vm_compute. reflexivity.
Defined.

Lemma search_overflow_empties_result_witness :
  search_youtube_videos search_overflow "clip" 20 = [].
Proof.
  apply (search_overflow_empties_result search_overflow "clip" 20
           [Some entry_clip; Some entry_overflow] entry_overflow
           "integer division result too large for a float" eq_refl).
  - right. now left.
  - vm_compute. reflexivity.
Defined.

Lemma get_video_info_cases_witness :
  exists d, get_video_info info_of_clip "https://youtu.be/dQw4w9WgXcQ" = InfoOk d
            /\ vd_video_id d = Some "dQw4w9WgXcQ".
Proof.
  pose proof (get_video_info_cases info_of_clip "https://youtu.be/dQw4w9WgXcQ") as H.
  cbv beta iota delta [info_of_clip] in H.
  destruct H as (d & E & Hid & _).
  - intros v [= <-]. vm_compute. reflexivity.
  - exists d. split; [exact E|exact Hid].
Defined.

Lemma search_url_round_trip_witness :
  exists v, video_summary entry_clip = Ret v
            /\ get_video_id Urllib.urlparse Urllib.parse_qs (vs_url v)
               = Some "dQw4w9WgXcQ".
Proof.
  destruct (video_summary entry_clip) as [v|msg] eqn:Hv; [|vm_compute in Hv; discriminate Hv].
  exists v. split; [reflexivity|].
  apply (search_url_round_trip entry_clip v "dQw4w9WgXcQ" Hv).
  - vm_compute in Hv. injection Hv as <-. reflexivity.
  - discriminate.
  - vm_compute. reflexivity.
Defined.
